(** * Verida client: DID documents, storage contexts and account auth

    A shallow embedding of classes of the verida-js monorepo, the
    properties their specification states about them and further
    properties of the code:

    - [DIDDocument]            (packages/did-document/src/did-document.ts)
    - [MessagingEngineVerida]  (packages/client-ts/.../messaging/engine.ts)
    - [Context]                (packages/client-ts/src/context/context.ts)
    - [AutoAccount]            (packages/account-node/src/auto.ts)
    - [VaultAccount]           (the account of the web Vault)
    - [Credentials]            (packages/verifiable-credentials/src/...)

    JavaScript objects are records, optional properties are [option]s,
    arrays are lists, objects used as dictionaries are [gmap]s read through
    the prototype-aware [Js.get_property], and methods are computations in a
    state and exception monad whose state is the receiver.  Awaited calls to
    collaborators outside these classes are parameters, gathered in one
    class of collaborators per module.

    The first part holds the model, the second (from [Properties] on) the
    statements and their proofs. *)

From Stdlib Require Import String Ascii List Bool Arith Lia ZArith.
From stdpp Require Import base tactics option list strings countable gmap.

Local Open Scope string_scope.

(** ** JavaScript run-time notions shared by the classes *)
Module Js.

(** *** Exceptions and the method monad *)

(** [TypeError] is raised by the engine (calling or reading through
    [undefined]); its argument names the failing access, the engine's own
    wording being version dependent.  [Error] is [new Error(msg)] thrown by the
    program, with the message as written in the source. *)
Inductive exn : Type :=
| TypeError (what : string)
| Error (msg : string).

(** Outcome of running a method on a receiver of type [S].  An exception
    carries the receiver as it stands when the exception leaves the method,
    so half-applied updates stay visible.  [Unmodelled] marks an execution
    that leaves the fragment of JavaScript given a meaning here. *)
Inductive res (S A : Type) : Type :=
| Ok (a : A) (s : S)
| Throw (e : exn) (s : S)
| Unmodelled.
Arguments Ok {S A} a s.
Arguments Throw {S A} e s.
Arguments Unmodelled {S A}.

Definition M (S A : Type) : Type := S -> res S A.

Definition ret {S A} (a : A) : M S A := fun s => Ok a s.

Definition bind {S A B} (c : M S A) (k : A -> M S B) : M S B :=
  fun s => match c s with
           | Ok a s' => k a s'
           | Throw e s' => Throw e s'
           | Unmodelled => Unmodelled
           end.

Definition get {S} : M S S := fun s => Ok s s.
Definition modify {S} (f : S -> S) : M S unit := fun s => Ok tt (f s).
Definition throw {S A} (e : exn) : M S A := fun s => Throw e s.
Definition unmodelled {S A} : M S A := fun _ => Unmodelled.

(** [await p] for a promise that has settled: its value, or its rejection
    rethrown. *)
Definition await {S A} (p : exn + A) : M S A :=
  match p with
  | inr a => ret a
  | inl e => throw e
  end.

(** *** Strings *)

(** [String.prototype.toLowerCase] on the ASCII range, the alphabet of DID
    syntax: [A]..[Z] map to [a]..[z], every other character is kept. *)
Definition lower_ascii (c : ascii) : ascii :=
  let n := nat_of_ascii c in
  if Nat.leb 65 n && Nat.leb n 90 then ascii_of_nat (n + 32) else c.

Fixpoint toLowerCase (s : string) : string :=
  match s with
  | EmptyString => EmptyString
  | String c s' => String (lower_ascii c) (toLowerCase s')
  end.

(** Truthiness of a string value: only the empty string is falsy. *)
Definition truthy (s : string) : bool :=
  match s with EmptyString => false | String _ _ => true end.

(** Truthiness of an optional string property ([undefined] is falsy). *)
Definition truthy_opt (o : option string) : bool :=
  match o with Some s => truthy s | None => false end.

(** [s.substr(start)]: the characters from index [start] on. *)
Definition substr (start : nat) (s : string) : string :=
  substring start (String.length s - start) s.

(** [Buffer.from(s, 'hex')]: pairs of hexadecimal digits, up to the first
    pair that is not one. *)
Definition hexDigit (c : ascii) : option nat :=
  let n := nat_of_ascii c in
  if Nat.leb 48 n && Nat.leb n 57 then Some (n - 48)
  else if Nat.leb 97 n && Nat.leb n 102 then Some (n - 87)
  else if Nat.leb 65 n && Nat.leb n 70 then Some (n - 55)
  else None.

Fixpoint bufferFromHex (s : string) : list Byte.byte :=
  match s with
  | String h (String l rest) =>
      match hexDigit h, hexDigit l with
      | Some a, Some b =>
          byte_of_ascii (ascii_of_nat (16 * a + b)) :: bufferFromHex rest
      | _, _ => []
      end
  | _ => []
  end.

(** Two strings that differ at most in the case of their letters. *)
Inductive same_modulo_case : string -> string -> Prop :=
| smc_nil : same_modulo_case EmptyString EmptyString
| smc_cons c1 c2 s1 s2 :
    lower_ascii c1 = lower_ascii c2 ->
    same_modulo_case s1 s2 ->
    same_modulo_case (String c1 s1) (String c2 s2).

(** *** Regular expressions built from a string: [s.match(pattern)]

    [String.prototype.match] with a string argument compiles it with
    [new RegExp(pattern)] and searches the subject for a match at any
    position.  The fragment given a meaning: ordinary characters, the
    wildcard [.], and a backslash followed by a syntax character.  Every
    other pattern is outside the fragment ([compile] answers [None]). *)
Inductive atom : Type :=
| Lit (c : ascii)
| AnyChar.

Definition syntaxCharacters : list ascii :=
  ["^"; "$"; "\"; "."; "*"; "+"; "?"; "("; ")"; "["; "]"; "{"; "}"; "|"]%char.

Definition is_syntax (c : ascii) : bool :=
  existsb (Ascii.eqb c) syntaxCharacters.

Fixpoint compile (pattern : string) : option (list atom) :=
  match pattern with
  | EmptyString => Some []
  | String c rest =>
      if Ascii.eqb c "\" then
        match rest with
        | String e rest' =>
            if is_syntax e then option_map (cons (Lit e)) (compile rest')
            else None
        | EmptyString => None
        end
      else if Ascii.eqb c "." then option_map (cons AnyChar) (compile rest)
      else if is_syntax c then None
      else option_map (cons (Lit c)) (compile rest)
  end.

(** [.] matches every character but a line terminator. *)
Definition is_line_terminator (c : ascii) : bool :=
  Ascii.eqb c "010" || Ascii.eqb c "013".

Definition atom_matches (a : atom) (c : ascii) : bool :=
  match a with
  | Lit l => Ascii.eqb l c
  | AnyChar => negb (is_line_terminator c)
  end.

Fixpoint match_here (re : list atom) (s : string) : bool :=
  match re, s with
  | [], _ => true
  | a :: re', String c s' => atom_matches a c && match_here re' s'
  | _ :: _, EmptyString => false
  end.

Fixpoint search (re : list atom) (s : string) : bool :=
  match_here re s ||
  match s with
  | EmptyString => false
  | String _ s' => search re s'
  end.

(** The atoms of a string read as a pattern in which only [.] is special. *)
Fixpoint literal_atoms (s : string) : list atom :=
  match s with
  | EmptyString => []
  | String c s' =>
      (if Ascii.eqb c "." then AnyChar else Lit c) :: literal_atoms s'
  end.

(** A string whose characters stand for themselves (or for a superset, in
    the case of [.]) when it is spliced into a pattern unescaped. *)
Definition pattern_safe_char (c : ascii) : bool :=
  negb (is_syntax c) || (Ascii.eqb c "." ).

Fixpoint pattern_safe (s : string) : bool :=
  match s with
  | EmptyString => true
  | String c s' =>
      pattern_safe_char c && pattern_safe s'
  end.

(** *** Objects used as dictionaries

    An object literal inherits from [Object.prototype]; reading [o[k]] for a
    key the object does not own falls through to the prototype, so the names
    below read as (truthy) built-ins rather than [undefined]. *)
Definition objectPrototypeKeys : list string :=
  [ "constructor"; "__defineGetter__"; "__defineSetter__"; "hasOwnProperty";
    "__lookupGetter__"; "__lookupSetter__"; "isPrototypeOf";
    "propertyIsEnumerable"; "toString"; "valueOf"; "__proto__";
    "toLocaleString" ].

Inductive property (V : Type) : Type :=
| Own (v : V)
| Inherited (name : string)
| Undefined.
Arguments Own {V} v.
Arguments Inherited {V} name.
Arguments Undefined {V}.

Definition inherited_key (k : string) : bool :=
  bool_decide (k ∈ objectPrototypeKeys).

Definition get_property {V} (o : gmap string V) (k : string) : property V :=
  match o !! k with
  | Some v => Own v
  | None => if inherited_key k then Inherited k else Undefined
  end.

End Js.

(** The monad is used through stdpp's [x ← c; k] and [c;; k] notations. *)
#[export] Instance M_ret {S} : MRet (Js.M S) := @Js.ret S.
#[export] Instance M_bind {S} : MBind (Js.M S) := fun A B k c => Js.bind c k.
#[export] Instance M_fmap {S} : FMap (Js.M S) :=
  fun A B f c => Js.bind c (fun a => Js.ret (f a)).

(** ** The signing and hashing collaborator ([@verida/encryption-utils]) *)
Module EncryptionUtils.

(** A private key as [signProof] receives it: [Uint8Array | string]. *)
Inductive PrivateKey : Type :=
| KeyBytes (bytes : list Byte.byte)
| KeyString (s : string).

(** The three static methods the document manager calls, over the type
    [Data] of the values it signs.  They are collaborators outside the
    repository's sources; every statement below holds for any
    implementation, or names the property of the implementation it uses. *)
Class Primitives (Data : Type) : Type := {
  hash : string -> string;
  signData : Data -> PrivateKey -> string;
  verifySig : Data -> string -> string -> bool
}.

End EncryptionUtils.

(** ** [DIDDocument]: the manager of one DID document *)
Module DidDocument.
Import Js EncryptionUtils.

(** *** Data ([did-resolver] and [./interfaces]) *)

Record VerificationMethod : Type := {
  vm_id : string;
  vm_type : string;
  vm_controller : string;
  vm_publicKeyHex : option string
}.

Record ServiceEndpoint : Type := {
  se_id : string;
  se_type : string;
  se_serviceEndpoint : string
}.

(** An entry of [assertionMethod] or [keyAgreement]:
    [string | VerificationMethod]. *)
Inductive MethodRef : Type :=
| RefString (s : string)
| RefMethod (m : VerificationMethod).

Record ProofStruct : Type := {
  proof_type : string;
  proof_verificationMethod : string;
  proof_proofPurpose : string;
  proof_proofValue : string
}.

(** [DIDDocumentStruct]: every collection is an optional property. *)
Record DIDDocumentStruct : Type := {
  id : string;
  controller : option string;
  verificationMethod : option (list VerificationMethod);
  assertionMethod : option (list MethodRef);
  keyAgreement : option (list MethodRef);
  service : option (list ServiceEndpoint);
  proof : option ProofStruct
}.

(** The receiver: [this.doc] and [this.errors]. *)
Record DIDDocument : Type := {
  doc : DIDDocumentStruct;
  errors : list string
}.

(** Modelled from the spec: the enum [EndpointType] is declared in
    [./interfaces], which is not among the sources; section 8 of the
    specification gives the ids [...#database] and [...#messaging], and the
    storage and notification members are spelled after their names. *)
Inductive EndpointType : Type := DATABASE | MESSAGING | STORAGE | NOTIFICATION.

(** Modelled from the spec: the string an [EndpointType] member stands for
    in a template literal (see [EndpointType]). *)
Definition endpointTypeString (t : EndpointType) : string :=
  match t with
  | DATABASE => "database"
  | MESSAGING => "messaging"
  | STORAGE => "storage"
  | NOTIFICATION => "notification"
  end.

Record Endpoint : Type := {
  ep_type : string;
  ep_endpointUri : string
}.

Record Endpoints : Type := {
  database : Endpoint;
  messaging : Endpoint;
  storage : option Endpoint;
  notification : option Endpoint
}.

Record KeyringPublicKeys : Type := {
  signPublicKeyHex : string;
  asymPublicKeyHex : string
}.

(** [keyring.getKeys()] is awaited: it settles with the keys or rejects. *)
Record Keyring : Type := {
  getKeys : exn + KeyringPublicKeys
}.

(** *** Assignments to the properties of [this] and [this.doc] *)

Definition set_id (v : string) (d : DIDDocumentStruct) : DIDDocumentStruct :=
  {| id := v; controller := controller d;
     verificationMethod := verificationMethod d;
     assertionMethod := assertionMethod d; keyAgreement := keyAgreement d;
     service := service d; proof := proof d |}.

Definition set_verificationMethod (v : option (list VerificationMethod))
  (d : DIDDocumentStruct) : DIDDocumentStruct :=
  {| id := id d; controller := controller d; verificationMethod := v;
     assertionMethod := assertionMethod d; keyAgreement := keyAgreement d;
     service := service d; proof := proof d |}.

Definition set_assertionMethod (v : option (list MethodRef))
  (d : DIDDocumentStruct) : DIDDocumentStruct :=
  {| id := id d; controller := controller d;
     verificationMethod := verificationMethod d; assertionMethod := v;
     keyAgreement := keyAgreement d; service := service d; proof := proof d |}.

Definition set_keyAgreement (v : option (list MethodRef))
  (d : DIDDocumentStruct) : DIDDocumentStruct :=
  {| id := id d; controller := controller d;
     verificationMethod := verificationMethod d;
     assertionMethod := assertionMethod d; keyAgreement := v;
     service := service d; proof := proof d |}.

Definition set_service (v : option (list ServiceEndpoint))
  (d : DIDDocumentStruct) : DIDDocumentStruct :=
  {| id := id d; controller := controller d;
     verificationMethod := verificationMethod d;
     assertionMethod := assertionMethod d; keyAgreement := keyAgreement d;
     service := v; proof := proof d |}.

Definition set_proof (v : option ProofStruct)
  (d : DIDDocumentStruct) : DIDDocumentStruct :=
  {| id := id d; controller := controller d;
     verificationMethod := verificationMethod d;
     assertionMethod := assertionMethod d; keyAgreement := keyAgreement d;
     service := service d; proof := v |}.

Definition on_doc (f : DIDDocumentStruct -> DIDDocumentStruct)
  (this : DIDDocument) : DIDDocument :=
  {| doc := f (doc this); errors := errors this |}.

Definition set_errors (v : list string) (this : DIDDocument) : DIDDocument :=
  {| doc := doc this; errors := v |}.

(** *** Array methods with a callback that runs in the monad *)

Fixpoint findM {S A} (p : A -> M S bool) (l : list A) : M S (option A) :=
  match l with
  | [] => mret None
  | x :: l' => b ← p x; if b : bool then mret (Some x) else findM p l'
  end.

Fixpoint filterM {S A} (p : A -> M S bool) (l : list A) : M S (list A) :=
  match l with
  | [] => mret []
  | x :: l' =>
      b ← p x; rest ← filterM p l';
      mret (if b : bool then x :: rest else rest)
  end.

(** [s.match(pattern)], read as a boolean: does the pattern occur in [s]. *)
Definition str_match {S} (s pattern : string) : M S bool :=
  match compile pattern with
  | Some re => mret (search re s)
  | None => unmodelled
  end.

(** [if (!this.doc.p) { this.doc.p = [] }; this.doc.p.push(x)]: the property
    after the two statements. *)
Definition push {A} (arr : option (list A)) (x : A) : option (list A) :=
  Some (default [] arr ++ [x])%list.

(** [entry !== target] for an entry of [assertionMethod] or [keyAgreement]:
    an embedded method object is never strictly equal to a string. *)
Definition ref_differs (target : string) (entry : MethodRef) : bool :=
  match entry with
  | RefString s => negb (String.eqb s target)
  | RefMethod _ => true
  end.

(** The id of a context record: [`${id}?context=${contextHash}#${suffix}`]. *)
Definition contextId (did contextHash suffix : string) : string :=
  did +:+ "?context=" +:+ contextHash +:+ "#" +:+ suffix.

(** The pattern [`${id}\\?context=${contextHash}`] handed to [match]. *)
Definition contextPattern (did contextHash : string) : string :=
  did +:+ "\?context=" +:+ contextHash.

Section Methods.
Context `{!Primitives DIDDocumentStruct}.

(** *** The class *)

(** [constructor(doc: DIDDocumentStruct | string, publicKeyHex?: string)]:
    the new receiver, or the exception thrown. *)
Definition new (arg : DIDDocumentStruct + string)
  (publicKeyHex : option string) : exn + DIDDocument :=
  match arg with
  | inr s =>
      if negb (truthy_opt publicKeyHex)
         || negb (String.length (default "" publicKeyHex) =? 132)%nat
      then inl (Error
        "Unable to create DID Document. Invalid or non-existent public key.")
      else
        let did := toLowerCase s in
        inr {| doc :=
                 {| id := did; controller := Some did;
                    verificationMethod := Some [
                      {| vm_id := did;
                         vm_type := "EcdsaSecp256k1VerificationKey2019";
                         vm_controller := did;
                         vm_publicKeyHex := publicKeyHex |} ];
                    assertionMethod := Some [RefString did];
                    keyAgreement := None; service := None; proof := None |};
               errors := [] |}
  | inl d => inr {| doc := set_id (toLowerCase (id d)) d; errors := [] |}
  end.

Definition getErrors : M DIDDocument (list string) :=
  this ← get; mret (errors this).

Definition generateContextHash (did contextName : string) : string :=
  let did := toLowerCase did in
  hash (did +:+ "/" +:+ contextName).

(** [removeContext(contextName)].  Each [this.doc.p!.filter(...)] reads the
    property before it assigns the result, and throws when the property is
    absent, the earlier assignments having been made. *)
Definition removeContext (contextName : string) : M DIDDocument bool :=
  this ← get;
  let contextHash := generateContextHash (id (doc this)) contextName in
  match verificationMethod (doc this) with
  | None =>
      modify (set_errors ["No verification method specified"]);;
      mret false
  | Some vms =>
      let contextDid := contextPattern (id (doc this)) contextHash in
      found ← findM (fun entry => str_match (vm_id entry) contextDid) vms;
      match found with
      | None =>
          modify (set_errors
            ["Unable to locate verification method for this context"]);;
          mret false
      | Some _ =>
          vms' ← filterM (fun entry =>
                    negb <$> str_match (vm_id entry) contextDid) vms;
          modify (on_doc (set_verificationMethod (Some vms')));;
          match assertionMethod (doc this) with
          | None => throw (TypeError "this.doc.assertionMethod.filter")
          | Some ams =>
              modify (on_doc (set_assertionMethod (Some (List.filter
                (ref_differs (contextId (id (doc this)) contextHash "sign"))
                ams))));;
              match keyAgreement (doc this) with
              | None => throw (TypeError "this.doc.keyAgreement.filter")
              | Some kas =>
                  modify (on_doc (set_keyAgreement (Some (List.filter
                    (ref_differs
                       (contextId (id (doc this)) contextHash "asym"))
                    kas))));;
                  match service (doc this) with
                  | None => throw (TypeError "this.doc.service.filter")
                  | Some svcs =>
                      svcs' ← filterM (fun entry =>
                          negb <$> str_match (se_id entry) contextDid) svcs;
                      modify (on_doc (set_service (Some svcs')));;
                      mret true
                  end
              end
          end
      end
  end.

Definition import (d : DIDDocumentStruct) : M DIDDocument unit :=
  modify (fun this =>
    {| doc := set_id (toLowerCase (id d)) d; errors := errors this |}).

Definition export : M DIDDocument DIDDocumentStruct :=
  this ← get; mret (doc this).

Definition addContextService (contextHash : string)
  (endpointType : EndpointType) (serviceType endpointUri : string)
  : M DIDDocument unit :=
  modify (on_doc (fun d =>
    set_service (push (service d)
      {| se_id := contextId (id d) contextHash
                    (endpointTypeString endpointType);
         se_type := serviceType;
         se_serviceEndpoint := endpointUri |}) d)).

Definition addContextSignKey (contextHash publicKeyHex : string)
  : M DIDDocument unit :=
  modify (on_doc (fun d =>
    set_verificationMethod (push (verificationMethod d)
      {| vm_id := contextId (id d) contextHash "sign";
         vm_type := "EcdsaSecp256k1VerificationKey2019";
         vm_controller := id d;
         vm_publicKeyHex := Some publicKeyHex |}) d));;
  modify (on_doc (fun d =>
    set_assertionMethod (push (assertionMethod d)
      (RefString (contextId (id d) contextHash "sign"))) d)).

Definition addContextAsymKey (contextHash publicKeyHex : string)
  : M DIDDocument unit :=
  modify (on_doc (fun d =>
    set_verificationMethod (push (verificationMethod d)
      {| vm_id := contextId (id d) contextHash "asym";
         vm_type := "Curve25519EncryptionPublicKey";
         vm_controller := id d;
         vm_publicKeyHex := Some publicKeyHex |}) d));;
  modify (on_doc (fun d =>
    set_keyAgreement (push (keyAgreement d)
      (RefString (contextId (id d) contextHash "asym"))) d)).

Definition addContextOptionalService (contextHash : string)
  (endpointType : EndpointType) (endpoint : option Endpoint)
  : M DIDDocument unit :=
  match endpoint with
  | Some e =>
      addContextService contextHash endpointType (ep_type e) (ep_endpointUri e)
  | None => mret tt
  end.

Definition addContext (contextName : string) (keyring : Keyring)
  (endpoints : Endpoints) : M DIDDocument unit :=
  removeContext contextName;;
  this ← get;
  let contextHash := generateContextHash (id (doc this)) contextName in
  addContextService contextHash DATABASE
    (ep_type (database endpoints)) (ep_endpointUri (database endpoints));;
  addContextService contextHash MESSAGING
    (ep_type (messaging endpoints)) (ep_endpointUri (messaging endpoints));;
  addContextOptionalService contextHash STORAGE (storage endpoints);;
  addContextOptionalService contextHash NOTIFICATION (notification endpoints);;
  keys ← await (getKeys keyring);
  addContextSignKey contextHash (signPublicKeyHex keys);;
  addContextAsymKey contextHash (asymPublicKeyHex keys).

(** [Object.assign({}, this.doc)] followed by [delete proofData.proof]. *)
Definition getProofData (d : DIDDocumentStruct) : DIDDocumentStruct :=
  set_proof None d.

(** The first two statements of [signProof]: the test is
    [privateKey == 'string'], a comparison of the key itself with the
    word, so only that one string is decoded; a [Uint8Array] compares
    through its [toString] (decimal digits and commas) and is kept. *)
Definition signingKey (privateKey : PrivateKey) : PrivateKey :=
  match privateKey with
  | KeyString s =>
      if String.eqb s "string"
      then KeyBytes (bufferFromHex (substr 2 s))
      else privateKey
  | KeyBytes _ => privateKey
  end.

Definition signProof (privateKey : PrivateKey) : M DIDDocument unit :=
  this ← get;
  let privateKey := signingKey privateKey in
  let proofData := getProofData (doc this) in
  let signature := signData proofData privateKey in
  modify (on_doc (set_proof (Some
    {| proof_type := "EcdsaSecp256k1VerificationKey2019";
       proof_verificationMethod := id (doc this);
       proof_proofPurpose := "assertionMethod";
       proof_proofValue := signature |}))).

(** [verifySig(data: any, signature: string)]; the one caller in the class
    passes the proof data of the document. *)
Definition verifySig (data : DIDDocumentStruct) (signature : string)
  : M DIDDocument bool :=
  this ← get;
  match verificationMethod (doc this) with
  | None => throw (TypeError "this.doc.verificationMethod.find")
  | Some vms =>
      match List.find
              (fun entry => String.eqb (vm_id entry) (id (doc this))) vms with
      | None => mret false
      | Some verificationMethod =>
          if negb (truthy_opt (vm_publicKeyHex verificationMethod))
          then mret false
          else mret (EncryptionUtils.verifySig data signature
                       (default "" (vm_publicKeyHex verificationMethod)))
      end
  end.

Definition verifyProof : M DIDDocument bool :=
  this ← get;
  match proof (doc this) with
  | None => mret false
  | Some p =>
      let signature := proof_proofValue p in
      let proofData := getProofData (doc this) in
      verifySig proofData signature
  end.

Definition locateServiceEndpoint (contextName : string)
  (endpointType : EndpointType) : M DIDDocument (option ServiceEndpoint) :=
  this ← get;
  let contextHash := generateContextHash (id (doc this)) contextName in
  let expectedEndpointId :=
    contextId (id (doc this)) contextHash (endpointTypeString endpointType) in
  match service (doc this) with
  | None => throw (TypeError "this.doc.service.find")
  | Some svcs =>
      mret (List.find
              (fun entry => String.eqb (se_id entry) expectedEndpointId) svcs)
  end.

(** [verifyContextSignature(data, contextName, signature, contextIsHash =
    false)].  As for [verifySig], [data] ranges over the values the
    primitives sign.  A method found without a [publicKeyHex] hands
    [undefined] to the primitive; the development does not follow the
    program there. *)
Definition verifyContextSignature (data : DIDDocumentStruct)
  (contextName signature : string) (contextIsHash : bool)
  : M DIDDocument bool :=
  this ← get;
  let contextHash :=
    if negb contextIsHash
    then generateContextHash (id (doc this)) contextName
    else contextName in
  let publicKeyLookup := contextId (id (doc this)) contextHash "sign" in
  match verificationMethod (doc this) with
  | None => throw (TypeError "this.doc.verificationMethod.find")
  | Some vms =>
      match List.find
              (fun entry => String.eqb (vm_id entry) publicKeyLookup) vms with
      | None => mret false
      | Some verificationMethod =>
          match vm_publicKeyHex verificationMethod with
          | Some signPublicKey =>
              mret (EncryptionUtils.verifySig data signature signPublicKey)
          | None => unmodelled
          end
      end
  end.

(** *** Vocabulary of the properties *)

(** What [contextPattern] compiles to when the id and the hash are
    pattern-safe. *)
Definition contextRegex (did contextHash : string) : list atom :=
  literal_atoms (did +:+ "?context=" +:+ contextHash).

(** [entryId.match(contextDid)] is truthy, for a pattern-safe id and
    hash. *)
Definition names_context (did contextHash entryId : string) : bool :=
  search (contextRegex did contextHash) entryId.

(** Some entry of the four collections is one [removeContext] would filter
    out: an id the context pattern occurs in, or the reference to the
    signing or encryption key of the context. *)
Definition context_recorded (contextHash : string) (d : DIDDocumentStruct)
  : bool :=
  existsb (fun entry => names_context (id d) contextHash (vm_id entry))
    (default [] (verificationMethod d))
  || existsb (fun entry => negb
        (ref_differs (contextId (id d) contextHash "sign") entry))
      (default [] (assertionMethod d))
  || existsb (fun entry => negb
        (ref_differs (contextId (id d) contextHash "asym") entry))
      (default [] (keyAgreement d))
  || existsb (fun entry => names_context (id d) contextHash (se_id entry))
      (default [] (service d)).

(** The four collections with the entries of a context filtered out. *)
Definition without_context (contextHash : string) (d : DIDDocumentStruct)
  : DIDDocumentStruct :=
  {| id := id d; controller := controller d;
     verificationMethod := option_map (List.filter (fun entry =>
         negb (names_context (id d) contextHash (vm_id entry))))
       (verificationMethod d);
     assertionMethod := option_map (List.filter
         (ref_differs (contextId (id d) contextHash "sign")))
       (assertionMethod d);
     keyAgreement := option_map (List.filter
         (ref_differs (contextId (id d) contextHash "asym")))
       (keyAgreement d);
     service := option_map (List.filter (fun entry =>
         negb (names_context (id d) contextHash (se_id entry))))
       (service d);
     proof := proof d |}.

Definition serviceEntry (did contextHash : string)
  (endpointType : EndpointType) (endpoint : Endpoint) : ServiceEndpoint :=
  {| se_id := contextId did contextHash (endpointTypeString endpointType);
     se_type := ep_type endpoint;
     se_serviceEndpoint := ep_endpointUri endpoint |}.

(** The service entries [addContext] appends, in the order it appends them. *)
Definition contextServices (did contextHash : string) (endpoints : Endpoints)
  : list ServiceEndpoint :=
  ([ serviceEntry did contextHash DATABASE (database endpoints);
     serviceEntry did contextHash MESSAGING (messaging endpoints) ]
   ++ option_list (serviceEntry did contextHash STORAGE <$> storage endpoints)
   ++ option_list (serviceEntry did contextHash NOTIFICATION
                     <$> notification endpoints))%list.

(** The two verification methods [addContext] appends. *)
Definition contextMethods (did contextHash : string)
  (keys : KeyringPublicKeys) : list VerificationMethod :=
  [ {| vm_id := contextId did contextHash "sign";
       vm_type := "EcdsaSecp256k1VerificationKey2019";
       vm_controller := did;
       vm_publicKeyHex := Some (signPublicKeyHex keys) |};
    {| vm_id := contextId did contextHash "asym";
       vm_type := "Curve25519EncryptionPublicKey";
       vm_controller := did;
       vm_publicKeyHex := Some (asymPublicKeyHex keys) |} ].

(** The document with the records of a context appended to the four
    collections, an absent collection being created. *)
Definition with_context (contextHash : string) (endpoints : Endpoints)
  (keys : KeyringPublicKeys) (d : DIDDocumentStruct) : DIDDocumentStruct :=
  {| id := id d; controller := controller d;
     verificationMethod := Some (default [] (verificationMethod d)
       ++ contextMethods (id d) contextHash keys)%list;
     assertionMethod := Some (default [] (assertionMethod d)
       ++ [RefString (contextId (id d) contextHash "sign")])%list;
     keyAgreement := Some (default [] (keyAgreement d)
       ++ [RefString (contextId (id d) contextHash "asym")])%list;
     service := Some (default [] (service d)
       ++ contextServices (id d) contextHash endpoints)%list;
     proof := proof d |}.

(** [after] holds in each of the four collections exactly the entries
    [before] holds, a collection absent in [before] being present and empty
    in [after]; id, controller and proof agree. *)
Definition restored (before after : DIDDocumentStruct) : Prop :=
  verificationMethod after = Some (default [] (verificationMethod before)) /\
  assertionMethod after = Some (default [] (assertionMethod before)) /\
  keyAgreement after = Some (default [] (keyAgreement before)) /\
  service after = Some (default [] (service before)) /\
  id after = id before /\
  controller after = controller before /\
  proof after = proof before.







(** The calls a client can make on a document manager. *)
Inductive Call : Type :=
| CallAddContext (contextName : string) (keyring : Keyring)
    (endpoints : Endpoints)
| CallRemoveContext (contextName : string)
| CallAddContextService (contextHash : string) (endpointType : EndpointType)
    (serviceType endpointUri : string)
| CallAddContextSignKey (contextHash publicKeyHex : string)
| CallAddContextAsymKey (contextHash publicKeyHex : string)
| CallSignProof (privateKey : PrivateKey)
| CallVerifyProof
| CallVerifySig (data : DIDDocumentStruct) (signature : string)
| CallLocateServiceEndpoint (contextName : string)
    (endpointType : EndpointType)
| CallGetErrors
| CallExport
| CallImport (d : DIDDocumentStruct).

(** The receiver a call leaves behind, whether it returned or threw. *)
Definition receiver_after {A} (r : res DIDDocument A) : option DIDDocument :=
  match r with
  | Ok _ this => Some this
  | Throw _ this => Some this
  | Unmodelled => None
  end.

Definition perform (c : Call) (this : DIDDocument) : option DIDDocument :=
  match c with
  | CallAddContext contextName keyring endpoints =>
      receiver_after (addContext contextName keyring endpoints this)
  | CallRemoveContext contextName =>
      receiver_after (removeContext contextName this)
  | CallAddContextService contextHash endpointType serviceType endpointUri =>
      receiver_after
        (addContextService contextHash endpointType serviceType endpointUri
           this)
  | CallAddContextSignKey contextHash publicKeyHex =>
      receiver_after (addContextSignKey contextHash publicKeyHex this)
  | CallAddContextAsymKey contextHash publicKeyHex =>
      receiver_after (addContextAsymKey contextHash publicKeyHex this)
  | CallSignProof privateKey => receiver_after (signProof privateKey this)
  | CallVerifyProof => receiver_after (verifyProof this)
  | CallVerifySig data signature =>
      receiver_after (verifySig data signature this)
  | CallLocateServiceEndpoint contextName endpointType =>
      receiver_after (locateServiceEndpoint contextName endpointType this)
  | CallGetErrors => receiver_after (getErrors this)
  | CallExport => receiver_after (export this)
  | CallImport d => receiver_after (import d this)
  end.



(** A client making one call after the other, going on after a call that
    threw. *)
Fixpoint performAll (calls : list Call) (this : DIDDocument)
  : option DIDDocument :=
  match calls with
  | [] => Some this
  | c :: calls' =>
      match perform c this with
      | Some this' => performAll calls' this'
      | None => None
      end
  end.

(** The two messages [removeContext] records. *)
Definition removal_message (msg : string) : Prop :=
  msg = "No verification method specified" \/
  msg = "Unable to locate verification method for this context".

End Methods.
End DidDocument.

(** ** [MessagingEngineVerida]: sending a message *)
Module MessagingEngine.
Import Js.

Section Engine.
(** The message payload ([data: object]) and what the outbox answers. *)
Context {Payload Response : Type}.

Record MessageSendConfig : Type := {
  recipientContextName : option string
}.

Record Outbox : Type := {
  outbox_contextName : string;
  outbox_did : option string
}.

(** The notification service injected through the constructor,
    identified by the endpoint it talks to. *)
Record Notification : Type := {
  notification_endpointUri : string
}.

(** What has left the engine towards its collaborators, latest first. *)
Inductive Event : Type :=
| OutboxSend (did type message : string)
| Pinged (recipientContextName did : string).

(** The receiver. *)
Record MessagingEngineVerida : Type := {
  contextName : string;
  notificationService : option Notification;
  did : option string;
  outbox : option Outbox;
  events : list Event
}.

(** The collaborators a [send] reaches, each a promise that settles with a
    value or rejects:
    - [openDatastore]: [this.context.openDatastore(schemaUri)], which throws
      when no account is connected;
    - [outboxSend]: [outbox.send(did, type, data, message, config)];
    - [vaultAppName]: [this.context.getClient().getConfig().vaultAppName];
    - [ping]: [this.notificationService.ping(recipientContextName, did)]. *)
Class Collaborators : Type := {
  openDatastore : string -> exn + unit;
  outboxSend : Outbox -> string -> string -> Payload -> string ->
               MessageSendConfig -> exn + option Response;
  vaultAppName : string;
  ping : Notification -> string -> string -> exn + bool
}.
Context `{!Collaborators}.

Definition set_outbox (o : Outbox) (this : MessagingEngineVerida)
  : MessagingEngineVerida :=
  {| contextName := contextName this;
     notificationService := notificationService this;
     did := did this; outbox := Some o; events := events this |}.

Definition record (e : Event) (this : MessagingEngineVerida)
  : MessagingEngineVerida :=
  {| contextName := contextName this;
     notificationService := notificationService this;
     did := did this; outbox := outbox this; events := e :: events this |}.

(** [config.recipientContextName ? config.recipientContextName :
    this.context.getClient().getConfig().vaultAppName]. *)
Definition recipientOf (config : MessageSendConfig) : string :=
  if truthy_opt (recipientContextName config)
  then default "" (recipientContextName config)
  else vaultAppName.

Definition getOutbox : M MessagingEngineVerida Outbox :=
  this ← get;
  match outbox this with
  | Some o => mret o
  | None =>
      await (openDatastore
        "https://core.schemas.verida.io/outbox/entry/v0.1.0/schema.json");;
      let o := {| outbox_contextName := contextName this;
                  outbox_did := did this |} in
      modify (set_outbox o);;
      mret o
  end.

Definition send (did type : string) (data : Payload) (message : string)
  (config : MessageSendConfig) : M MessagingEngineVerida (option Response) :=
  outbox ← getOutbox;
  modify (record (OutboxSend did type message));;
  response ← await (outboxSend outbox did type data message config);
  let recipientContextName := recipientOf config in
  this ← get;
  match response, notificationService this with
  | Some _, Some service =>
      modify (record (Pinged recipientContextName did));;
      await (ping service recipientContextName did);;
      mret response
  | _, _ => mret response
  end.

End Engine.
Arguments MessagingEngineVerida : clear implicits.
Arguments Collaborators : clear implicits.
End MessagingEngine.

(** ** Secure context configuration ([@verida/storage-link] interfaces) *)
Module StorageLink.

Record SecureContextPublicKey : Type := {
  pk_type : string;
  pk_publicKeyHex : string
}.

Record SecureContextEndpoint : Type := {
  type : string;
  endpointUri : string
}.

Record SecureContextServices : Type := {
  databaseServer : SecureContextEndpoint;
  messageServer : SecureContextEndpoint;
  storageServer : option SecureContextEndpoint;
  notificationServer : option SecureContextEndpoint
}.

Record SecureContextPublicKeys : Type := {
  signKey : SecureContextPublicKey;
  asymKey : SecureContextPublicKey
}.

Record SecureContextConfig : Type := {
  config_id : string;
  publicKeys : SecureContextPublicKeys;
  services : SecureContextServices
}.

End StorageLink.

(** ** [Context]: the engine registry of one application context *)
Module StorageContext.
Import Js StorageLink.

Record Account : Type := {
  account_did : string
}.

(** A storage engine as [new engine(contextName, dbRegistry, endpointUri)]
    builds it; [engine_account] is set by [connectAccount]. *)
Record BaseStorageEngine : Type := {
  engine_contextName : string;
  engine_endpointUri : string;
  engine_account : option Account
}.

(** The registered engine classes (here a single one). *)
Inductive EngineClass : Type := StorageEngineVerida.

Definition construct (engine : EngineClass) (contextName endpointUri : string)
  : BaseStorageEngine :=
  match engine with
  | StorageEngineVerida =>
      {| engine_contextName := contextName;
         engine_endpointUri := endpointUri;
         engine_account := None |}
  end.

(** [const DATABASE_ENGINES = { VeridaDatabase: StorageEngineVerida }]. *)
Definition DATABASE_ENGINES : gmap string EngineClass :=
  {[ "VeridaDatabase" := StorageEngineVerida ]}.

Record DatabaseOpenConfig : Type := {
  config_did : option string;
  createContext : option bool;
  saveDatabase : option bool
}.

Record Database : Type := {
  database_name : string;
  database_did : string;
  database_engine : BaseStorageEngine
}.

(** Calls that leave the process, latest first. *)
Inductive Event : Type :=
| ResolveConfig (did contextName : string) (forceCreate : option bool)
| ConnectAccount (endpointUri did : string)
| OpenDatabase (endpointUri databaseName : string)
| SaveDb (databaseName : string).

(** The receiver. *)
Record Context : Type := {
  account : option Account;
  contextName : string;
  databaseEngines : gmap string BaseStorageEngine;
  events : list Event
}.

(** The collaborators behind the awaited calls:
    - [getDIDContextConfig]: [this.didContextManager.getDIDContextConfig(did,
      contextName, forceCreate)], the resolver round trip;
    - [connectAccount]: [databaseEngine.connectAccount(account)], the
      authentication handshake with the storage node;
    - [engineOpenDatabase]: [databaseEngine.openDatabase(name, config)];
    - [saveDb]: [this.dbRegistry.saveDb(database, false)]. *)
Class Collaborators : Type := {
  getDIDContextConfig : string -> string -> option bool ->
                        exn + SecureContextConfig;
  connectAccount : BaseStorageEngine -> Account -> exn + BaseStorageEngine;
  engineOpenDatabase : BaseStorageEngine -> string -> DatabaseOpenConfig ->
                       exn + Database;
  saveDb : Database -> exn + unit
}.

Section Methods.
Context `{!Collaborators}.

Definition record (e : Event) (this : Context) : Context :=
  {| account := account this; contextName := contextName this;
     databaseEngines := databaseEngines this; events := e :: events this |}.

Definition cache_engine (did : string) (engine : BaseStorageEngine)
  (this : Context) : Context :=
  {| account := account this; contextName := contextName this;
     databaseEngines := <[did := engine]> (databaseEngines this);
     events := events this |}.

(** [getContextConfig(did?, forceCreate?, customContextName?)]. *)
Definition getContextConfig (did : option string) (forceCreate : option bool)
  (customContextName : option string) : M Context SecureContextConfig :=
  this ← get;
  did ← (if truthy_opt did then mret (default "" did)
         else match account this with
              | None =>
                  throw (Error "No DID specified and no authenticated user")
              | Some account => mret (account_did account)
              end);
  let name := if truthy_opt customContextName
              then default "" customContextName
              else contextName this in
  modify (record (ResolveConfig did name forceCreate));;
  await (getDIDContextConfig did name forceCreate).

(** [getDatabaseEngine(did, createContext?)].  Both lookups are tests for
    truthiness on a plain object.  A [did] that names a member of
    [Object.prototype] makes the getter return that member in place of an
    engine, and the type [constructor] makes [new engine(...)] build an
    [Object]; the development does not follow the program in these two
    cases.  Any other inherited type is not constructible. *)
Definition getDatabaseEngine (did : string) (createContext : option bool)
  : M Context BaseStorageEngine :=
  this ← get;
  match get_property (databaseEngines this) did with
  | Own engine => mret engine
  | Inherited _ => unmodelled
  | Undefined =>
      contextConfig ← getContextConfig (Some did) createContext None;
      let engineType := type (databaseServer (services contextConfig)) in
      match get_property DATABASE_ENGINES engineType with
      | Undefined =>
          throw (Error ("Unsupported database engine type specified: "
                        +:+ engineType))
      | Inherited name =>
          if String.eqb name "constructor" then unmodelled
          else throw (TypeError "engine is not a constructor")
      | Own engine =>
          let databaseEngine :=
            construct engine (contextName this)
              (endpointUri (databaseServer (services contextConfig))) in
          databaseEngine ←
            match account this with
            | Some account =>
                modify (record (ConnectAccount
                  (engine_endpointUri databaseEngine) (account_did account)));;
                await (connectAccount databaseEngine account)
            | None => mret databaseEngine
            end;
          modify (cache_engine did databaseEngine);;
          mret databaseEngine
      end
  end.

(** [openDatabase(databaseName, config = {})]; of [config] the properties
    that decide the control flow are kept. *)
Definition openDatabase (databaseName : string) (config : DatabaseOpenConfig)
  : M Context Database :=
  this ← get;
  match account this with
  | None => throw (Error "Unable to open database. No authenticated user.")
  | Some account =>
      let accountDid := account_did account in
      let config :=
        if truthy_opt (config_did config) then config
        else {| config_did := Some accountDid;
                createContext := createContext config;
                saveDatabase := saveDatabase config |} in
      databaseEngine ←
        getDatabaseEngine (default "" (config_did config))
                          (createContext config);
      modify (record (OpenDatabase (engine_endpointUri databaseEngine)
                                   databaseName));;
      database ← await (engineOpenDatabase databaseEngine databaseName config);
      (if bool_decide (saveDatabase config = Some false) then mret tt
       else modify (record (SaveDb databaseName));;
            await (saveDb database));;
      mret database
  end.

(** The DID whose configuration [getContextConfig(did, ...)] resolves. *)
Definition resolvedDid (did : string) (this : Context) : option string :=
  if truthy did then Some did else account_did <$> account this.


End Methods.
End StorageContext.

(** ** [AutoAccount]: per-context authentication *)
Module AutoAccount.
Import Js StorageLink.

(** An [AuthContext] object.  [instance] is its identity: two results denote
    the same object exactly when the numbers agree; the number is the order
    in which the storage node issued the credentials. *)
Record AuthContext : Type := {
  instance : nat;
  auth_endpointUri : string;
  auth_publicSigningKey : SecureContextPublicKey
}.

Record VeridaDatabaseAuthTypeConfig : Type := {
  force : bool
}.

(** Modelled from the spec: the handler class [VeridaDatabaseAuthType]
    ([./authTypes/VeridaDatabase]) is not among the sources.  Section 4.4 and
    the data model describe the credential it manages: it is "cached until
    explicitly invalidated", handed out again "unless force or no cache
    exists", and otherwise obtained afresh, overwriting the cache.
    [contextAuth] is that cache. *)
Record VeridaDatabaseAuthType : Type := {
  handler_contextName : string;
  handler_serviceEndpoint : SecureContextEndpoint;
  handler_signKey : SecureContextPublicKey;
  contextAuth : option AuthContext
}.

(** The receiver: [this.contextAuths], and the number of credentials the
    storage nodes have issued to this account so far. *)
Record AutoAccount : Type := {
  contextAuths : gmap string VeridaDatabaseAuthType;
  issued : nat
}.

Definition set_contextAuth (contextName : string)
  (handler : VeridaDatabaseAuthType) (this : AutoAccount) : AutoAccount :=
  {| contextAuths := <[contextName := handler]> (contextAuths this);
     issued := issued this |}.

Definition issue (this : AutoAccount) : AutoAccount :=
  {| contextAuths := contextAuths this; issued := S (issued this) |}.

(** [new VeridaDatabaseAuthType(this, contextName, serviceEndpoint,
    signKey)]. *)
Definition newVeridaDatabaseAuthType (contextName : string)
  (serviceEndpoint : SecureContextEndpoint) (signKey : SecureContextPublicKey)
  : VeridaDatabaseAuthType :=
  {| handler_contextName := contextName;
     handler_serviceEndpoint := serviceEndpoint;
     handler_signKey := signKey;
     contextAuth := None |}.

(** The default of the [authConfig] parameter, [{force: false}], and the
    configuration that forces a new authentication. *)
Definition noForce : VeridaDatabaseAuthTypeConfig := {| force := false |}.
Definition withForce : VeridaDatabaseAuthTypeConfig := {| force := true |}.

(** The credential a handler obtains when [n] have been issued before. *)
Definition credential (handler : VeridaDatabaseAuthType) (n : nat)
  : AuthContext :=
  {| instance := n;
     auth_endpointUri := endpointUri (handler_serviceEndpoint handler);
     auth_publicSigningKey := handler_signKey handler |}.

(** The handler after [this.contextAuth = auth]. *)
Definition renewed (handler : VeridaDatabaseAuthType) (auth : AuthContext)
  : VeridaDatabaseAuthType :=
  {| handler_contextName := handler_contextName handler;
     handler_serviceEndpoint := handler_serviceEndpoint handler;
     handler_signKey := handler_signKey handler;
     contextAuth := Some auth |}.

(** Modelled from the spec: [handler.getAuthContext(config)] for the handler
    stored under [contextName]; see [VeridaDatabaseAuthType]. *)
Definition handlerGetAuthContext (contextName : string)
  (handler : VeridaDatabaseAuthType) (config : VeridaDatabaseAuthTypeConfig)
  : M AutoAccount AuthContext :=
  match contextAuth handler, force config with
  | Some auth, false => mret auth
  | _, _ =>
      this ← get;
      let auth := credential handler (issued this) in
      modify issue;;
      modify (set_contextAuth contextName (renewed handler auth));;
      mret auth
  end.

(** [getAuthContext(contextName, contextConfig, authConfig = {force: false},
    authType = "database")].  Writing the key [__proto__] replaces the
    prototype of [this.contextAuths] instead of adding a property; the
    development does not follow the program there. *)
Definition getAuthContext (contextName : string)
  (contextConfig : SecureContextConfig)
  (authConfig : VeridaDatabaseAuthTypeConfig) (authType : string)
  : M AutoAccount AuthContext :=
  this ← get;
  match get_property (contextAuths this) contextName, force authConfig with
  | Own handler, false => handlerGetAuthContext contextName handler authConfig
  | Inherited _, false =>
      throw (TypeError "this.contextAuths[contextName].getAuthContext")
  | _, _ =>
      let signKey := signKey (publicKeys contextConfig) in
      let serviceEndpoint := databaseServer (services contextConfig) in
      if String.eqb (type serviceEndpoint) "VeridaDatabase" then
        if String.eqb contextName "__proto__" then unmodelled
        else
          let handler :=
            newVeridaDatabaseAuthType contextName serviceEndpoint signKey in
          modify (set_contextAuth contextName handler);;
          handlerGetAuthContext contextName handler authConfig
      else
        throw (Error ("Unknown auth context type (" +:+ authType +:+ ")"))
  end.

(** Every credential held by a handler was issued earlier: its number is
    below the count of issued credentials. *)
Definition consistent (this : AutoAccount) : Prop :=
  forall contextName handler auth,
    contextAuths this !! contextName = Some handler ->
    contextAuth handler = Some auth ->
    instance auth < issued this.

(** The account as its constructor leaves it: [contextAuths = {}]. *)
Definition newAutoAccount : AutoAccount :=
  {| contextAuths := ∅; issued := 0 |}.

End AutoAccount.

(** ** [Context]: ending a session, and the messaging and notification
    engines *)
Module ContextSession.
Import Js StorageLink StorageContext.

Definition set_account (a : option Account) (this : Context) : Context :=
  {| account := a; contextName := contextName this;
     databaseEngines := databaseEngines this; events := events this |}.

(** [MessagesConfig]; [maxItems] is a number. *)
Record MessagesConfig : Type := {
  messages_maxItems : option Z
}.

(** The registered messaging and notification classes (one of each). *)
Inductive MessagingClass : Type := MessagingEngineVerida.
Inductive NotificationClass : Type := NotificationEngineVerida.

(** [const MESSAGING_ENGINES = { VeridaMessage: MessagingEngineVerida }] and
    [const NOTIFICATION_ENGINES = { VeridaNotification:
    NotificationEngineVerida }]. *)
Definition MESSAGING_ENGINES : gmap string MessagingClass :=
  {[ "VeridaMessage" := MessagingEngineVerida ]}.

Definition NOTIFICATION_ENGINES : gmap string NotificationClass :=
  {[ "VeridaNotification" := NotificationEngineVerida ]}.

Section Engines.
(** The messaging engine behind the interface [Messaging]. *)
Context {Messaging : Type}.

(** The receiver with its two engine properties.  A notification engine,
    [new engine(this, endpointUri)], is the notification service a
    messaging engine pings. *)
Record ContextEngines : Type := {
  context : Context;
  messagingEngine : option Messaging;
  notificationEngine : option MessagingEngine.Notification
}.

(** [this.account.disconnect(this.contextName)]. *)
Class AccountSession : Type := {
  accountDisconnect : Account -> string -> exn + unit
}.

(** What [getMessaging] asks of a messaging engine:
    - [newMessaging]: [new engine(this, messageConfig, notificationServer)]
      for a registered class; of [this] the constructor reads the context
      name;
    - [messagingConnectAccount]: [messagingEngine.connectAccount(account)],
      a method of the engine, which returns or throws and leaves the engine
      changed either way. *)
Class MessagingInterface : Type := {
  newMessaging : MessagingClass -> string -> MessagesConfig ->
                 option MessagingEngine.Notification -> Messaging;
  messagingConnectAccount : Account -> M Messaging unit
}.

Context `{!Collaborators} `{!AccountSession} `{!MessagingInterface}.

(** [disconnect()]. *)
Definition disconnect : M Context bool :=
  this ← get;
  match account this with
  | Some account =>
      await (accountDisconnect account (contextName this));;
      modify (set_account None);;
      mret true
  | None => mret false
  end.

Definition set_context (c : Context) (this : ContextEngines)
  : ContextEngines :=
  {| context := c; messagingEngine := messagingEngine this;
     notificationEngine := notificationEngine this |}.

Definition set_messagingEngine (e : Messaging) (this : ContextEngines)
  : ContextEngines :=
  {| context := context this; messagingEngine := Some e;
     notificationEngine := notificationEngine this |}.

Definition set_notificationEngine (e : MessagingEngine.Notification)
  (this : ContextEngines) : ContextEngines :=
  {| context := context this; messagingEngine := messagingEngine this;
     notificationEngine := Some e |}.

(** A method of [Context] run on the receiver with the engine
    properties. *)
Definition on_context {A} (c : M Context A) : M ContextEngines A :=
  fun this =>
    match c (context this) with
    | Ok a s => Ok a (set_context s this)
    | Throw e s => Throw e (set_context s this)
    | Unmodelled => Unmodelled
    end.

(** [getNotification()].  The error for an unregistered notification type
    speaks of a messaging engine, as the source does. *)
Definition getNotification
  : M ContextEngines (option MessagingEngine.Notification) :=
  this ← get;
  match notificationEngine this with
  | Some engine => mret (Some engine)
  | None =>
      match account (context this) with
      | None =>
          throw (Error "Unable to open notification. No authenticated user.")
      | Some account =>
          let did := account_did account in
          contextConfig ←
            on_context (getContextConfig (Some did) (Some false) None);
          match notificationServer (services contextConfig) with
          | None => mret None
          | Some server =>
              let engineType := type server in
              match get_property NOTIFICATION_ENGINES engineType with
              | Undefined =>
                  throw (Error
                    ("Unsupported messaging engine type specified: "
                     +:+ engineType))
              | Inherited name =>
                  if String.eqb name "constructor" then unmodelled
                  else throw (TypeError "engine is not a constructor")
              | Own NotificationEngineVerida =>
                  let engine :=
                    {| MessagingEngine.notification_endpointUri :=
                         endpointUri server |} in
                  modify (set_notificationEngine engine);;
                  mret (Some engine)
              end
          end
      end
  end.

(** [getMessaging(messageConfig = {})].  The engine is assigned to
    [this.messagingEngine] before [connectAccount] is awaited, and
    [connectAccount] works on that object. *)
Definition getMessaging (messageConfig : MessagesConfig)
  : M ContextEngines Messaging :=
  this ← get;
  match messagingEngine this with
  | Some engine => mret engine
  | None =>
      match account (context this) with
      | None =>
          throw (Error "Unable to open messaging. No authenticated user.")
      | Some account =>
          let did := account_did account in
          contextConfig ←
            on_context (getContextConfig (Some did) (Some true) None);
          let engineType := type (messageServer (services contextConfig)) in
          match get_property MESSAGING_ENGINES engineType with
          | Undefined =>
              throw (Error ("Unsupported messaging engine type specified: "
                            +:+ engineType))
          | Inherited name =>
              getNotification;;
              if String.eqb name "constructor" then unmodelled
              else throw (TypeError "engine is not a constructor")
          | Own engine =>
              notificationServer ← getNotification;
              let messagingEngine :=
                newMessaging engine (contextName (context this))
                  messageConfig notificationServer in
              modify (set_messagingEngine messagingEngine);;
              match messagingConnectAccount account messagingEngine with
              | Ok _ connected =>
                  modify (set_messagingEngine connected);;
                  mret connected
              | Throw e failed =>
                  modify (set_messagingEngine failed);;
                  throw e
              | Unmodelled => unmodelled
              end
          end
      end
  end.

End Engines.
Arguments ContextEngines : clear implicits.
Arguments MessagingInterface : clear implicits.
End ContextSession.

(** ** [Context]: databases of other accounts *)
Module ExternalDatabase.
Import Js StorageLink StorageContext.

(** The [config] of [openExternalDatabase]: a [DatabaseOpenConfig] with the
    two further properties the method reads. *)
Record ExternalDatabaseConfig : Type := {
  open_config : DatabaseOpenConfig;
  dsn : option string;
  config_contextName : option string
}.

(** Further collaborators:
    - [openExternalContext]: [this.getClient().openExternalContext(
      contextName, did)], another context or [undefined];
    - [engineOpenExternalDatabase]: [databaseEngine.openDatabase(name,
      config)] with the merged configuration. *)
Class ExternalCollaborators : Type := {
  openExternalContext : string -> string -> exn + option Context;
  engineOpenExternalDatabase : BaseStorageEngine -> string ->
                               ExternalDatabaseConfig -> exn + Database
}.

Section Methods.
Context `{!Collaborators} `{!ExternalCollaborators}.

(** [_.merge({did, signingContext: this, permissions: {...}}, config)]
    followed by [config.saveDatabase = false]: a [did] set in [config]
    replaces the argument. *)
Definition merged (did : string) (dsn : option string)
  (config : ExternalDatabaseConfig) : ExternalDatabaseConfig :=
  {| open_config :=
       {| config_did :=
            Some (default did (config_did (open_config config)));
          createContext := createContext (open_config config);
          saveDatabase := Some false |};
     dsn := dsn;
     config_contextName := config_contextName config |}.

(** [openExternalDatabase(databaseName, did, config = {})].  A method run
    on another context leaves that context, not the receiver, changed. *)
Definition openExternalDatabase (databaseName did : string)
  (config : ExternalDatabaseConfig) : M Context Database :=
  this ← get;
  dsn ← (if negb (truthy_opt (dsn config)) then
           contextConfig ←
             getContextConfig (Some did) (Some false)
               (Some (if truthy_opt (config_contextName config)
                      then default "" (config_contextName config)
                      else contextName this));
           mret (Some (endpointUri (databaseServer (services contextConfig))))
         else mret (dsn config));
  let config := merged did dsn config in
  if truthy_opt (config_contextName config)
     && negb (String.eqb (default "" (config_contextName config))
                (contextName this))
  then
    context ← await (openExternalContext
                       (default "" (config_contextName config)) did);
    match context with
    | None => throw (TypeError "context.openDatabase")
    | Some context =>
        match openDatabase databaseName (open_config config) context with
        | Ok database _ => mret database
        | Throw e _ => throw e
        | Unmodelled => unmodelled
        end
    end
  else
    databaseEngine ← getDatabaseEngine did None;
    modify (record (OpenDatabase (engine_endpointUri databaseEngine)
                                 databaseName));;
    await (engineOpenExternalDatabase databaseEngine databaseName config).

End Methods.
End ExternalDatabase.

(** ** Keyrings ([@verida/keyring]) *)
Module Keyrings.

(** [new Keyring(seed)], identified by its seed. *)
Record Keyring : Type := {
  seed : string
}.

End Keyrings.

(** ** [MessagingEngineVerida]: connecting an account *)
Module MessagingConnection.
Import Js Keyrings MessagingEngine.

(** [new Inbox(context, keyring, maxItems)]. *)
Record Inbox : Type := {
  inbox_keyring : option Keyring;
  inbox_maxItems : Z
}.

(** The receiver with the properties [send] does not read. *)
Record Connection : Type := {
  engine : MessagingEngineVerida;
  maxItems : Z;
  keyring : option Keyring;
  inbox : option Inbox
}.

(** The collaborators of a connection:
    - [accountKeyring]: [account.keyring(this.contextName)];
    - [inboxInit]: [inbox.init()]. *)
Class Collaborators : Type := {
  accountKeyring : StorageContext.Account -> string -> exn + Keyring;
  inboxInit : Inbox -> exn + unit
}.

Section Methods.
Context `{!Collaborators}.

(** [constructor(context, config = {}, notificationService?)]; of [context]
    the constructor keeps the context name.  [config.maxItems] is a number:
    [0] is falsy. *)
Definition new (contextName : string)
  (config : ContextSession.MessagesConfig)
  (notificationService : option Notification) : Connection :=
  {| engine := {| contextName := contextName;
                  notificationService := notificationService;
                  did := None; outbox := None; events := [] |};
     maxItems := match ContextSession.messages_maxItems config with
                 | Some n => if (n =? 0)%Z then 50%Z else n
                 | None => 50%Z
                 end;
     keyring := None;
     inbox := None |}.

Definition set_did (v : string) (this : Connection) : Connection :=
  {| engine := {| contextName := contextName (engine this);
                  notificationService := notificationService (engine this);
                  did := Some v; outbox := outbox (engine this);
                  events := events (engine this) |};
     maxItems := maxItems this; keyring := keyring this;
     inbox := inbox this |}.

Definition set_keyring (v : Keyring) (this : Connection) : Connection :=
  {| engine := engine this; maxItems := maxItems this; keyring := Some v;
     inbox := inbox this |}.

Definition set_inbox (v : Inbox) (this : Connection) : Connection :=
  {| engine := engine this; maxItems := maxItems this;
     keyring := keyring this; inbox := Some v |}.

(** [getInbox()]. *)
Definition getInbox : M Connection Inbox :=
  this ← get;
  match inbox this with
  | Some inbox => mret inbox
  | None =>
      let inbox := {| inbox_keyring := keyring this;
                      inbox_maxItems := maxItems this |} in
      modify (set_inbox inbox);;
      mret inbox
  end.

(** [init()]. *)
Definition init : M Connection unit :=
  this ← get;
  match keyring this with
  | None =>
      throw (Error
        "Unable to initialize messaging as no account is connected")
  | Some _ =>
      inbox ← getInbox;
      await (inboxInit inbox)
  end.

(** [connectAccount(account)]. *)
Definition connectAccount (account : StorageContext.Account)
  : M Connection unit :=
  modify (set_did (StorageContext.account_did account));;
  this ← get;
  keyring ← await (accountKeyring account (contextName (engine this)));
  modify (set_keyring keyring);;
  init.

(** The engine as [Context.getMessaging] builds and connects it. *)
Definition messaging : ContextSession.MessagingInterface Connection :=
  {| ContextSession.newMessaging := fun _ => new;
     ContextSession.messagingConnectAccount := connectAccount |}.

End Methods.
End MessagingConnection.

(** ** [AutoAccount]: keyrings and storage links *)
Module AutoAccountStorage.
Import Js EncryptionUtils StorageLink Keyrings.

(** [AccountConfig]: the endpoints given to a newly created context. *)
Record AccountConfig : Type := {
  defaultDatabaseServer : SecureContextEndpoint;
  defaultMessageServer : SecureContextEndpoint;
  defaultStorageServer : option SecureContextEndpoint;
  defaultNotificationServer : option SecureContextEndpoint
}.

(** [new Wallet(privateKey, environment)]. *)
Record Wallet : Type := {
  wallet_did : string;
  privateKey : string;
  privateKeyBuffer : list Byte.byte
}.

(** Calls to [StorageLink] and [DIDStorageConfig], latest first. *)
Inductive Event : Type :=
| GetLink (did contextName : string)
| Generate (contextName : string) (endpoints : SecureContextServices)
| SetLink (storageConfig : SecureContextConfig) (keyring : Keyring).

Section Account.
(** The DID client, an object of [@verida/did-client]. *)
Context {DIDClient : Type}.

(** The receiver, without [contextAuths]. *)
Record AutoAccount : Type := {
  didClient : DIDClient;
  wallet : Wallet;
  accountConfig : AccountConfig;
  events : list Event
}.

(** The collaborators:
    - [authenticated], [authenticate]: [this.didClient.authenticated()] and
      the client after [this.didClient.authenticate(privateKey, ...)];
    - [getLink]: [StorageLink.getLink(didClient, did, contextName, true)];
    - [generate]: [DIDStorageConfig.generate(this, contextName,
      endpoints)], which reads the wallet of [this];
    - [setLink]: [StorageLink.setLink(didClient, storageConfig, keyring,
      privateKey)]. *)
Class Collaborators : Type := {
  authenticated : DIDClient -> bool;
  authenticate : DIDClient -> string -> DIDClient;
  getLink : DIDClient -> string -> string ->
            exn + option SecureContextConfig;
  generate : Wallet -> string -> SecureContextServices ->
             exn + SecureContextConfig;
  setLink : DIDClient -> SecureContextConfig -> Keyring -> string ->
            exn + unit
}.

Context `{!Collaborators} `{!Primitives string}.

Definition set_didClient (v : DIDClient) (this : AutoAccount) : AutoAccount :=
  {| didClient := v; wallet := wallet this;
     accountConfig := accountConfig this; events := events this |}.

Definition record (e : Event) (this : AutoAccount) : AutoAccount :=
  {| didClient := didClient this; wallet := wallet this;
     accountConfig := accountConfig this; events := e :: events this |}.

(** The character that opens and closes a string literal. *)
Definition doubleQuote : ascii := ascii_of_nat 34.

(** The message [keyring] has the wallet sign: the question, the context
    name between double quotes, a question mark, an empty line and the
    DID. *)
Definition consentMessage (contextName did : string) : string :=
  "Do you wish to unlock this storage context: "
  +:+ String doubleQuote contextName
  +:+ String doubleQuote ("?" +:+ String "010" (String "010" did)).

(** [sign(message)]. *)
Definition sign (message : string) : M AutoAccount string :=
  this ← get;
  mret (signData message (KeyBytes (privateKeyBuffer (wallet this)))).

(** [did()]. *)
Definition did : M AutoAccount string :=
  this ← get; mret (wallet_did (wallet this)).

(** [keyring(contextName)]. *)
Definition keyring (contextName : string) : M AutoAccount Keyring :=
  did ← did;
  let did := toLowerCase did in
  signature ← sign (consentMessage contextName did);
  mret {| seed := signature |}.

(** [ensureAuthenticated()]. *)
Definition ensureAuthenticated : M AutoAccount unit :=
  this ← get;
  if negb (authenticated (didClient this))
  then modify (set_didClient
                 (authenticate (didClient this) (privateKey (wallet this))))
  else mret tt.

(** [linkStorage(storageConfig)]. *)
Definition linkStorage (storageConfig : SecureContextConfig)
  : M AutoAccount unit :=
  ensureAuthenticated;;
  keyring ← keyring (config_id storageConfig);
  modify (record (SetLink storageConfig keyring));;
  this ← get;
  await (setLink (didClient this) storageConfig keyring
           (privateKey (wallet this))).

(** The endpoints [storageConfig] gives a context it creates: the database
    and message servers, and the storage and notification servers when the
    account configuration has them. *)
Definition defaultEndpoints (config : AccountConfig) : SecureContextServices :=
  {| databaseServer := defaultDatabaseServer config;
     messageServer := defaultMessageServer config;
     storageServer := defaultStorageServer config;
     notificationServer := defaultNotificationServer config |}.

(** [storageConfig(contextName, forceCreate?)]. *)
Definition storageConfig (contextName : string) (forceCreate : option bool)
  : M AutoAccount (option SecureContextConfig) :=
  ensureAuthenticated;;
  did ← did;
  modify (record (GetLink did contextName));;
  this ← get;
  storageConfig ← await (getLink (didClient this) did contextName);
  match storageConfig, forceCreate with
  | None, Some true =>
      let endpoints := defaultEndpoints (accountConfig this) in
      modify (record (Generate contextName endpoints));;
      storageConfig ← await (generate (wallet this) contextName endpoints);
      linkStorage storageConfig;;
      mret (Some storageConfig)
  | _, _ => mret storageConfig
  end.

(** The client [ensureAuthenticated] leaves. *)
Definition ensured (this : AutoAccount) : DIDClient :=
  if authenticated (didClient this) then didClient this
  else authenticate (didClient this) (privateKey (wallet this)).

End Account.
Arguments AutoAccount : clear implicits.
Arguments Collaborators : clear implicits.
End AutoAccountStorage.

(** ** [VaultAccount]: sessions granted by the Vault *)
Module VaultAccount.
Import Js StorageLink Keyrings.

(** What the Vault answers to a login request, and what an auth token in
    the query string decodes to: the properties the account reads, each
    taken to be present. *)
Record Session : Type := {
  session_did : string;
  session_context : string;
  session_contextConfig : SecureContextConfig;
  session_signature : string
}.

(** An entry of [this.contextCache]. *)
Record CacheEntry : Type := {
  entry_keyring : Keyring;
  entry_contextConfig : SecureContextConfig
}.

(** [VaultAccountConfig]: whether [config.callback] is a function. *)
Record VaultAccountConfig : Type := {
  callback : bool
}.

(** The receiver, together with what the page holds: [sessions] is the
    value stored under [_verida_auth_context] in local storage ([None] when
    nothing is stored), [calledBack] the arguments [config.callback] was
    called with, latest first. *)
Record VaultAccount : Type := {
  config : VaultAccountConfig;
  accountDid : option string;
  contextCache : gmap string CacheEntry;
  sessions : option (gmap string Session);
  calledBack : list Session
}.

(** What [getAuthTokenFromQueryParams()] returns: [false] without the query
    parameter, [undefined] for a token that does not parse, the token
    otherwise. *)
Inductive AuthToken : Type :=
| NoToken
| InvalidToken
| Token (token : Session).

(** How the login dialog ends: the user grants the request, or declines. *)
Inductive Login : Type :=
| Granted (response : Session) (saveSession : bool)
| Declined.

(** The page and the Vault:
    - [getAuthTokenFromQueryParams]: the token in [window.location.search];
    - [VaultModalLogin]: the outcome of the dialog opened for a context. *)
Class Browser : Type := {
  getAuthTokenFromQueryParams : AuthToken;
  VaultModalLogin : string -> Login
}.

Section Methods.
Context `{!Browser}.

Definition set_accountDid (v : string) (this : VaultAccount) : VaultAccount :=
  {| config := config this; accountDid := Some v;
     contextCache := contextCache this; sessions := sessions this;
     calledBack := calledBack this |}.

Definition set_contextCache (v : gmap string CacheEntry)
  (this : VaultAccount) : VaultAccount :=
  {| config := config this; accountDid := accountDid this;
     contextCache := v; sessions := sessions this;
     calledBack := calledBack this |}.

Definition set_sessions (v : option (gmap string Session))
  (this : VaultAccount) : VaultAccount :=
  {| config := config this; accountDid := accountDid this;
     contextCache := contextCache this; sessions := v;
     calledBack := calledBack this |}.

Definition call_back (v : Session) (this : VaultAccount) : VaultAccount :=
  {| config := config this; accountDid := accountDid this;
     contextCache := contextCache this; sessions := sessions this;
     calledBack := v :: calledBack this |}.

(** [token && token.context == contextName]. *)
Definition token_for (contextName : string) : option Session :=
  match getAuthTokenFromQueryParams with
  | Token token =>
      if String.eqb (session_context token) contextName then Some token
      else None
  | _ => None
  end.

(** [hasSession(contextName)]. *)
Definition hasSession (contextName : string) : M VaultAccount bool :=
  match token_for contextName with
  | Some _ => mret true
  | None =>
      this ← get;
      match sessions this with
      | None => mret false
      | Some storedSessions =>
          match get_property storedSessions contextName with
          | Undefined => mret false
          | _ => mret true
          end
      end
  end.

(** [setDid(did)]. *)
Definition setDid (did : string) : M VaultAccount unit :=
  modify (set_accountDid did).

(** [did()]: [this.accountDid!]. *)
Definition did : M VaultAccount (option string) :=
  this ← get; mret (accountDid this).

(** [addContext(contextName, contextConfig, keyring)].  Assigning to the
    key [__proto__] replaces the prototype of the cache; the development
    does not follow the program there. *)
Definition addContext (contextName : string)
  (contextConfig : SecureContextConfig) (keyring : Keyring)
  : M VaultAccount unit :=
  if String.eqb contextName "__proto__" then unmodelled
  else
    modify (fun this => set_contextCache
      (<[contextName := {| entry_keyring := keyring;
                           entry_contextConfig := contextConfig |}]>
         (contextCache this)) this).

(** [keyring(contextName)].  For a name inherited from [Object.prototype]
    the method returns [undefined] in place of a keyring; the development
    does not follow the program there. *)
Definition keyring (contextName : string) : M VaultAccount Keyring :=
  this ← get;
  match get_property (contextCache this) contextName with
  | Undefined =>
      throw (Error ("Unable to connect to requested context: "
                    +:+ contextName))
  | Own entry => mret (entry_keyring entry)
  | Inherited _ => unmodelled
  end.

(** [store.set(VERIDA_AUTH_CONTEXT, storedSessions)] after
    [storedSessions[contextName] = session], [storedSessions] being the
    stored value or [{}]. *)
Definition store_session (contextName : string) (session : Session)
  : M VaultAccount unit :=
  if String.eqb contextName "__proto__" then unmodelled
  else
    modify (fun this => set_sessions
      (Some (<[contextName := session]> (default ∅ (sessions this)))) this).

(** [if (typeof(this.config.callback) === "function")
    { this.config.callback(session) }]. *)
Definition notify (session : Session) : M VaultAccount unit :=
  this ← get;
  if callback (config this) then modify (call_back session) else mret tt.

(** [loadFromSession(contextName)]. *)
Definition loadFromSession (contextName : string)
  : M VaultAccount (option SecureContextConfig) :=
  match token_for contextName with
  | Some token =>
      addContext (session_context token) (session_contextConfig token)
        {| seed := session_signature token |};;
      setDid (session_did token);;
      notify token;;
      store_session contextName token;;
      mret (Some (session_contextConfig token))
  | None =>
      this ← get;
      match sessions this with
      | None => mret None
      | Some storedSessions =>
          match get_property storedSessions contextName with
          | Undefined => mret None
          | Inherited _ => unmodelled
          | Own response =>
              setDid (session_did response);;
              addContext (session_context response)
                (session_contextConfig response)
                {| seed := session_signature response |};;
              notify response;;
              mret (Some (session_contextConfig response))
          end
      end
  end.

(** What [connectContext] resolves to: the context configuration of a
    session that was loaded, or whether the user granted the request. *)
Inductive Connected : Type :=
| Loaded (contextConfig : SecureContextConfig)
| Answered (granted : bool).

(** [connectContext(contextName)].  The dialog is given a callback of the
    method's own, so [config.callback] is not called on this path. *)
Definition connectContext (contextName : string)
  : M VaultAccount Connected :=
  contextConfig ← loadFromSession contextName;
  match contextConfig with
  | Some contextConfig => mret (Loaded contextConfig)
  | None =>
      match VaultModalLogin contextName with
      | Granted response saveSession =>
          (if saveSession then store_session contextName response
           else mret tt);;
          setDid (session_did response);;
          addContext (session_context response)
            (session_contextConfig response)
            {| seed := session_signature response |};;
          mret (Answered true)
      | Declined => mret (Answered false)
      end
  end.

(** [storageConfig(contextName, forceCreate = false)].  An inherited name
    reads as a cached entry without a [contextConfig]. *)
Definition storageConfig (contextName : string) (forceCreate : bool)
  : M VaultAccount (option SecureContextConfig) :=
  this ← get;
  match get_property (contextCache this) contextName with
  | Own entry => mret (Some (entry_contextConfig entry))
  | Inherited _ => mret None
  | Undefined =>
      if forceCreate then
        connectContext contextName;;
        this ← get;
        match get_property (contextCache this) contextName with
        | Own entry => mret (Some (entry_contextConfig entry))
        | _ => mret None
        end
      else mret None
  end.

(** [disconnect(contextName?)]: [store.remove(VERIDA_AUTH_CONTEXT)]. *)
Definition disconnect (contextName : option string) : M VaultAccount unit :=
  modify (set_sessions None).

End Methods.
End VaultAccount.

(** ** [Credentials]: verifying a credential *)
Module Credentials.
Import Js.

(** A verified credential as [did-jwt-vc] returns it; of its payload the
    expiry of the credential, [payload.vc.expirationDate], is read. *)
Record VerifiedCredential : Type := {
  jwt : string;
  expirationDate : option string
}.

(** The receiver. *)
Record Credentials : Type := {
  errors : list string
}.

(** The libraries behind [verifyCredential]:
    - [verifyCredentialJwt]: [verifyCredential(vcJwt, resolver)] of
      [did-jwt-vc], with the resolver of the environment;
    - [diff]: the number [dayjs(a).utc(true).diff(dayjs(b).utc(true))],
      [None] standing for [NaN];
    - [clock]: [new Date().toISOString()]. *)
Class Collaborators : Type := {
  verifyCredentialJwt : string -> string ->
                        exn + option VerifiedCredential;
  diff : string -> string -> option Z;
  clock : string
}.

(** What [verifyCredential] returns: the decoded credential as the library
    returned it, or [false]. *)
Inductive Verdict : Type :=
| Decoded (decodedCredential : option VerifiedCredential)
| Refused.

Section Methods.
Context `{!Collaborators}.

(** [this.errors.push(msg)]. *)
Definition push_error (msg : string) (this : Credentials) : Credentials :=
  {| errors := (errors this ++ [msg])%list |}.

(** [verifyCredential(vcJwt, environment, currentDateTime?)]. *)
Definition verifyCredential (vcJwt environment : string)
  (currentDateTime : option string) : M Credentials Verdict :=
  decodedCredential ← await (verifyCredentialJwt vcJwt environment);
  match decodedCredential with
  | Some vc =>
      if truthy_opt (expirationDate vc) then
        let now := if truthy_opt currentDateTime
                   then default "" currentDateTime else clock in
        match diff (default "" (expirationDate vc)) now with
        | Some n =>
            if (n <? 0)%Z then
              modify (push_error "Credential has expired");;
              mret Refused
            else mret (Decoded decodedCredential)
        | None => mret (Decoded decodedCredential)
        end
      else mret (Decoded decodedCredential)
  | None => mret (Decoded decodedCredential)
  end.

(** [getErrors()]. *)
Definition getErrors : M Credentials (list string) :=
  this ← get; mret (errors this).

End Methods.
End Credentials.

(** ** Stand-ins for the collaborators

    Concrete collaborators on which the statements below are instantiated and
    evaluated.  [transparent] hashes a string to its hexadecimal spelling and
    signs a document with a rendering of the document and the key, so that a
    signature verifies exactly for the data and key it was made from. *)
Module StandIns.
Import Js EncryptionUtils DidDocument.

Definition hexChar (n : nat) : ascii :=
  nth n ["0"; "1"; "2"; "3"; "4"; "5"; "6"; "7"; "8"; "9";
         "a"; "b"; "c"; "d"; "e"; "f"]%char "0"%char.

Fixpoint hexEncode (s : string) : string :=
  match s with
  | EmptyString => EmptyString
  | String c s' =>
      let n := nat_of_ascii c in
      String (hexChar (n / 16)) (String (hexChar (n mod 16)) (hexEncode s'))
  end.

Definition hexHash (s : string) : string := "0x" +:+ hexEncode s.

#[local] Instance VerificationMethod_eq_dec : EqDecision VerificationMethod.
Proof. solve_decision. Defined.
#[local] Instance ServiceEndpoint_eq_dec : EqDecision ServiceEndpoint.
Proof. solve_decision. Defined.
#[local] Instance MethodRef_eq_dec : EqDecision MethodRef.
Proof. solve_decision. Defined.
#[local] Instance ProofStruct_eq_dec : EqDecision ProofStruct.
Proof. solve_decision. Defined.
#[local] Instance DIDDocumentStruct_eq_dec : EqDecision DIDDocumentStruct.
Proof. solve_decision. Defined.

#[local] Instance VerificationMethod_countable : Countable VerificationMethod.
Proof.
  refine (inj_countable'
    (fun v => (vm_id v, vm_type v, vm_controller v, vm_publicKeyHex v))
    (fun t => let '(a, b, c, d) := t in Build_VerificationMethod a b c d) _).
  by intros [].
Defined.
#[local] Instance ServiceEndpoint_countable : Countable ServiceEndpoint.
Proof.
  refine (inj_countable'
    (fun v => (se_id v, se_type v, se_serviceEndpoint v))
    (fun t => let '(a, b, c) := t in Build_ServiceEndpoint a b c) _).
  by intros [].
Defined.
#[local] Instance MethodRef_countable : Countable MethodRef.
Proof.
  refine (inj_countable'
    (fun r => match r with RefString s => inl s | RefMethod m => inr m end)
    (fun t => match t with inl s => RefString s | inr m => RefMethod m end) _).
  by intros [].
Defined.
#[local] Instance ProofStruct_countable : Countable ProofStruct.
Proof.
  refine (inj_countable'
    (fun v => (proof_type v, proof_verificationMethod v,
               proof_proofPurpose v, proof_proofValue v))
    (fun t => let '(a, b, c, d) := t in Build_ProofStruct a b c d) _).
  by intros [].
Defined.
#[local] Instance DIDDocumentStruct_countable : Countable DIDDocumentStruct.
Proof.
  refine (inj_countable'
    (fun v => (id v, controller v, verificationMethod v, assertionMethod v,
               keyAgreement v, service v, proof v))
    (fun t => let '(a, b, c, d, e, f, g) := t in
              Build_DIDDocumentStruct a b c d e f g) _).
  by intros [].
Defined.

(** The binary spelling of a positive number, least significant bit first. *)
Fixpoint bits (p : positive) : string :=
  match p with
  | xH => EmptyString
  | xO q => String "0" (bits q)
  | xI q => String "1" (bits q)
  end.

(** The public key that goes with a private key: the key's own spelling. *)
Definition publicKeyOf (k : PrivateKey) : string :=
  match k with
  | KeyBytes b => "0x" +:+ hexEncode (string_of_list_byte b)
  | KeyString s => s
  end.

Definition render (data : DIDDocumentStruct) (publicKeyHex : string) : string :=
  bits (encode (data, publicKeyHex)).

Definition transparent : Primitives DIDDocumentStruct :=
  {| hash := hexHash;
     signData := fun data k => render data (publicKeyOf k);
     EncryptionUtils.verifySig := fun data signature publicKeyHex =>
       bool_decide (signature = render data publicKeyHex) |}.

(** A public key of the length the constructor asks for (132 characters). *)
Definition publicKey132 : string :=
  "0x" +:+ hexEncode
    "the quick brown fox jumps over the lazy dog, again and once again".

Definition sampleKeys : KeyringPublicKeys :=
  {| signPublicKeyHex := "0x970c1016f3efe4c0ac1b404c38a9cfab";
     asymPublicKeyHex := "0x270c1016f3efe4c0ac1b404c38a9cfab" |}.

Definition sampleKeyring : Keyring := {| getKeys := inr sampleKeys |}.

(** The endpoints of the scenario in section 8 of the specification. *)
Definition sampleEndpoints : Endpoints :=
  {| database := {| ep_type := "VeridaDatabase";
                    ep_endpointUri := "https://db.example/" |};
     messaging := {| ep_type := "VeridaMessage";
                     ep_endpointUri := "https://msg.example/" |};
     storage := None;
     notification := None |}.

(** [new DIDDocument("did:vda:0xABC", publicKey132)]. *)
Definition freshDocument : DIDDocument :=
  match new (inr "did:vda:0xABC") (Some publicKey132) with
  | inr this => this
  | inl _ => {| doc := Build_DIDDocumentStruct "" None None None None None None;
                errors := [] |}
  end.

(** The root key of [freshDocument] in its two forms. *)
Definition rootKeyBytes : PrivateKey :=
  KeyBytes (list_byte_of_string
    "the quick brown fox jumps over the lazy dog, again and once again").

Definition rootKeyString : PrivateKey := KeyString publicKey132.


(** Collaborators of the messaging engine: the outbox accepts every
    message; the notification server is reached ([reachable]) or the request
    to it fails ([unreachable]). *)
Definition reachable : MessagingEngine.Collaborators string string :=
  {| MessagingEngine.openDatastore := fun _ => inr tt;
     MessagingEngine.outboxSend := fun _ _ _ _ _ _ => inr (Some "saved");
     MessagingEngine.vaultAppName := "Verida: Vault";
     MessagingEngine.ping := fun _ _ _ => inr true |}.

Definition unreachable : MessagingEngine.Collaborators string string :=
  {| MessagingEngine.openDatastore := fun _ => inr tt;
     MessagingEngine.outboxSend := fun _ _ _ _ _ _ => inr (Some "saved");
     MessagingEngine.vaultAppName := "Verida: Vault";
     MessagingEngine.ping := fun _ _ _ => inl (Error "Network Error") |}.

Definition sampleEngine : MessagingEngine.MessagingEngineVerida :=
  {| MessagingEngine.contextName := "Test App";
     MessagingEngine.notificationService :=
       Some {| MessagingEngine.notification_endpointUri :=
                 "https://notify.example/" |};
     MessagingEngine.did := Some "did:vda:0xabc";
     MessagingEngine.outbox := None;
     MessagingEngine.events := [] |}.

Definition sampleSendConfig : MessagingEngine.MessageSendConfig :=
  {| MessagingEngine.recipientContextName := None |}.

(** A context configuration whose database server is of the given type. *)
Definition configOfType (databaseType : string)
  : StorageLink.SecureContextConfig :=
  {| StorageLink.config_id := "0x6469643a7664613a30786162632f5465737420417070";
     StorageLink.publicKeys :=
       {| StorageLink.signKey :=
            {| StorageLink.pk_type := "EcdsaSecp256k1VerificationKey2019";
               StorageLink.pk_publicKeyHex := signPublicKeyHex sampleKeys |};
          StorageLink.asymKey :=
            {| StorageLink.pk_type := "Curve25519EncryptionPublicKey";
               StorageLink.pk_publicKeyHex := asymPublicKeyHex sampleKeys |} |};
     StorageLink.services :=
       {| StorageLink.databaseServer :=
            {| StorageLink.type := databaseType;
               StorageLink.endpointUri := "https://db.example/" |};
          StorageLink.messageServer :=
            {| StorageLink.type := "VeridaMessage";
               StorageLink.endpointUri := "https://msg.example/" |};
          StorageLink.storageServer := None;
          StorageLink.notificationServer := None |} |}.

(** Collaborators of the context: the resolver answers every lookup with a
    configuration of the given database type; connecting and opening
    succeed. *)
Definition resolvesTo (databaseType : string) : StorageContext.Collaborators :=
  {| StorageContext.getDIDContextConfig := fun _ _ _ =>
       inr (configOfType databaseType);
     StorageContext.connectAccount := fun engine account =>
       inr {| StorageContext.engine_contextName :=
                StorageContext.engine_contextName engine;
              StorageContext.engine_endpointUri :=
                StorageContext.engine_endpointUri engine;
              StorageContext.engine_account := Some account |};
     StorageContext.engineOpenDatabase := fun engine databaseName config =>
       inr {| StorageContext.database_name := databaseName;
              StorageContext.database_did :=
                default "" (StorageContext.config_did config);
              StorageContext.database_engine := engine |};
     StorageContext.saveDb := fun _ => inr tt |}.

Definition sampleContext : StorageContext.Context :=
  {| StorageContext.account :=
       Some {| StorageContext.account_did := "did:vda:0xabc" |};
     StorageContext.contextName := "Test App";
     StorageContext.databaseEngines := ∅;
     StorageContext.events := [] |}.

Definition sampleOpenConfig : StorageContext.DatabaseOpenConfig :=
  {| StorageContext.config_did := None;
     StorageContext.createContext := None;
     StorageContext.saveDatabase := None |}.


(** [freshDocument] after [addContext("Test App", ...)]. *)
Definition registeredDocument : DIDDocument :=
  match @addContext transparent "Test App" sampleKeyring sampleEndpoints
          freshDocument with
  | Ok _ this => this
  | _ => freshDocument
  end.

(** Keys and endpoints the context is registered with a second time. *)
Definition rotatedKeys : KeyringPublicKeys :=
  {| signPublicKeyHex := "0x5b1e7c3a9d2f4068812cafe4c0ac1b40";
     asymPublicKeyHex := "0x6c2f8d4b0e3a5179923dbf05d1bd2c51" |}.

Definition rotatedKeyring : Keyring := {| getKeys := inr rotatedKeys |}.

Definition movedEndpoints : Endpoints :=
  {| database := {| ep_type := "VeridaDatabase";
                    ep_endpointUri := "https://db2.example/" |};
     messaging := {| ep_type := "VeridaMessage";
                     ep_endpointUri := "https://msg2.example/" |};
     storage := None;
     notification := None |}.

(** A keyring that does not hand out its keys. *)
Definition lockedKeyring : Keyring :=
  {| getKeys := inl (Error "Keyring is locked") |}.

(** [freshDocument] with a database service of the context [Test App] and
    no key of that context. *)
Definition staleService : ServiceEndpoint :=
  {| se_id := contextId "did:vda:0xabc"
                (@generateContextHash transparent "did:vda:0xabc" "Test App")
                "database";
     se_type := "VeridaDatabase";
     se_serviceEndpoint := "https://old.example/" |}.

Definition staleDocument : DIDDocument :=
  on_doc (set_service (Some [staleService])) freshDocument.

(** The storage node refuses the account. *)
Definition refusesConnection : StorageContext.Collaborators :=
  {| StorageContext.getDIDContextConfig := fun _ _ _ =>
       inr (configOfType "VeridaDatabase");
     StorageContext.connectAccount := fun _ _ => inl (Error "Unauthorized");
     StorageContext.engineOpenDatabase := fun engine databaseName config =>
       inr {| StorageContext.database_name := databaseName;
              StorageContext.database_did :=
                default "" (StorageContext.config_did config);
              StorageContext.database_engine := engine |};
     StorageContext.saveDb := fun _ => inr tt |}.

(** The account signs out when asked to. *)
Definition signsOut : ContextSession.AccountSession :=
  {| ContextSession.accountDisconnect := fun _ _ => inr tt |}.

(** The account hands out its keyring, or refuses to. *)
Definition keyringGranted : MessagingConnection.Collaborators :=
  {| MessagingConnection.accountKeyring := fun account contextName =>
       inr {| Keyrings.seed :=
                StorageContext.account_did account +:+ "/" +:+ contextName |};
     MessagingConnection.inboxInit := fun _ => inr tt |}.

Definition keyringRefused : MessagingConnection.Collaborators :=
  {| MessagingConnection.accountKeyring := fun _ _ =>
       inl (Error "User rejected the request");
     MessagingConnection.inboxInit := fun _ => inr tt |}.

(** [sampleContext] with its engine properties unset. *)
Definition sampleEngines
  : ContextSession.ContextEngines MessagingConnection.Connection :=
  {| ContextSession.context := sampleContext;
     ContextSession.messagingEngine := None;
     ContextSession.notificationEngine := None |}.

Definition defaultMessages : ContextSession.MessagesConfig :=
  {| ContextSession.messages_maxItems := None |}.

(** A context configuration with a notification server, and a resolver
    that answers with it. *)
Definition notifyingConfig : StorageLink.SecureContextConfig :=
  {| StorageLink.config_id :=
       StorageLink.config_id (configOfType "VeridaDatabase");
     StorageLink.publicKeys :=
       StorageLink.publicKeys (configOfType "VeridaDatabase");
     StorageLink.services :=
       {| StorageLink.databaseServer :=
            {| StorageLink.type := "VeridaDatabase";
               StorageLink.endpointUri := "https://db.example/" |};
          StorageLink.messageServer :=
            {| StorageLink.type := "VeridaMessage";
               StorageLink.endpointUri := "https://msg.example/" |};
          StorageLink.storageServer := None;
          StorageLink.notificationServer :=
            Some {| StorageLink.type := "VeridaNotification";
                    StorageLink.endpointUri := "https://notify.example/" |}
       |} |}.

Definition resolvesNotifying : StorageContext.Collaborators :=
  {| StorageContext.getDIDContextConfig := fun _ _ _ => inr notifyingConfig;
     StorageContext.connectAccount :=
       @StorageContext.connectAccount (resolvesTo "VeridaDatabase");
     StorageContext.engineOpenDatabase :=
       @StorageContext.engineOpenDatabase (resolvesTo "VeridaDatabase");
     StorageContext.saveDb := fun _ => inr tt |}.

(** A context nobody is signed in to. *)
Definition anonymousContext : StorageContext.Context :=
  {| StorageContext.account := None;
     StorageContext.contextName := "Test App";
     StorageContext.databaseEngines := ∅;
     StorageContext.events := [] |}.

Definition externalConfig : ExternalDatabase.ExternalDatabaseConfig :=
  {| ExternalDatabase.open_config := sampleOpenConfig;
     ExternalDatabase.dsn := None;
     ExternalDatabase.config_contextName := None |}.

Definition opensExternal : ExternalDatabase.ExternalCollaborators :=
  {| ExternalDatabase.openExternalContext := fun _ _ => inr None;
     ExternalDatabase.engineOpenExternalDatabase :=
       fun engine databaseName config =>
         inr {| StorageContext.database_name := databaseName;
                StorageContext.database_did :=
                  default "" (StorageContext.config_did
                                (ExternalDatabase.open_config config));
                StorageContext.database_engine := engine |} |}.

(** Signing text: the signature spells the message and the key. *)
Definition textual : Primitives string :=
  {| hash := hexHash;
     signData := fun message k => hexEncode message +:+ "." +:+ publicKeyOf k;
     EncryptionUtils.verifySig := fun message signature publicKeyHex =>
       String.eqb signature (hexEncode message +:+ "." +:+ publicKeyHex) |}.

(** A DID client that is authenticated or not, and a registry of links
    that holds the link of [Test App] only. *)
Definition linksTestApp : AutoAccountStorage.Collaborators bool :=
  {| AutoAccountStorage.authenticated := fun client => client;
     AutoAccountStorage.authenticate := fun _ _ => true;
     AutoAccountStorage.getLink := fun _ _ contextName =>
       inr (if String.eqb contextName "Test App"
            then Some (configOfType "VeridaDatabase") else None);
     AutoAccountStorage.generate := fun _ contextName endpoints =>
       inr {| StorageLink.config_id := contextName;
              StorageLink.publicKeys :=
                StorageLink.publicKeys (configOfType "VeridaDatabase");
              StorageLink.services := endpoints |};
     AutoAccountStorage.setLink := fun _ _ _ _ => inr tt |}.

Definition sampleAutoAccount : AutoAccountStorage.AutoAccount bool :=
  {| AutoAccountStorage.didClient := false;
     AutoAccountStorage.wallet :=
       {| AutoAccountStorage.wallet_did := "did:vda:0xABC";
          AutoAccountStorage.privateKey := "0x5dd84b6d";
          AutoAccountStorage.privateKeyBuffer :=
            list_byte_of_string "key" |};
     AutoAccountStorage.accountConfig :=
       {| AutoAccountStorage.defaultDatabaseServer :=
            {| StorageLink.type := "VeridaDatabase";
               StorageLink.endpointUri := "https://db.example/" |};
          AutoAccountStorage.defaultMessageServer :=
            {| StorageLink.type := "VeridaMessage";
               StorageLink.endpointUri := "https://msg.example/" |};
          AutoAccountStorage.defaultStorageServer := None;
          AutoAccountStorage.defaultNotificationServer := None |};
     AutoAccountStorage.events := [] |}.

(** A session as the Vault grants it. *)
Definition sampleSession : VaultAccount.Session :=
  {| VaultAccount.session_did := "did:vda:0xabc";
     VaultAccount.session_context := "Test App";
     VaultAccount.session_contextConfig := configOfType "VeridaDatabase";
     VaultAccount.session_signature := "0x1b2c3d" |}.

(** The page the Vault redirects to, carrying a token; a later page, where
    the user grants what the dialog asks; and a page where the user
    declines. *)
Definition landingPage : VaultAccount.Browser :=
  {| VaultAccount.getAuthTokenFromQueryParams :=
       VaultAccount.Token sampleSession;
     VaultAccount.VaultModalLogin := fun _ => VaultAccount.Declined |}.

Definition laterPage : VaultAccount.Browser :=
  {| VaultAccount.getAuthTokenFromQueryParams := VaultAccount.NoToken;
     VaultAccount.VaultModalLogin := fun _ =>
       VaultAccount.Granted sampleSession true |}.

Definition decliningPage : VaultAccount.Browser :=
  {| VaultAccount.getAuthTokenFromQueryParams := VaultAccount.NoToken;
     VaultAccount.VaultModalLogin := fun _ => VaultAccount.Declined |}.

Definition newVaultAccount : VaultAccount.VaultAccount :=
  {| VaultAccount.config := {| VaultAccount.callback := false |};
     VaultAccount.accountDid := None;
     VaultAccount.contextCache := ∅;
     VaultAccount.sessions := None;
     VaultAccount.calledBack := [] |}.

(** A credential that expires with the year 2022, and a clock; dates in
    ISO form compare as the strings do. *)
Definition sampleCredential : Credentials.VerifiedCredential :=
  {| Credentials.jwt := "eyJhbGciOiJFUzI1NksifQ";
     Credentials.expirationDate := Some "2022-12-31T23:59:59.000Z" |}.

Definition isoDates : Credentials.Collaborators :=
  {| Credentials.verifyCredentialJwt := fun _ _ => inr (Some sampleCredential);
     Credentials.diff := fun a b =>
       Some (match String.compare a b with
             | Lt => (-1)%Z
             | Eq => 0%Z
             | Gt => 1%Z
             end);
     Credentials.clock := "2022-06-01T00:00:00.000Z" |}.

End StandIns.

(** * Properties *)

(** Unfolds the operations of the method monad. *)
Ltac run :=
  unfold mbind, mret, M_bind, M_ret, Js.bind, Js.ret, Js.get,
    Js.modify, Js.throw, Js.await, Js.unmodelled;
  simpl.

(** ** Strings, patterns and the method monad *)
Module JsFacts.
Import Js.

Lemma lower_ascii_idem (c : ascii) : lower_ascii (lower_ascii c) = lower_ascii c.
Proof. destruct c as [[] [] [] [] [] [] [] []]; reflexivity. Qed.

Lemma toLowerCase_idem (s : string) : toLowerCase (toLowerCase s) = toLowerCase s.
Proof.
  induction s as [|c s IH]; simpl; [reflexivity|].
  by rewrite lower_ascii_idem, IH.
Qed.

Lemma toLowerCase_same_modulo_case (s1 s2 : string) :
  same_modulo_case s1 s2 -> toLowerCase s1 = toLowerCase s2.
Proof.
  induction 1 as [|c1 c2 s1 s2 Hc _ IH]; simpl; [reflexivity|].
  by rewrite Hc, IH.
Qed.

Lemma same_modulo_case_toLowerCase (s : string) :
  same_modulo_case s (toLowerCase s).
Proof.
  induction s as [|c s IH]; simpl; constructor; [|exact IH].
  by rewrite lower_ascii_idem.
Qed.

(** stdpp keeps [+:+] folded under [simpl]; these two equations unfold it. *)
Lemma append_nil (b : string) : "" +:+ b = b.
Proof. reflexivity. Qed.

Lemma append_cons (c : ascii) (a b : string) :
  String c a +:+ b = String c (a +:+ b).
Proof. reflexivity. Qed.

Lemma append_assoc (a b c : string) : (a +:+ b) +:+ c = a +:+ (b +:+ c).
Proof.
  induction a as [|x a IH]; [reflexivity|].
  rewrite !append_cons. by rewrite IH.
Qed.

Lemma append_empty (a : string) : a +:+ "" = a.
Proof.
  induction a as [|x a IH]; [reflexivity|]. rewrite append_cons. by rewrite IH.
Qed.

Lemma literal_atoms_app (a b : string) :
  literal_atoms (a +:+ b) = (literal_atoms a ++ literal_atoms b)%list.
Proof.
  induction a as [|x a IH]; [reflexivity|].
  rewrite append_cons. simpl. by rewrite IH.
Qed.

(** An unescaped pattern-safe prefix compiles to its literal atoms. *)
Lemma compile_app_safe (a rest : string) :
  pattern_safe a = true ->
  compile (a +:+ rest)
  = option_map (app (literal_atoms a)) (compile rest).
Proof.
  induction a as [|c a IH].
  - intros _. rewrite append_nil. by destruct (compile rest).
  - rewrite append_cons. simpl. intros [Hc Ha]%andb_prop.
    rewrite (IH Ha). clear IH Ha.
    unfold pattern_safe_char in Hc.
    destruct (Ascii.eqb c "\") eqn:Hbs.
    + apply Ascii.eqb_eq in Hbs. subst c. discriminate Hc.
    + destruct (Ascii.eqb c ".") eqn:Hdot.
      * by destruct (compile rest).
      * rewrite orb_false_r in Hc. apply negb_true_iff in Hc. rewrite Hc.
        by destruct (compile rest).
Qed.

Lemma compile_safe (a : string) :
  pattern_safe a = true -> compile a = Some (literal_atoms a).
Proof.
  intros Ha. pose proof (compile_app_safe a "" Ha) as H.
  rewrite append_empty in H. rewrite H. simpl. by rewrite app_nil_r.
Qed.

(** The literal atoms of a string match that string, whatever follows. *)
Lemma match_here_literal (s rest : string) :
  match_here (literal_atoms s) (s +:+ rest) = true.
Proof.
  induction s as [|c s IH]; [by destruct rest|].
  rewrite append_cons. simpl. rewrite IH, andb_true_r.
  destruct (Ascii.eqb c ".") eqn:Hdot; simpl.
  - apply Ascii.eqb_eq in Hdot. by subst c.
  - apply Ascii.eqb_refl.
Qed.

Lemma search_literal (s rest : string) :
  search (literal_atoms s) (s +:+ rest) = true.
Proof.
  destruct (s +:+ rest) eqn:E; simpl; rewrite <- E, match_here_literal;
    reflexivity.
Qed.

(** The wildcard at work: the pattern built for the DID [did:web:a.b] also
    occurs in ids of [did:web:a-b]. *)
Example search_wildcard :
  option_map (fun re => search re "did:web:a-b?context=0x1f#sign")
    (compile "did:web:a.b\?context=0x1f") = Some true.
Proof. reflexivity. Qed.

End JsFacts.

(** ** The DID document manager *)
Module DidDocumentFacts.
Import Js EncryptionUtils DidDocument JsFacts.

Section ContextHash.
Context `{!Primitives DIDDocumentStruct}.

(** C1.  For every DID and context name the context hash is
    [hash(lowercase(did) + "/" + contextName)]; being a function of the two
    strings it is deterministic; two DIDs that differ only in letter case
    have the same hash; and the hash computed from the canonical (lower-case)
    id a document stores, as [addContext], [removeContext] and
    [locateServiceEndpoint] compute it, is the hash of the DID as given. *)
Theorem generateContextHash_stable :
  (forall did contextName,
     generateContextHash did contextName
     = hash (toLowerCase did +:+ "/" +:+ contextName))
  /\ (forall did1 did2 contextName,
        same_modulo_case did1 did2 ->
        generateContextHash did1 contextName
        = generateContextHash did2 contextName)
  /\ (forall did contextName,
        generateContextHash (toLowerCase did) contextName
        = generateContextHash did contextName).
Proof.
  unfold generateContextHash. split; [reflexivity|]. split.
  - intros did1 did2 contextName Hcase.
    by rewrite (toLowerCase_same_modulo_case _ _ Hcase).
  - intros did contextName. by rewrite toLowerCase_idem.
Qed.

End ContextHash.

(** The statement of C1 instantiated: [DID:VDA:0xABC] and [did:vda:0xabc]
    denote the same context. *)
Lemma generateContextHash_stable_witness :
  @generateContextHash StandIns.transparent "DID:VDA:0xABC" "Test App"
  = @generateContextHash StandIns.transparent "did:vda:0xabc" "Test App".
Proof.
  apply (proj1 (proj2 (@generateContextHash_stable StandIns.transparent))).
  repeat constructor.
Defined.

(** *** Running the methods *)

Lemma findM_str_match {S A} (f : A -> string) (pattern : string)
  (re : list atom) (l : list A) (s : S) :
  compile pattern = Some re ->
  findM (fun entry => str_match (f entry) pattern) l s
  = Ok (List.find (fun entry => search re (f entry)) l) s.
Proof.
  intros Hre. induction l as [|x l IH]; simpl; [reflexivity|].
  unfold mbind, M_bind, Js.bind. unfold str_match at 1. rewrite Hre.
  unfold mret, M_ret, Js.ret.
  destruct (search re (f x)); [reflexivity|]. exact IH.
Qed.

Lemma filterM_str_match {S A} (f : A -> string) (pattern : string)
  (re : list atom) (l : list A) (s : S) :
  compile pattern = Some re ->
  filterM (fun entry => negb <$> str_match (f entry) pattern) l s
  = Ok (List.filter (fun entry => negb (search re (f entry))) l) s.
Proof.
  intros Hre. induction l as [|x l IH]; simpl; [reflexivity|].
  unfold mbind, M_bind, Js.bind. unfold fmap at 1, M_fmap at 1, Js.bind at 1.
  unfold str_match at 1. rewrite Hre.
  unfold mret, M_ret, Js.ret. rewrite IH.
  by destruct (search re (f x)).
Qed.

Lemma find_none_existsb {A} (p : A -> bool) (l : list A) :
  List.find p l = None <-> existsb p l = false.
Proof.
  induction l as [|x l IH]; simpl; [tauto|].
  destruct (p x); simpl; [split; discriminate|exact IH].
Qed.

Lemma find_some_existsb {A} (p : A -> bool) (l : list A) :
  existsb p l = true -> exists x, List.find p l = Some x.
Proof.
  intros H. destruct (List.find p l) as [x|] eqn:E; [by exists x|].
  apply find_none_existsb in E. congruence.
Qed.

Lemma compile_contextPattern (did contextHash : string) :
  pattern_safe did = true -> pattern_safe contextHash = true ->
  compile (contextPattern did contextHash)
  = Some (contextRegex did contextHash).
Proof.
  intros Hdid Hhash. unfold contextPattern, contextRegex.
  rewrite (compile_app_safe did _ Hdid).
  change ("\?context=" +:+ contextHash)
    with (String "\" (String "?" ("context=" +:+ contextHash))).
  cbn [compile]. change (Ascii.eqb "\" "\") with true. cbv iota.
  change (is_syntax "?") with true. cbv iota.
  rewrite (compile_app_safe "context=" contextHash eq_refl).
  rewrite (compile_safe _ Hhash). simpl.
  by rewrite !literal_atoms_app.
Qed.

(** Every id [addContext] writes for a context is one its pattern occurs
    in. *)
Lemma names_context_contextId (did contextHash suffix : string) :
  names_context did contextHash (contextId did contextHash suffix) = true.
Proof.
  unfold names_context, contextRegex, contextId.
  rewrite <- (append_assoc "?context=" contextHash ("#" +:+ suffix)).
  rewrite <- (append_assoc did ("?context=" +:+ contextHash) ("#" +:+ suffix)).
  apply search_literal.
Qed.

Section Running.
Context `{!Primitives DIDDocumentStruct}.

Lemma removeContext_no_methods (contextName : string) (this : DIDDocument) :
  verificationMethod (doc this) = None ->
  removeContext contextName this
  = Ok false (set_errors ["No verification method specified"] this).
Proof. intros H. unfold removeContext. run. by rewrite H. Qed.

Lemma removeContext_no_match (contextName : string) (this : DIDDocument)
  (vms : list VerificationMethod) :
  let contextHash := generateContextHash (id (doc this)) contextName in
  pattern_safe (id (doc this)) = true ->
  pattern_safe contextHash = true ->
  verificationMethod (doc this) = Some vms ->
  existsb (fun entry => names_context (id (doc this)) contextHash
                          (vm_id entry)) vms = false ->
  removeContext contextName this
  = Ok false (set_errors
      ["Unable to locate verification method for this context"] this).
Proof.
  intros contextHash Hid Hhash Hvm Hnone. subst contextHash.
  unfold removeContext. run. rewrite Hvm.
  rewrite (findM_str_match vm_id _ _ vms this
             (compile_contextPattern _ _ Hid Hhash)).
  apply find_none_existsb in Hnone. unfold names_context in Hnone.
  by rewrite Hnone.
Qed.

(** With an empty [verificationMethod] array the pattern is never
    compiled, whatever the id and the hash contain. *)
Lemma removeContext_empty_methods (contextName : string) (this : DIDDocument) :
  verificationMethod (doc this) = Some [] ->
  removeContext contextName this
  = Ok false (set_errors
      ["Unable to locate verification method for this context"] this).
Proof. intros H. unfold removeContext. run. by rewrite H. Qed.

(** The run of [removeContext] on a document that records the context in
    [verificationMethod]: each of the other three collections is read in
    turn, and reading an absent one throws after the earlier ones have been
    assigned. *)
Lemma removeContext_match (contextName : string) (this : DIDDocument)
  (vms : list VerificationMethod) :
  let d := doc this in
  let contextHash := generateContextHash (id d) contextName in
  let removed := without_context contextHash d in
  pattern_safe (id d) = true ->
  pattern_safe contextHash = true ->
  verificationMethod d = Some vms ->
  existsb (fun entry => names_context (id d) contextHash (vm_id entry)) vms
  = true ->
  removeContext contextName this =
  match assertionMethod d, keyAgreement d, service d with
  | None, _, _ =>
      Throw (TypeError "this.doc.assertionMethod.filter")
        (on_doc (set_verificationMethod (verificationMethod removed)) this)
  | Some _, None, _ =>
      Throw (TypeError "this.doc.keyAgreement.filter")
        (on_doc (fun d => set_assertionMethod (assertionMethod removed)
                   (set_verificationMethod (verificationMethod removed) d))
           this)
  | Some _, Some _, None =>
      Throw (TypeError "this.doc.service.filter")
        (on_doc (fun d => set_keyAgreement (keyAgreement removed)
                   (set_assertionMethod (assertionMethod removed)
                      (set_verificationMethod (verificationMethod removed) d)))
           this)
  | Some _, Some _, Some _ => Ok true (on_doc (without_context contextHash) this)
  end.
Proof.
  intros d contextHash removed Hid Hhash Hvm Hsome.
  subst removed contextHash d.
  pose proof (compile_contextPattern _ _ Hid Hhash) as Hre.
  unfold removeContext. run. rewrite Hvm.
  rewrite (findM_str_match vm_id _ _ vms this Hre).
  destruct (find_some_existsb _ _ Hsome) as [x Hx].
  unfold names_context in Hx. rewrite Hx.
  rewrite (filterM_str_match vm_id _ _ vms this Hre).
  unfold without_context, on_doc. simpl. rewrite Hvm. simpl.
  destruct (assertionMethod (doc this)) as [ams|] eqn:Ham; [|reflexivity].
  destruct (keyAgreement (doc this)) as [kas|] eqn:Hka; [|reflexivity].
  destruct (service (doc this)) as [svcs|] eqn:Hsvc; [|reflexivity].
  rewrite (filterM_str_match se_id _ _ svcs _ Hre).
  destruct this as [[] ?]. simpl in *. subst. reflexivity.
Qed.

(** [addContext] is [removeContext] followed by the appends. *)
Lemma addContext_run (contextName : string) (keyring : Keyring)
  (endpoints : Endpoints) (keys : KeyringPublicKeys)
  (this this1 : DIDDocument) (removed : bool) :
  removeContext contextName this = Ok removed this1 ->
  getKeys keyring = inr keys ->
  addContext contextName keyring endpoints this
  = Ok tt (on_doc (with_context
                     (generateContextHash (id (doc this1)) contextName)
                     endpoints keys) this1).
Proof.
  intros Hremove Hkeys. unfold addContext. run. rewrite Hremove.
  unfold addContextOptionalService, addContextService, addContextSignKey,
    addContextAsymKey. rewrite Hkeys.
  unfold with_context, contextServices, contextMethods, serviceEntry,
    on_doc, push.
  destruct this1 as [[i c vm am ka sv pr] errs].
  destruct (storage endpoints), (notification endpoints); run;
    rewrite <- ?app_assoc; reflexivity.
Qed.

Lemma addContext_remove_throws (contextName : string) (keyring : Keyring)
  (endpoints : Endpoints) (this this1 : DIDDocument) (e : exn) :
  removeContext contextName this = Throw e this1 ->
  addContext contextName keyring endpoints this = Throw e this1.
Proof. intros H. unfold addContext. run. by rewrite H. Qed.

End Running.

(** *** Adding and then removing a context *)

Lemma filter_restores {A} (p : A -> bool) (l added : list A) :
  existsb p l = false -> forallb p added = true ->
  List.filter (fun x => negb (p x)) (l ++ added) = l.
Proof.
  intros Hl Hadded. rewrite List.filter_app.
  assert (List.filter (fun x => negb (p x)) added = []) as ->.
  { induction added as [|x added IH]; simpl in *; [reflexivity|].
    apply andb_prop in Hadded as [Hx Hrest]. rewrite Hx. simpl. auto. }
  rewrite app_nil_r. apply forallb_filter_id.
  induction l as [|x l IH]; simpl in *; [reflexivity|].
  apply orb_false_elim in Hl as [Hx Hrest]. rewrite Hx. simpl. auto.
Qed.

Lemma filter_restores_neg {A} (q : A -> bool) (l added : list A) :
  existsb (fun x => negb (q x)) l = false ->
  forallb (fun x => negb (q x)) added = true ->
  List.filter q (l ++ added) = l.
Proof.
  intros Hl Hadded.
  rewrite <- (filter_restores (fun x => negb (q x)) l added Hl Hadded) at 2.
  apply List.filter_ext. intros x. by rewrite negb_involutive.
Qed.

Lemma contextServices_named (did contextHash : string) (endpoints : Endpoints) :
  forallb (fun entry => names_context did contextHash (se_id entry))
    (contextServices did contextHash endpoints) = true.
Proof.
  unfold contextServices.
  destruct (storage endpoints), (notification endpoints); simpl;
    rewrite ?names_context_contextId; reflexivity.
Qed.

Section AddRemove.
Context `{!Primitives DIDDocumentStruct}.

(** C2, as amended.  For a document that records nothing of context X,
    whose id and context hash are pattern-safe, and a keyring that yields
    its keys: [addContext(X, ...)] succeeds, the following
    [removeContext(X)] returns [true], and afterwards each of the four
    collections holds exactly the entries it held before the add.  A
    collection that was absent before the add is present and empty
    afterwards.  The id, the controller and the proof are untouched. *)
Theorem add_then_remove_restores (contextName : string) (keyring : Keyring)
  (endpoints : Endpoints) (keys : KeyringPublicKeys) (this : DIDDocument) :
  let d := doc this in
  let contextHash := generateContextHash (id d) contextName in
  pattern_safe (id d) = true ->
  pattern_safe contextHash = true ->
  context_recorded contextHash d = false ->
  getKeys keyring = inr keys ->
  exists this1 this2,
    addContext contextName keyring endpoints this = Ok tt this1 /\
    removeContext contextName this1 = Ok true this2 /\
    restored d (doc this2).
Proof.
  intros d contextHash Hid Hhash Habsent Hkeys. subst d contextHash.
  unfold context_recorded in Habsent.
  apply orb_false_elim in Habsent as [Habsent Hsvc].
  apply orb_false_elim in Habsent as [Habsent Hka].
  apply orb_false_elim in Habsent as [Hvm Ham].
  (* the removal that opens [addContext] finds nothing to remove *)
  assert (exists msg, removeContext contextName this
                      = Ok false (set_errors [msg] this)) as [msg Hfirst].
  { destruct (verificationMethod (doc this)) as [vms|] eqn:E.
    - eexists. by apply (removeContext_no_match contextName this vms).
    - eexists. by apply removeContext_no_methods. }
  pose proof (addContext_run contextName keyring endpoints keys _ _ _
                Hfirst Hkeys) as Hadd.
  simpl in Hadd.
  eexists. eexists. split; [exact Hadd|].
  set (h := generateContextHash (id (doc this)) contextName) in *.
  (* the second removal finds the signing key just added *)
  match type of Hadd with _ = Ok tt ?t => set (this1 := t) end.
  assert (id (doc this1) = id (doc this)) as Hid1 by reflexivity.
  pose proof (removeContext_match contextName this1
    (default [] (verificationMethod (doc this))
     ++ contextMethods (id (doc this)) h keys)) as Hsecond.
  simpl in Hsecond. fold h in Hsecond.
  rewrite Hsecond; clear Hsecond; try assumption; try reflexivity.
  - split; [reflexivity|]. unfold restored. simpl.
    repeat split.
    + f_equal. apply filter_restores; [exact Hvm|].
      simpl. by rewrite !names_context_contextId.
    + f_equal. apply filter_restores_neg; [exact Ham|].
      simpl. by rewrite String.eqb_refl.
    + f_equal. apply filter_restores_neg; [exact Hka|].
      simpl. by rewrite String.eqb_refl.
    + f_equal. apply filter_restores; [exact Hsvc|].
      apply contextServices_named.
  - rewrite existsb_app. simpl. rewrite names_context_contextId.
    by rewrite orb_true_r.
Qed.

(** The removal that opens [addContext] on a document that records nothing
    of the context: the document is kept and one message is recorded. *)
Lemma removeContext_unrecorded (contextName : string) (this : DIDDocument) :
  let d := doc this in
  let contextHash := generateContextHash (id d) contextName in
  pattern_safe (id d) = true ->
  pattern_safe contextHash = true ->
  existsb (fun entry => names_context (id d) contextHash (vm_id entry))
    (default [] (verificationMethod d)) = false ->
  exists msg,
    removeContext contextName this = Ok false (set_errors [msg] this) /\
    (msg = "No verification method specified" \/
     msg = "Unable to locate verification method for this context").
Proof.
  intros d contextHash Hid Hhash Hvm. subst d contextHash.
  destruct (verificationMethod (doc this)) as [vms|] eqn:E.
  - eexists. split; [by apply (removeContext_no_match contextName this vms)|].
    by right.
  - eexists. split; [by apply removeContext_no_methods|]. by left.
Qed.


End AddRemove.

(** *** Removing a context *)

Lemma existsb_filter_out {A} (p : A -> bool) (l : list A) :
  existsb p (List.filter (fun x => negb (p x)) l) = false.
Proof.
  induction l as [|x l IH]; simpl; [reflexivity|].
  destruct (p x) eqn:E; simpl; [exact IH|]. by rewrite E.
Qed.

Lemma existsb_filter_kept {A} (q : A -> bool) (l : list A) :
  existsb (fun x => negb (q x)) (List.filter q l) = false.
Proof.
  induction l as [|x l IH]; simpl; [reflexivity|].
  destruct (q x) eqn:E; simpl; [|exact IH]. by rewrite E.
Qed.

(** Nothing of the context is recorded in a document it was filtered out
    of. *)
Lemma without_context_unrecorded (contextHash : string)
  (d : DIDDocumentStruct) :
  context_recorded contextHash (without_context contextHash d) = false.
Proof.
  unfold context_recorded, without_context. simpl.
  destruct (verificationMethod d), (assertionMethod d), (keyAgreement d),
    (service d); simpl;
    rewrite ?(existsb_filter_out (fun entry =>
                names_context (id d) contextHash (vm_id entry))),
            ?(existsb_filter_out (fun entry =>
                names_context (id d) contextHash (se_id entry))),
            ?existsb_filter_kept; reflexivity.
Qed.

Section RemoveContext.
Context `{!Primitives DIDDocumentStruct}.

(** What [removeContext] does on a document whose id and context hash are
    pattern-safe:
    - without a [verificationMethod] collection, or with none of its entries
      naming the context, it returns [false], records one message and leaves
      the document as it was;
    - with such an entry and the other three collections present, it returns
      [true] and leaves the document filtered, with nothing of the context
      recorded. *)
Lemma removeContext_contract (contextName : string) (this : DIDDocument) :
  let d := doc this in
  let contextHash := generateContextHash (id d) contextName in
  let named :=
    existsb (fun entry => names_context (id d) contextHash (vm_id entry))
      (default [] (verificationMethod d)) in
  pattern_safe (id d) = true ->
  pattern_safe contextHash = true ->
  (named = false ->
   exists msg, removeContext contextName this
               = Ok false (set_errors [msg] this)) /\
  (named = true ->
   is_Some (assertionMethod d) -> is_Some (keyAgreement d) ->
   is_Some (service d) ->
   removeContext contextName this
   = Ok true (on_doc (without_context contextHash) this) /\
   context_recorded contextHash (without_context contextHash d) = false).
Proof.
  intros d contextHash named Hid Hhash. subst named. split.
  - intros Hnone.
    destruct (removeContext_unrecorded contextName this Hid Hhash Hnone)
      as (msg & Hrun & _). by exists msg.
  - intros Hsome [ams Ham] [kas Hka] [svcs Hsvc].
    split; [|apply without_context_unrecorded].
    destruct (verificationMethod d) as [vms|] eqn:Hvm; [|discriminate].
    rewrite (removeContext_match contextName this vms Hid Hhash Hvm Hsome).
    subst d. by rewrite Ham, Hka, Hsvc.
Qed.

(** With an entry naming the context but no [keyAgreement] collection,
    [removeContext] throws after it has assigned the filtered
    [verificationMethod] and [assertionMethod]. *)
Lemma removeContext_absent_keyAgreement (contextName : string)
  (this : DIDDocument) (vms : list VerificationMethod)
  (ams : list MethodRef) :
  let d := doc this in
  let contextHash := generateContextHash (id d) contextName in
  pattern_safe (id d) = true ->
  pattern_safe contextHash = true ->
  verificationMethod d = Some vms ->
  existsb (fun entry => names_context (id d) contextHash (vm_id entry)) vms
  = true ->
  assertionMethod d = Some ams ->
  keyAgreement d = None ->
  exists this1,
    removeContext contextName this
    = Throw (TypeError "this.doc.keyAgreement.filter") this1 /\
    verificationMethod (doc this1)
    = Some (List.filter (fun entry =>
              negb (names_context (id d) contextHash (vm_id entry))) vms).
Proof.
  intros d contextHash Hid Hhash Hvm Hsome Ham Hka.
  rewrite (removeContext_match contextName this vms Hid Hhash Hvm Hsome).
  subst d. rewrite Ham, Hka. eexists. split; [reflexivity|].
  simpl. by rewrite Hvm.
Qed.

End RemoveContext.

(** *** Locating a service endpoint *)

Lemma find_app_skip {A} (p : A -> bool) (l added : list A) :
  existsb p l = false -> List.find p (l ++ added) = List.find p added.
Proof.
  induction l as [|x l IH]; simpl; [reflexivity|].
  intros [Hx Hl]%orb_false_elim. rewrite Hx. auto.
Qed.

Lemma contextId_eqb (did contextHash suffix1 suffix2 : string) :
  String.eqb (contextId did contextHash suffix1)
             (contextId did contextHash suffix2)
  = String.eqb suffix1 suffix2.
Proof.
  destruct (String.eqb suffix1 suffix2) eqn:E.
  - apply String.eqb_eq in E. subst. apply String.eqb_refl.
  - apply String.eqb_neq. apply String.eqb_neq in E. intros H. apply E.
    unfold contextId in H. by repeat apply String.app_inj in H.
Qed.

(** An entry whose id is the id of a context record names the context. *)
Lemma existsb_id_named {A} (f : A -> string) (did contextHash suffix : string)
  (l : list A) :
  existsb (fun entry => names_context did contextHash (f entry)) l = false ->
  existsb (fun entry =>
             String.eqb (f entry) (contextId did contextHash suffix)) l
  = false.
Proof.
  induction l as [|x l IH]; simpl; [reflexivity|].
  intros [Hx Hl]%orb_false_elim. rewrite (IH Hl), orb_false_r.
  destruct (String.eqb (f x) _) eqn:E; [|reflexivity].
  apply String.eqb_eq in E. rewrite E, names_context_contextId in Hx.
  discriminate.
Qed.

Section LocateServiceEndpoint.
Context `{!Primitives DIDDocumentStruct}.

(** Without a [service] collection the lookup throws. *)
Lemma locateServiceEndpoint_absent_collection (contextName : string)
  (endpointType : EndpointType) (this : DIDDocument) :
  service (doc this) = None ->
  locateServiceEndpoint contextName endpointType this
  = Throw (TypeError "this.doc.service.find") this.
Proof. intros H. unfold locateServiceEndpoint. run. by rewrite H. Qed.

(** With a [service] collection that holds no entry of the expected id the
    lookup returns [undefined]. *)
Lemma locateServiceEndpoint_absent_entry (contextName : string)
  (endpointType : EndpointType) (this : DIDDocument)
  (svcs : list ServiceEndpoint) :
  let d := doc this in
  let expectedEndpointId :=
    contextId (id d) (generateContextHash (id d) contextName)
      (endpointTypeString endpointType) in
  service d = Some svcs ->
  existsb (fun entry => String.eqb (se_id entry) expectedEndpointId) svcs
  = false ->
  locateServiceEndpoint contextName endpointType this = Ok None this.
Proof.
  intros d expected Hsvc Hnone. subst d expected.
  unfold locateServiceEndpoint. run. rewrite Hsvc.
  apply find_none_existsb in Hnone. by rewrite Hnone.
Qed.

(** After [addContext] on a document that recorded nothing of the context,
    the lookup returns, for each endpoint type, the entry made from the
    endpoint supplied for it, and [undefined] for an optional endpoint that
    was not supplied. *)
Lemma locateServiceEndpoint_after_addContext (contextName : string)
  (keyring : Keyring) (endpoints : Endpoints) (keys : KeyringPublicKeys)
  (this : DIDDocument) :
  let d := doc this in
  let contextHash := generateContextHash (id d) contextName in
  pattern_safe (id d) = true ->
  pattern_safe contextHash = true ->
  context_recorded contextHash d = false ->
  getKeys keyring = inr keys ->
  exists this1,
    addContext contextName keyring endpoints this = Ok tt this1 /\
    locateServiceEndpoint contextName DATABASE this1
    = Ok (Some (serviceEntry (id d) contextHash DATABASE
                  (database endpoints))) this1 /\
    locateServiceEndpoint contextName MESSAGING this1
    = Ok (Some (serviceEntry (id d) contextHash MESSAGING
                  (messaging endpoints))) this1 /\
    locateServiceEndpoint contextName STORAGE this1
    = Ok (serviceEntry (id d) contextHash STORAGE <$> storage endpoints)
         this1 /\
    locateServiceEndpoint contextName NOTIFICATION this1
    = Ok (serviceEntry (id d) contextHash NOTIFICATION
            <$> notification endpoints) this1.
Proof.
  intros d contextHash Hid Hhash Habsent Hkeys. subst d contextHash.
  pose proof Habsent as Hrec. unfold context_recorded in Hrec.
  apply orb_false_elim in Hrec as [Hrec Hsvc].
  apply orb_false_elim in Hrec as [Hrec _].
  apply orb_false_elim in Hrec as [Hvm _].
  destruct (removeContext_unrecorded contextName this Hid Hhash Hvm)
    as (msg & Hfirst & _).
  eexists. split.
  { apply (addContext_run contextName keyring endpoints keys _ _ _
             Hfirst Hkeys). }
  simpl.
  set (h := generateContextHash (id (doc this)) contextName) in *.
  assert (forall endpointType,
    locateServiceEndpoint contextName endpointType
      (on_doc (with_context h endpoints keys) (set_errors [msg] this))
    = Ok (List.find (fun entry => String.eqb (se_id entry)
            (contextId (id (doc this)) h (endpointTypeString endpointType)))
            (contextServices (id (doc this)) h endpoints))
         (on_doc (with_context h endpoints keys) (set_errors [msg] this)))
    as Hlocate.
  { intros endpointType.
    rewrite <- (find_app_skip _ (default [] (service (doc this))))
      by (by apply existsb_id_named).
    reflexivity. }
  rewrite !Hlocate. unfold contextServices, serviceEntry.
  destruct (storage endpoints), (notification endpoints); simpl;
    rewrite ?contextId_eqb; simpl; repeat split; reflexivity.
Qed.

End LocateServiceEndpoint.

(** *** Signing and verifying the document proof *)

Section DocumentProof.
Context `{!Primitives DIDDocumentStruct}.

(** The key [signProof] hands to the signing primitive: a byte array as
    given, and a string as given too, undecoded, unless it is the word
    [string] itself. *)
Lemma signingKey_forms :
  (forall bytes, signingKey (KeyBytes bytes) = KeyBytes bytes) /\
  (forall s, s <> "string" -> signingKey (KeyString s) = KeyString s) /\
  signingKey (KeyString "string") = KeyBytes [].
Proof.
  split; [reflexivity|]. split; [|reflexivity].
  intros s Hs. unfold signingKey.
  apply String.eqb_neq in Hs. by rewrite Hs.
Qed.

Lemma getProofData_set_proof (p : option ProofStruct) (d : DIDDocumentStruct) :
  getProofData (set_proof p d) = getProofData d.
Proof. reflexivity. Qed.

(** [verifyProof] right after [signProof]: when the document has a root
    verification method with a non-empty public key, and signatures made
    with the key as handed to the primitive verify under that public key,
    the result is [true]. *)
Lemma verifyProof_after_signProof (privateKey : PrivateKey)
  (publicKeyHex : string) (this : DIDDocument)
  (vms : list VerificationMethod) (root : VerificationMethod) :
  verificationMethod (doc this) = Some vms ->
  List.find (fun entry => String.eqb (vm_id entry) (id (doc this))) vms
  = Some root ->
  vm_publicKeyHex root = Some publicKeyHex ->
  truthy publicKeyHex = true ->
  (forall data,
     EncryptionUtils.verifySig data
       (signData data (signingKey privateKey)) publicKeyHex = true) ->
  exists this1,
    signProof privateKey this = Ok tt this1 /\
    verifyProof this1 = Ok true this1.
Proof.
  intros Hvm Hroot Hkey Htruthy Hpair. eexists.
  split; [unfold signProof; run; reflexivity|].
  unfold verifyProof, verifySig. run. rewrite Hvm, Hroot, Hkey. simpl.
  rewrite Htruthy. simpl. by rewrite Hpair.
Qed.

(** [verifyProof] on a document that carries the proof of another: when a
    signature verifies for no data but the data it was made from, and the
    document still has a [verificationMethod] collection, the result is
    [false]. *)
Lemma verifyProof_rejects_changed_document (privateKey : PrivateKey)
  (signed changed : DIDDocument) :
  (forall data data' k publicKeyHex,
     EncryptionUtils.verifySig data' (signData data k) publicKeyHex = true ->
     data' = data) ->
  (exists this, signProof privateKey this = Ok tt signed) ->
  proof (doc changed) = proof (doc signed) ->
  getProofData (doc changed) <> getProofData (doc signed) ->
  is_Some (verificationMethod (doc changed)) ->
  verifyProof changed = Ok false changed.
Proof.
  intros Hbinding [this Hsign] Hproof Hchanged [vms Hvm].
  unfold signProof in Hsign. run.
  injection Hsign as <-. simpl in Hproof, Hchanged.
  unfold verifyProof, verifySig. run. rewrite Hproof, Hvm. simpl.
  destruct (List.find _ vms) as [root|]; [|reflexivity].
  destruct (truthy_opt (vm_publicKeyHex root)); [|reflexivity]. simpl.
  f_equal. apply not_true_is_false. intros Hverify.
  apply Hbinding in Hverify. apply Hchanged. rewrite Hverify.
  reflexivity.
Qed.

(** Without a [verificationMethod] collection, [verifyProof] on a document
    that carries a proof throws. *)
Lemma verifyProof_absent_methods (this : DIDDocument) :
  is_Some (proof (doc this)) ->
  verificationMethod (doc this) = None ->
  verifyProof this = Throw (TypeError "this.doc.verificationMethod.find") this.
Proof.
  intros [p Hp] Hvm. unfold verifyProof, verifySig. run.
  by rewrite Hp, Hvm.
Qed.

(** Signing and then dropping the [verificationMethod] collection: the
    next [verifyProof] throws, whatever the primitives, the key and the
    document. *)
Lemma verifyProof_after_methods_removed (privateKey : PrivateKey)
  (this : DIDDocument) :
  exists signed,
    signProof privateKey this = Ok tt signed /\
    verifyProof (on_doc (set_verificationMethod None) signed)
    = Throw (TypeError "this.doc.verificationMethod.find")
        (on_doc (set_verificationMethod None) signed).
Proof.
  eexists. split; [unfold signProof; run; reflexivity|].
  apply verifyProof_absent_methods; simpl; [by eexists|reflexivity].
Qed.

End DocumentProof.

(** *** The canonical id *)



Lemma findM_str_match_state {S A} (f : A -> string) (pattern : string)
  (l : list A) (s : S) :
  match findM (fun entry => str_match (f entry) pattern) l s with
  | Ok _ s' => s' = s
  | Throw _ _ => False
  | Unmodelled => True
  end.
Proof.
  destruct (compile pattern) as [re|] eqn:Hre.
  - by rewrite (findM_str_match f pattern re l s Hre).
  - destruct l as [|x l]; simpl; [reflexivity|].
    unfold mbind, M_bind, Js.bind, str_match. by rewrite Hre.
Qed.

Lemma filterM_str_match_state {S A} (f : A -> string) (pattern : string)
  (l : list A) (s : S) :
  match filterM (fun entry => negb <$> str_match (f entry) pattern) l s with
  | Ok l' s' => s' = s /\ incl l' l
  | Throw _ _ => False
  | Unmodelled => True
  end.
Proof.
  destruct (compile pattern) as [re|] eqn:Hre.
  - rewrite (filterM_str_match f pattern re l s Hre). split; [reflexivity|].
    apply incl_filter.
  - destruct l as [|x l]; simpl.
    + split; [reflexivity|apply incl_refl].
    + unfold mbind, M_bind, Js.bind, fmap, M_fmap, Js.bind, str_match.
      by rewrite Hre.
Qed.






Section CanonicalId.
Context `{!Primitives DIDDocumentStruct}.


























End CanonicalId.

End DidDocumentFacts.

(** ** The DID document manager on a concrete document *)
Module DidDocumentExamples.
Import Js EncryptionUtils DidDocument JsFacts DidDocumentFacts StandIns.

#[local] Existing Instance transparent.

(** C2 instantiated on the document [new DIDDocument("did:vda:0xABC", key)]
    and the context [Test App]. *)
Lemma add_then_remove_restores_witness :
  exists this1 this2,
    addContext "Test App" sampleKeyring sampleEndpoints freshDocument
    = Ok tt this1 /\
    removeContext "Test App" this1 = Ok true this2 /\
    restored (doc freshDocument) (doc this2).
Proof.
  apply (add_then_remove_restores "Test App" sampleKeyring sampleEndpoints
           sampleKeys freshDocument); vm_compute; reflexivity.
Defined.

(** C2 as stated fails on the same document: it has no [keyAgreement] and
    no [service] collection before the add, and has both, empty, after the
    remove, so the four collections are not equal to their pre-add state. *)
Lemma add_then_remove_creates_collections :
  exists this1 this2,
    context_recorded (generateContextHash (id (doc freshDocument)) "Test App")
      (doc freshDocument) = false /\
    addContext "Test App" sampleKeyring sampleEndpoints freshDocument
    = Ok tt this1 /\
    removeContext "Test App" this1 = Ok true this2 /\
    keyAgreement (doc freshDocument) = None /\
    keyAgreement (doc this2) = Some [] /\
    service (doc freshDocument) = None /\
    service (doc this2) = Some [].
Proof. vm_compute. do 2 eexists. repeat split. Qed.


(** C4 at a failing input.  [new DIDDocument(did, key)] followed by
    [addContextSignKey(hash, key)] gives a document whose
    [verificationMethod] names the context and which has no [keyAgreement]
    collection.  [removeContext] then neither returns [true] nor [false]: it
    throws, and the signing key it set out to remove is already gone from
    [verificationMethod]. *)
Lemma removeContext_throws_without_keyAgreement :
  exists this1 this2,
    addContextSignKey (generateContextHash "did:vda:0xabc" "Test App")
      (signPublicKeyHex sampleKeys) freshDocument = Ok tt this1 /\
    keyAgreement (doc this1) = None /\
    removeContext "Test App" this1
    = Throw (TypeError "this.doc.keyAgreement.filter") this2 /\
    verificationMethod (doc this2) = verificationMethod (doc freshDocument) /\
    verificationMethod (doc this2) <> verificationMethod (doc this1).
Proof. vm_compute. do 2 eexists. repeat split. discriminate. Qed.

(** C8 at a failing input.  A document built from a bare DID has no
    [service] collection, and [locateServiceEndpoint] on it throws instead of
    returning [undefined]. *)
Lemma locateServiceEndpoint_throws_on_fresh_document :
  service (doc freshDocument) = None /\
  locateServiceEndpoint "Test App" DATABASE freshDocument
  = Throw (TypeError "this.doc.service.find") freshDocument.
Proof. split; reflexivity. Qed.

(** The scenario of section 8 of the specification: after [addContext] the
    database and messaging endpoints are found as supplied, and the storage
    endpoint, which was not supplied, is not found. *)
Lemma locateServiceEndpoint_scenario :
  exists this1,
    addContext "Test App" sampleKeyring sampleEndpoints freshDocument
    = Ok tt this1 /\
    locateServiceEndpoint "Test App" DATABASE this1
    = Ok (Some
        {| se_id := "did:vda:0xabc?context="
             +:+ "0x6469643a7664613a30786162632f5465737420417070"
             +:+ "#database";
           se_type := "VeridaDatabase";
           se_serviceEndpoint := "https://db.example/" |}) this1 /\
    locateServiceEndpoint "Test App" MESSAGING this1
    = Ok (Some
        {| se_id := "did:vda:0xabc?context="
             +:+ "0x6469643a7664613a30786162632f5465737420417070"
             +:+ "#messaging";
           se_type := "VeridaMessage";
           se_serviceEndpoint := "https://msg.example/" |}) this1 /\
    locateServiceEndpoint "Test App" STORAGE this1 = Ok None this1.
Proof. vm_compute. eexists. repeat split. Qed.

Lemma bits_inj (p q : positive) : bits p = bits q -> p = q.
Proof.
  revert q. induction p as [p IH|p IH|]; intros [q|q|]; simpl;
    try discriminate; try reflexivity;
    intros H; injection H as H; f_equal; auto.
Qed.

(** The stand-in signs so that a signature verifies under the public key
    that goes with the signing key... *)
Lemma transparent_key_pair (k : PrivateKey) (data : DIDDocumentStruct) :
  EncryptionUtils.verifySig data (signData data k) (publicKeyOf k) = true.
Proof. simpl. by apply bool_decide_eq_true. Qed.

(** ... and for no data but the data that was signed. *)
Lemma transparent_binding (data data' : DIDDocumentStruct) (k : PrivateKey)
  (publicKeyHex : string) :
  EncryptionUtils.verifySig data' (signData data k) publicKeyHex = true ->
  data' = data.
Proof.
  simpl. intros H%bool_decide_eq_true. unfold render in H.
  apply bits_inj in H. apply (inj encode) in H. congruence.
Qed.

(** Sign, then verify, with the root key as a byte array and as a string. *)
Lemma verifyProof_after_signProof_examples :
  (exists this1, signProof rootKeyBytes freshDocument = Ok tt this1 /\
                 verifyProof this1 = Ok true this1) /\
  (exists this1, signProof rootKeyString freshDocument = Ok tt this1 /\
                 verifyProof this1 = Ok true this1).
Proof.
  split.
  - eapply (verifyProof_after_signProof rootKeyBytes publicKey132);
      try reflexivity.
    intros data. apply (transparent_key_pair rootKeyBytes).
  - eapply (verifyProof_after_signProof rootKeyString publicKey132);
      try reflexivity.
    intros data. apply (transparent_key_pair rootKeyString).
Defined.

(** A signed document whose controller is changed afterwards is rejected. *)
Lemma verifyProof_rejects_changed_document_example :
  exists signed,
    signProof rootKeyString freshDocument = Ok tt signed /\
    let changed :=
      {| doc := {| id := id (doc signed);
                   controller := Some "did:vda:0xdef";
                   verificationMethod := verificationMethod (doc signed);
                   assertionMethod := assertionMethod (doc signed);
                   keyAgreement := keyAgreement (doc signed);
                   service := service (doc signed);
                   proof := proof (doc signed) |};
         errors := errors signed |} in
    verifyProof changed = Ok false changed.
Proof.
  eexists. split.
  { cbv beta iota zeta delta [signProof mbind M_bind Js.bind Js.get Js.modify].
    reflexivity. }
  intros changed.
  eapply (verifyProof_rejects_changed_document rootKeyString
            _ changed transparent_binding).
  - exists freshDocument.
    cbv beta iota zeta delta [signProof mbind M_bind Js.bind Js.get Js.modify].
    reflexivity.
  - reflexivity.
  - discriminate.
  - by eexists.
Defined.

(** C3 at a failing input.  [freshDocument] is signed with its root key;
    the [verificationMethod] property is then deleted.  The next
    [verifyProof] does not return [false]: it throws. *)
Lemma verifyProof_throws_after_methods_removed :
  exists signed,
    signProof rootKeyString freshDocument = Ok tt signed /\
    verifyProof (on_doc (set_verificationMethod None) signed)
    = Throw (TypeError "this.doc.verificationMethod.find")
        (on_doc (set_verificationMethod None) signed).
Proof. apply verifyProof_after_methods_removed. Qed.



End DidDocumentExamples.

(** ** The messaging engine *)
Module MessagingEngineFacts.
Import Js MessagingEngine.

Section Send.
Context {Payload Response : Type}.
Context `{!Collaborators Payload Response}.

Lemma getOutbox_keeps_service (this this0 : MessagingEngineVerida)
  (o : Outbox) :
  getOutbox this = Ok o this0 ->
  notificationService this0 = notificationService this.
Proof.
  unfold getOutbox. run. destruct (outbox this); [by intros [= _ <-]|].
  destruct (openDatastore _); [discriminate|]. by intros [= _ <-].
Qed.

(** C5, as amended.  Let the outbox be available and accept the message.
    - When no ping is made (the outbox answered [null], or no notification
      service is configured), [send] returns the outbox response.
    - When the ping settles, whatever value it settles with, [send] returns
      the outbox response.
    - When the ping rejects, [send] fails with the rejection, the message
      having been handed to the outbox before. *)
Theorem send_and_ping (this this0 : MessagingEngineVerida) (o : Outbox)
  (did type message : string) (data : Payload) (config : MessageSendConfig)
  (response : option Response) :
  getOutbox this = Ok o this0 ->
  outboxSend o did type data message config = inr response ->
  let sent := record (OutboxSend did type message) this0 in
  let pinged := record (Pinged (recipientOf config) did) sent in
  match response, notificationService this with
  | Some _, Some service =>
      match ping service (recipientOf config) did with
      | inr _ => send did type data message config this = Ok response pinged
      | inl e => send did type data message config this = Throw e pinged
      end
  | _, _ => send did type data message config this = Ok response sent
  end.
Proof.
  intros Houtbox Hsend sent pinged.
  pose proof (getOutbox_keeps_service _ _ _ Houtbox) as Hservice.
  unfold send. run. rewrite Houtbox, Hsend. simpl. rewrite Hservice.
  destruct response as [r|]; [|reflexivity].
  destruct (notificationService this) as [service|]; [|reflexivity].
  by destruct (ping service (recipientOf config) did).
Qed.

End Send.
End MessagingEngineFacts.

(** ** The messaging engine with a notification server *)
Module MessagingEngineExamples.
Import Js MessagingEngine MessagingEngineFacts StandIns.

(** C5 instantiated: the notification server is reached and [send] returns
    the outbox response. *)
Lemma send_and_ping_witness :
  exists pinged,
    @send string string reachable "did:vda:0xdef" "inbox/type/message"
      "data" "Hello" sampleSendConfig sampleEngine
    = Ok (Some "saved") pinged.
Proof.
  eexists.
  exact (@send_and_ping string string reachable sampleEngine _ _
           "did:vda:0xdef" "inbox/type/message" "Hello" "data"
           sampleSendConfig (Some "saved") eq_refl eq_refl).
Defined.

(** C5 as stated fails when the request to the notification server fails:
    [send] throws that error, after the outbox has taken the message. *)
Lemma send_fails_when_ping_rejects :
  exists failed,
    @send string string unreachable "did:vda:0xdef" "inbox/type/message"
      "data" "Hello" sampleSendConfig sampleEngine
    = Throw (Error "Network Error") failed /\
    events failed
    = [ Pinged "Verida: Vault" "did:vda:0xdef";
        OutboxSend "did:vda:0xdef" "inbox/type/message" "Hello" ].
Proof. vm_compute. eexists. split; reflexivity. Qed.

End MessagingEngineExamples.

(** ** The engine registry *)
Module StorageContextFacts.
Import Js StorageLink StorageContext.


Section Registry.
Context `{!Collaborators}.

Lemma getContextConfig_run (did name : string) (forceCreate : option bool)
  (this : Context) :
  resolvedDid did this = Some name ->
  getContextConfig (Some did) forceCreate None this
  = match getDIDContextConfig name (contextName this) forceCreate with
    | inr contextConfig =>
        Ok contextConfig
          (record (ResolveConfig name (contextName this) forceCreate) this)
    | inl e =>
        Throw e
          (record (ResolveConfig name (contextName this) forceCreate) this)
    end.
Proof.
  unfold resolvedDid, getContextConfig. run.
  destruct (truthy did) eqn:Hdid; simpl.
  - intros [= <-]. by destruct (getDIDContextConfig _ _ _).
  - destruct (account this) as [a|]; simpl; [|discriminate].
    intros [= <-]. by destruct (getDIDContextConfig _ _ _).
Qed.



(** A type that names a member of [Object.prototype] passes the
    registration test; what fails is the construction. *)
Lemma getDatabaseEngine_inherited_type (did name : string)
  (createContext : option bool) (contextConfig : SecureContextConfig)
  (this : Context) :
  let engineType := type (databaseServer (services contextConfig)) in
  get_property (databaseEngines this) did = Undefined ->
  resolvedDid did this = Some name ->
  getDIDContextConfig name (contextName this) createContext
  = inr contextConfig ->
  inherited_key engineType = true ->
  engineType <> "constructor" ->
  getDatabaseEngine did createContext this
  = Throw (TypeError "engine is not a constructor")
      (record (ResolveConfig name (contextName this) createContext) this).
Proof.
  intros engineType Hmiss Hdid Hresolve Hkey Hne.
  unfold getDatabaseEngine.
  unfold mbind at 1, M_bind at 1, Js.bind at 1, Js.get at 1.
  rewrite Hmiss.
  unfold mbind at 1, M_bind at 1, Js.bind at 1.
  rewrite (getContextConfig_run did name createContext this Hdid), Hresolve.
  fold engineType. unfold get_property, DATABASE_ENGINES.
  rewrite lookup_singleton_ne by (intros <-; discriminate Hkey).
  rewrite Hkey. apply String.eqb_neq in Hne. by rewrite Hne.
Qed.

End Registry.
End StorageContextFacts.

(** ** The engine registry with a resolver *)
Module StorageContextExamples.
Import Js StorageLink StorageContext StorageContextFacts StandIns.



(** A type named after a member of [Object.prototype] is not registered
    either, and the open fails with another error. *)
Lemma openDatabase_inherited_type :
  exists failed,
    @openDatabase (resolvesTo "toString") "TestDb_1" sampleOpenConfig
      sampleContext
    = Throw (TypeError "engine is not a constructor") failed.
Proof. vm_compute. eexists. reflexivity. Qed.

End StorageContextExamples.

(** ** Per-context authentication *)
Module AutoAccountFacts.
Import Js StorageLink AutoAccount.

Lemma get_property_own {V} (o : gmap string V) (k : string) (v : V) :
  o !! k = Some v -> get_property o k = Own v.
Proof. intros H. unfold get_property. by rewrite H. Qed.

Lemma get_property_ordinary {V} (o : gmap string V) (k : string) :
  inherited_key k = false ->
  get_property o k = match o !! k with Some v => Own v | None => Undefined end.
Proof. intros H. unfold get_property. by rewrite H. Qed.

Lemma handlerGetAuthContext_cached (contextName : string)
  (handler : VeridaDatabaseAuthType) (auth : AuthContext) (this : AutoAccount) :
  contextAuth handler = Some auth ->
  handlerGetAuthContext contextName handler noForce this = Ok auth this.
Proof. intros H. unfold handlerGetAuthContext. by rewrite H. Qed.

Lemma handlerGetAuthContext_fresh (contextName : string)
  (handler : VeridaDatabaseAuthType) (config : VeridaDatabaseAuthTypeConfig)
  (this : AutoAccount) :
  contextAuth handler = None \/ force config = true ->
  handlerGetAuthContext contextName handler config this
  = Ok (credential handler (issued this))
       (set_contextAuth contextName
          (renewed handler (credential handler (issued this))) (issue this)).
Proof.
  intros H. unfold handlerGetAuthContext.
  destruct (contextAuth handler), (force config), H; try discriminate; reflexivity.
Qed.

Lemma consistent_issue (contextName : string) (handler : VeridaDatabaseAuthType)
  (this : AutoAccount) :
  consistent this ->
  consistent (set_contextAuth contextName
          (renewed handler (credential handler (issued this))) (issue this)).
Proof.
  intros Hthis name h a. unfold set_contextAuth, issue. simpl.
  destruct (decide (contextName = name)) as [->|Hne].
  - rewrite lookup_insert_eq. intros [= <-]. simpl. intros [= <-]. simpl. lia.
  - rewrite lookup_insert_ne by done. intros Hh Ha.
    specialize (Hthis name h a Hh Ha). lia.
Qed.

Lemma consistent_new (contextName : string) (handler : VeridaDatabaseAuthType)
  (this : AutoAccount) :
  contextAuth handler = None ->
  consistent this -> consistent (set_contextAuth contextName handler this).
Proof.
  intros Hnone Hthis name h a. unfold set_contextAuth. simpl.
  destruct (decide (contextName = name)) as [->|Hne].
  - rewrite lookup_insert_eq. intros [= <-]. congruence.
  - rewrite lookup_insert_ne by done. apply Hthis.
Qed.

Lemma getAuthContext_cached (contextName authType : string)
  (contextConfig : SecureContextConfig) (handler : VeridaDatabaseAuthType)
  (auth : AuthContext) (this : AutoAccount) :
  contextAuths this !! contextName = Some handler ->
  contextAuth handler = Some auth ->
  getAuthContext contextName contextConfig noForce authType this = Ok auth this.
Proof.
  intros Hh Ha. unfold getAuthContext. run.
  rewrite (get_property_own _ _ _ Hh).
  by apply handlerGetAuthContext_cached.
Qed.

Lemma not_proto (contextName : string) :
  inherited_key contextName = false -> String.eqb contextName "__proto__" = false.
Proof.
  intros H. apply String.eqb_neq. intros ->. discriminate H.
Qed.

(** A call that builds a handler: the credential it returns is the next
    one issued, and the handler stored under the name holds it. *)
Lemma getAuthContext_builds (contextName authType : string)
  (contextConfig : SecureContextConfig) (authConfig : VeridaDatabaseAuthTypeConfig) (this : AutoAccount) :
  inherited_key contextName = false ->
  type (databaseServer (services contextConfig)) = "VeridaDatabase" ->
  force authConfig = true \/ contextAuths this !! contextName = None ->
  consistent this ->
  exists auth this1 handler,
    getAuthContext contextName contextConfig authConfig authType this = Ok auth this1 /\
    instance auth = issued this /\
    issued this1 = S (issued this) /\
    contextAuths this1 !! contextName = Some handler /\
    contextAuth handler = Some auth /\
    consistent this1.
Proof.
  intros Hname Htype Hwhy Hthis.
  set (fresh := newVeridaDatabaseAuthType contextName
                  (databaseServer (services contextConfig))
                  (signKey (publicKeys contextConfig))).
  assert (getAuthContext contextName contextConfig authConfig authType this
          = handlerGetAuthContext contextName fresh authConfig
              (set_contextAuth contextName fresh this)) as ->.
  { unfold getAuthContext. run. rewrite (get_property_ordinary _ _ Hname).
    rewrite Htype. simpl. rewrite (not_proto _ Hname).
    destruct Hwhy as [Hforce|Hmiss].
    - rewrite Hforce. by destruct (contextAuths this !! contextName).
    - rewrite Hmiss. by destruct (force authConfig). }
  rewrite handlerGetAuthContext_fresh by (by left).
  do 3 eexists. split; [reflexivity|]. split; [reflexivity|].
  split; [reflexivity|]. split; [apply lookup_insert_eq|].
  split; [reflexivity|].
  apply (consistent_issue contextName fresh (set_contextAuth contextName fresh this)).
  by apply consistent_new.
Qed.

Lemma getAuthContext_first (contextName authType : string)
  (contextConfig : SecureContextConfig) (this : AutoAccount) :
  inherited_key contextName = false ->
  type (databaseServer (services contextConfig)) = "VeridaDatabase" ->
  consistent this ->
  exists auth this1 handler,
    getAuthContext contextName contextConfig noForce authType this
    = Ok auth this1 /\
    contextAuths this1 !! contextName = Some handler /\
    contextAuth handler = Some auth /\
    consistent this1.
Proof.
  intros Hname Htype Hthis.
  destruct (contextAuths this !! contextName) as [handler|] eqn:Hh.
  - destruct (contextAuth handler) as [auth|] eqn:Ha.
    + exists auth, this, handler.
      split; [by apply (getAuthContext_cached _ _ _ handler)|]. by repeat split.
    + do 3 eexists. split.
      { unfold getAuthContext. run. rewrite (get_property_own _ _ _ Hh).
        apply handlerGetAuthContext_fresh. by left. }
      split; [apply lookup_insert_eq|]. split; [reflexivity|].
      by apply consistent_issue.
  - destruct (getAuthContext_builds contextName authType contextConfig noForce
                this Hname Htype (or_intror Hh) Hthis)
      as (auth & this1 & handler & Hrun & _ & _ & Hh1 & Ha1 & Hc1).
    by exists auth, this1, handler.
Qed.

(** C7, as amended.  For a context name that names no member of
    [Object.prototype], a configuration of type [VeridaDatabase] and an
    account whose cached credentials were all issued to it:
    - [getAuthContext] without [force] returns a credential, and a second
      call without [force] returns that same instance and leaves the
      account as it is, whatever configuration it is given;
    - a call with [force: true] returns a credential issued later than the
      first, the handler stored under the name holds it, and calls without
      [force] return it from then on.
    For every context name: a [databaseServer.type] other than
    [VeridaDatabase] fails with [Unknown auth context type (...)] and changes
    nothing, when [force] is set or the name reads as [undefined] in the
    cache.  (A name with a cached handler, asked without [force], is
    answered from the cache and the type is not looked at.) *)
Theorem getAuthContext_caching :
  (forall (contextName authType : string) (contextConfig : SecureContextConfig)
          (this : AutoAccount),
     inherited_key contextName = false ->
     type (databaseServer (services contextConfig)) = "VeridaDatabase" ->
     consistent this ->
     exists auth1 this1,
       getAuthContext contextName contextConfig noForce authType this
       = Ok auth1 this1 /\
       (forall contextConfig' authType',
          getAuthContext contextName contextConfig' noForce authType' this1
          = Ok auth1 this1) /\
       exists auth2 this2 handler,
         getAuthContext contextName contextConfig withForce authType this1
         = Ok auth2 this2 /\
         instance auth1 < instance auth2 /\
         contextAuths this2 !! contextName = Some handler /\
         contextAuth handler = Some auth2 /\
         (forall contextConfig' authType',
            getAuthContext contextName contextConfig' noForce authType' this2
            = Ok auth2 this2)) /\
  (forall (contextName authType : string) (contextConfig : SecureContextConfig)
          (authConfig : VeridaDatabaseAuthTypeConfig) (this : AutoAccount),
     type (databaseServer (services contextConfig)) <> "VeridaDatabase" ->
     force authConfig = true \/
     get_property (contextAuths this) contextName = Undefined ->
     getAuthContext contextName contextConfig authConfig authType this
     = Throw (Error ("Unknown auth context type (" +:+ authType +:+ ")"))
         this).
Proof.
  split.
  - intros contextName authType contextConfig this Hname Htype Hthis.
    destruct (getAuthContext_first contextName authType contextConfig this
                Hname Htype Hthis)
      as (auth1 & this1 & h1 & Hrun1 & Hh1 & Ha1 & Hc1).
    exists auth1, this1. split; [exact Hrun1|]. split.
    { intros contextConfig' authType'.
      by apply (getAuthContext_cached _ _ _ h1). }
    destruct (getAuthContext_builds contextName authType contextConfig
                withForce this1 Hname Htype (or_introl eq_refl) Hc1)
      as (auth2 & this2 & h2 & Hrun2 & Hfresh & _ & Hh2 & Ha2 & _).
    exists auth2, this2, h2. split; [exact Hrun2|]. split.
    { rewrite Hfresh. by apply (Hc1 contextName h1). }
    split; [exact Hh2|]. split; [exact Ha2|].
    intros contextConfig' authType'.
    by apply (getAuthContext_cached _ _ _ h2).
  - intros contextName authType contextConfig authConfig this Htype Hwhy.
    apply String.eqb_neq in Htype.
    unfold getAuthContext. run. rewrite Htype.
    destruct Hwhy as [Hforce|Hmiss].
    + rewrite Hforce. by destruct (get_property _ _).
    + rewrite Hmiss. by destruct (force authConfig).
Qed.

End AutoAccountFacts.

(** ** Per-context authentication on a new account *)
Module AutoAccountExamples.
Import Js StorageLink AutoAccount AutoAccountFacts StandIns.

Lemma consistent_newAutoAccount : consistent newAutoAccount.
Proof.
  intros contextName handler auth H. unfold newAutoAccount in H. simpl in H.
  by rewrite lookup_empty in H.
Qed.

(** C7 instantiated on a new account and the context [Test App]. *)
Lemma getAuthContext_caching_witness :
  exists auth1 this1,
    getAuthContext "Test App" (configOfType "VeridaDatabase") noForce
      "database" newAutoAccount = Ok auth1 this1 /\
    (forall contextConfig' authType',
       getAuthContext "Test App" contextConfig' noForce authType' this1
       = Ok auth1 this1) /\
    exists auth2 this2 handler,
      getAuthContext "Test App" (configOfType "VeridaDatabase") withForce
        "database" this1 = Ok auth2 this2 /\
      instance auth1 < instance auth2 /\
      contextAuths this2 !! "Test App" = Some handler /\
      contextAuth handler = Some auth2 /\
      (forall contextConfig' authType',
         getAuthContext "Test App" contextConfig' noForce authType' this2
         = Ok auth2 this2).
Proof.
  apply (proj1 getAuthContext_caching "Test App" "database"
           (configOfType "VeridaDatabase") newAutoAccount);
    [reflexivity|reflexivity|apply consistent_newAutoAccount].
Defined.

(** C7 as stated fails in two places.  A name whose handler is cached is
    answered from the cache without [force] even when the configuration
    names an unsupported type: no error is raised.  And for the context name
    [constructor] the first call already throws a [TypeError]: the cache
    lookup finds the member inherited from [Object.prototype]. *)
Lemma getAuthContext_cache_ignores_type_and_inherits :
  (exists auth1 this1,
     getAuthContext "Test App" (configOfType "VeridaDatabase") noForce
       "database" newAutoAccount = Ok auth1 this1 /\
     getAuthContext "Test App" (configOfType "CouchDB") noForce
       "database" this1 = Ok auth1 this1) /\
  getAuthContext "constructor" (configOfType "VeridaDatabase") noForce
    "database" newAutoAccount
  = Throw (TypeError "this.contextAuths[contextName].getAuthContext")
      newAutoAccount.
Proof.
  split; [|reflexivity].
  vm_compute. do 2 eexists. split; reflexivity.
Qed.

End AutoAccountExamples.

(** ** The DID document manager: construction, import and contexts *)
Module DocumentManagerFacts.
Import Js EncryptionUtils DidDocument JsFacts DidDocumentFacts.

Lemma find_app_found {A} (p : A -> bool) (l added : list A) (x : A) :
  List.find p l = Some x -> List.find p (l ++ added) = Some x.
Proof.
  induction l as [|y l IH]; simpl; [discriminate|].
  destruct (p y); [done|exact IH].
Qed.

Section Manager.
Context `{!Primitives DIDDocumentStruct}.

(** X1.  [new DIDDocument(did, publicKeyHex)] succeeds exactly for a public
    key of 132 characters, and fails with the invalid-key error for a
    missing key or one of another length.  The document it builds checks
    signatures against that key: [verifySig(data, signature)] is the answer
    of the signature primitive for the key given to the constructor. *)
Theorem new_checks_public_key (did : string) (publicKeyHex : option string) :
  match new (inr did) publicKeyHex with
  | inr this =>
      exists key,
        publicKeyHex = Some key /\ String.length key = 132 /\
        forall data signature,
          verifySig data signature this
          = Ok (EncryptionUtils.verifySig data signature key) this
  | inl e =>
      e = Error
        "Unable to create DID Document. Invalid or non-existent public key."
      /\ forall key, publicKeyHex = Some key -> String.length key <> 132
  end.
Proof.
  unfold new. destruct publicKeyHex as [key|]; simpl.
  - destruct (String.length key =? 132)%nat eqn:Hlen.
    + apply Nat.eqb_eq in Hlen.
      assert (truthy key = true) as Htruthy by (by destruct key).
      rewrite Htruthy. simpl. exists key. repeat split; [exact Hlen|].
      intros data signature. unfold verifySig. run.
      rewrite String.eqb_refl. simpl. by rewrite Htruthy.
    + rewrite orb_true_r. split; [reflexivity|].
      intros key' [= <-]. by apply Nat.eqb_neq.
  - split; [reflexivity|]. intros key [=].
Qed.

(** X2.  [export()] after [import(d)] returns [d] with its id in lower case
    and nothing else changed; importing what was exported changes nothing;
    and [import] leaves the recorded errors as they were. *)
Theorem import_then_export (d : DIDDocumentStruct) (this : DIDDocument) :
  exists this1,
    import d this = Ok tt this1 /\
    export this1 = Ok (set_id (toLowerCase (id d)) d) this1 /\
    import (doc this1) this1 = Ok tt this1 /\
    errors this1 = errors this.
Proof.
  eexists. split; [reflexivity|]. split; [reflexivity|].
  split; [|reflexivity].
  unfold import. run. unfold set_id. simpl. by rewrite toLowerCase_idem.
Qed.

(** X3.  Signing is idempotent: [signProof(key)] on a document it has just
    signed leaves the document as it is, the proof being left out of what
    is signed.  It changes nothing but the proof. *)
Theorem signProof_twice (privateKey : PrivateKey) (this : DIDDocument) :
  exists this1,
    signProof privateKey this = Ok tt this1 /\
    signProof privateKey this1 = Ok tt this1 /\
    getProofData (doc this1) = getProofData (doc this) /\
    errors this1 = errors this.
Proof.
  eexists. split; [unfold signProof; run; reflexivity|].
  split; [|split; reflexivity].
  unfold signProof. run. reflexivity.
Qed.

(** What a successful [addContext] leaves: the records of the context
    appended to the document as it was, when no verification method named
    the context, and to the document with the context filtered out
    otherwise. *)
Lemma addContext_outcome (contextName : string) (keyring : Keyring)
  (endpoints : Endpoints) (keys : KeyringPublicKeys)
  (this this1 : DIDDocument) :
  let d := doc this in
  let contextHash := generateContextHash (id d) contextName in
  pattern_safe (id d) = true ->
  pattern_safe contextHash = true ->
  getKeys keyring = inr keys ->
  addContext contextName keyring endpoints this = Ok tt this1 ->
  exists base,
    doc this1 = with_context contextHash endpoints keys base /\
    id base = id d /\
    existsb (fun entry => names_context (id d) contextHash (vm_id entry))
      (default [] (verificationMethod base)) = false /\
    (base = d \/ base = without_context contextHash d).
Proof.
  intros d contextHash Hid Hhash Hkeys Hadd. subst d contextHash.
  destruct (existsb (fun entry => names_context (id (doc this))
              (generateContextHash (id (doc this)) contextName) (vm_id entry))
              (default [] (verificationMethod (doc this)))) eqn:Hnamed.
  - destruct (verificationMethod (doc this)) as [vms|] eqn:Hvm;
      [|discriminate].
    pose proof (removeContext_match contextName this vms Hid Hhash Hvm Hnamed)
      as Hrm. cbv zeta in Hrm.
    destruct (assertionMethod (doc this)) eqn:Ham;
      [|rewrite (addContext_remove_throws _ _ _ _ _ _ Hrm) in Hadd;
        discriminate].
    destruct (keyAgreement (doc this)) eqn:Hka;
      [|rewrite (addContext_remove_throws _ _ _ _ _ _ Hrm) in Hadd;
        discriminate].
    destruct (service (doc this)) eqn:Hsvc;
      [|rewrite (addContext_remove_throws _ _ _ _ _ _ Hrm) in Hadd;
        discriminate].
    rewrite (addContext_run _ _ _ keys _ _ _ Hrm Hkeys) in Hadd.
    injection Hadd as <-.
    exists (without_context (generateContextHash (id (doc this)) contextName)
              (doc this)).
    split; [reflexivity|]. split; [reflexivity|]. split; [|by right].
    simpl. rewrite Hvm. simpl. apply existsb_filter_out.
  - destruct (removeContext_unrecorded contextName this Hid Hhash Hnamed)
      as (msg & Hrm & _).
    rewrite (addContext_run _ _ _ keys _ _ _ Hrm Hkeys) in Hadd.
    injection Hadd as <-.
    exists (doc this). split; [reflexivity|]. split; [reflexivity|].
    split; [exact Hnamed|by left].
Qed.

(** X4.  After a successful [addContext(name, keyring, endpoints)],
    [verifyContextSignature(data, name, signature)] is the answer of the
    signature primitive for the signing key the keyring has just handed
    out, whether or not the document recorded an earlier key of the
    context; the context hash with [contextIsHash] set gives the same.  The
    id and the hash are pattern-safe. *)
Theorem verifyContextSignature_after_addContext (contextName : string)
  (keyring : Keyring) (endpoints : Endpoints) (keys : KeyringPublicKeys)
  (this this1 : DIDDocument) (data : DIDDocumentStruct) (signature : string) :
  let d := doc this in
  let contextHash := generateContextHash (id d) contextName in
  pattern_safe (id d) = true ->
  pattern_safe contextHash = true ->
  getKeys keyring = inr keys ->
  addContext contextName keyring endpoints this = Ok tt this1 ->
  verifyContextSignature data contextName signature false this1
  = Ok (EncryptionUtils.verifySig data signature (signPublicKeyHex keys))
       this1 /\
  verifyContextSignature data contextHash signature true this1
  = Ok (EncryptionUtils.verifySig data signature (signPublicKeyHex keys))
       this1.
Proof.
  intros d contextHash Hid Hhash Hkeys Hadd.
  destruct (addContext_outcome contextName keyring endpoints keys this this1
              Hid Hhash Hkeys Hadd) as (base & Hdoc & Hbase & Hnone & _).
  fold d in Hbase, Hnone. fold contextHash in Hdoc, Hnone.
  assert (forall isHash name,
            (if negb isHash then generateContextHash (id d) name else name)
            = contextHash ->
            verifyContextSignature data name signature isHash this1
            = Ok (EncryptionUtils.verifySig data signature
                    (signPublicKeyHex keys)) this1) as Hgen.
  { intros isHash name Hname. unfold verifyContextSignature. run.
    rewrite Hdoc. simpl. rewrite Hbase, Hname.
    rewrite find_app_skip by (by apply existsb_id_named).
    simpl. by rewrite String.eqb_refl. }
  split; apply Hgen; reflexivity.
Qed.

(** X5.  [addContext] on a document that records the context (a
    verification method names it, and the other three collections are
    present) replaces the registration: the document it leaves is the old
    one with the context filtered out and the new records appended, and
    the database and messaging endpoints are found as just supplied.  The
    id and the hash are pattern-safe and the keyring yields its keys. *)
Theorem addContext_replaces (contextName : string) (keyring : Keyring)
  (endpoints : Endpoints) (keys : KeyringPublicKeys) (this : DIDDocument) :
  let d := doc this in
  let contextHash := generateContextHash (id d) contextName in
  pattern_safe (id d) = true ->
  pattern_safe contextHash = true ->
  existsb (fun entry => names_context (id d) contextHash (vm_id entry))
    (default [] (verificationMethod d)) = true ->
  is_Some (assertionMethod d) ->
  is_Some (keyAgreement d) ->
  is_Some (service d) ->
  getKeys keyring = inr keys ->
  exists this1,
    addContext contextName keyring endpoints this = Ok tt this1 /\
    this1 = on_doc (fun d => with_context contextHash endpoints keys
                               (without_context contextHash d)) this /\
    locateServiceEndpoint contextName DATABASE this1
    = Ok (Some (serviceEntry (id d) contextHash DATABASE
                  (database endpoints))) this1 /\
    locateServiceEndpoint contextName MESSAGING this1
    = Ok (Some (serviceEntry (id d) contextHash MESSAGING
                  (messaging endpoints))) this1.
Proof.
  intros d contextHash Hid Hhash Hnamed [ams Ham] [kas Hka] [svcs Hsvc] Hkeys.
  subst d contextHash.
  destruct (verificationMethod (doc this)) as [vms|] eqn:Hvm; [|discriminate].
  pose proof (removeContext_match contextName this vms Hid Hhash Hvm Hnamed)
    as Hrm. cbv zeta in Hrm. rewrite Ham, Hka, Hsvc in Hrm.
  eexists. split; [exact (addContext_run _ _ _ keys _ _ _ Hrm Hkeys)|].
  split; [reflexivity|].
  set (h := generateContextHash (id (doc this)) contextName).
  assert (forall endpointType,
    locateServiceEndpoint contextName endpointType
      (on_doc (with_context h endpoints keys)
         (on_doc (without_context h) this))
    = Ok (List.find (fun entry => String.eqb (se_id entry)
            (contextId (id (doc this)) h (endpointTypeString endpointType)))
            (contextServices (id (doc this)) h endpoints))
         (on_doc (with_context h endpoints keys)
            (on_doc (without_context h) this))) as Hlocate.
  { intros endpointType. unfold locateServiceEndpoint. run. fold h.
    rewrite Hsvc. simpl.
    rewrite find_app_skip; [reflexivity|].
    apply existsb_id_named.
    apply (existsb_filter_out (fun entry =>
             names_context (id (doc this)) h (se_id entry))). }
  simpl. fold h. rewrite !Hlocate. unfold contextServices, serviceEntry. simpl.
  rewrite !contextId_eqb. simpl. split; reflexivity.
Qed.

(** X6.  A service of the context survives [addContext] when no
    verification method names the context: the removal that opens
    [addContext] then removes nothing, the new services are appended after
    the old one, and [locateServiceEndpoint], which returns the first entry
    with the expected id, returns the old one.  The id and the hash are
    pattern-safe and the keyring yields its keys. *)
Theorem addContext_keeps_stale_service (contextName : string)
  (keyring : Keyring) (endpoints : Endpoints) (keys : KeyringPublicKeys)
  (this : DIDDocument) (svcs : list ServiceEndpoint)
  (endpointType : EndpointType) (stale : ServiceEndpoint) :
  let d := doc this in
  let contextHash := generateContextHash (id d) contextName in
  pattern_safe (id d) = true ->
  pattern_safe contextHash = true ->
  existsb (fun entry => names_context (id d) contextHash (vm_id entry))
    (default [] (verificationMethod d)) = false ->
  service d = Some svcs ->
  List.find (fun entry => String.eqb (se_id entry)
               (contextId (id d) contextHash
                  (endpointTypeString endpointType))) svcs = Some stale ->
  getKeys keyring = inr keys ->
  exists this1,
    addContext contextName keyring endpoints this = Ok tt this1 /\
    service (doc this1)
    = Some (svcs ++ contextServices (id d) contextHash endpoints)%list /\
    locateServiceEndpoint contextName endpointType this1
    = Ok (Some stale) this1.
Proof.
  intros d contextHash Hid Hhash Hnamed Hsvc Hstale Hkeys. subst d contextHash.
  destruct (removeContext_unrecorded contextName this Hid Hhash Hnamed)
    as (msg & Hrm & _).
  eexists. split; [exact (addContext_run _ _ _ keys _ _ _ Hrm Hkeys)|].
  simpl. rewrite Hsvc. split; [reflexivity|].
  unfold locateServiceEndpoint. run. rewrite Hsvc. simpl.
  by rewrite (find_app_found _ _ _ _ Hstale).
Qed.

(** X7.  When the keyring rejects, [addContext] fails with that rejection
    after it has appended the services: the document it leaves has the
    services of the context and none of its keys.  [this0] is the document
    the opening removal returns with. *)
Theorem addContext_keyring_rejects (contextName : string) (keyring : Keyring)
  (endpoints : Endpoints) (e : exn) (this this0 : DIDDocument)
  (removed : bool) :
  let d := doc this0 in
  let contextHash := generateContextHash (id d) contextName in
  removeContext contextName this = Ok removed this0 ->
  getKeys keyring = inl e ->
  exists this1,
    addContext contextName keyring endpoints this = Throw e this1 /\
    service (doc this1)
    = Some (default [] (service d)
            ++ contextServices (id d) contextHash endpoints)%list /\
    verificationMethod (doc this1) = verificationMethod d /\
    assertionMethod (doc this1) = assertionMethod d /\
    keyAgreement (doc this1) = keyAgreement d.
Proof.
  intros d contextHash Hrm Hkeys. subst d contextHash.
  unfold addContext. run. rewrite Hrm.
  unfold addContextOptionalService, addContextService. rewrite Hkeys.
  unfold contextServices, serviceEntry, on_doc, push.
  destruct this0 as [[i c vm am ka sv pr] errs].
  destruct (storage endpoints), (notification endpoints); run;
    rewrite <- ?app_assoc; eexists; repeat split; reflexivity.
Qed.

(** X8.  After [removeContext(name)] has returned [true] the context is
    gone for the lookups: [verifyContextSignature] for it returns [false]
    whatever the data and the signature, [locateServiceEndpoint] finds no
    endpoint of any type, and a second [removeContext(name)] returns
    [false] and records that no verification method was found.  The id and
    the hash are pattern-safe. *)
Theorem removeContext_forgets (contextName : string)
  (this this1 : DIDDocument) :
  let d := doc this in
  let contextHash := generateContextHash (id d) contextName in
  pattern_safe (id d) = true ->
  pattern_safe contextHash = true ->
  removeContext contextName this = Ok true this1 ->
  (forall data signature,
     verifyContextSignature data contextName signature false this1
     = Ok false this1) /\
  (forall endpointType,
     locateServiceEndpoint contextName endpointType this1 = Ok None this1) /\
  removeContext contextName this1
  = Ok false (set_errors
      ["Unable to locate verification method for this context"] this1).
Proof.
  intros d contextHash Hid Hhash Hrm. subst d contextHash.
  set (h := generateContextHash (id (doc this)) contextName) in *.
  destruct (existsb (fun entry => names_context (id (doc this)) h
                                    (vm_id entry))
              (default [] (verificationMethod (doc this)))) eqn:Hnamed.
  2:{ destruct (removeContext_unrecorded contextName this Hid Hhash Hnamed)
        as (msg & Hrun & _). congruence. }
  destruct (verificationMethod (doc this)) as [vms|] eqn:Hvm; [|discriminate].
  pose proof (removeContext_match contextName this vms Hid Hhash Hvm Hnamed)
    as Hrun. cbv zeta in Hrun. fold h in Hrun. rewrite Hrun in Hrm.
  destruct (assertionMethod (doc this)) as [ams|] eqn:Ham; [|discriminate].
  destruct (keyAgreement (doc this)) as [kas|] eqn:Hka; [|discriminate].
  destruct (service (doc this)) as [svcs|] eqn:Hsvc; [|discriminate].
  injection Hrm as <-.
  pose proof (existsb_filter_out (fun entry =>
                names_context (id (doc this)) h (vm_id entry)) vms) as Hvms.
  pose proof (existsb_filter_out (fun entry =>
                names_context (id (doc this)) h (se_id entry)) svcs) as Hsvcs.
  split; [|split].
  - intros data signature. unfold verifyContextSignature. run. fold h.
    rewrite Hvm. simpl.
    apply (existsb_id_named vm_id _ _ "sign") in Hvms.
    apply find_none_existsb in Hvms. by rewrite Hvms.
  - intros endpointType.
    apply (locateServiceEndpoint_absent_entry contextName endpointType _
             (List.filter (fun entry =>
                negb (names_context (id (doc this)) h (se_id entry))) svcs)).
    + simpl. by rewrite Hsvc.
    + by apply existsb_id_named.
  - apply (removeContext_no_match contextName _
             (List.filter (fun entry =>
                negb (names_context (id (doc this)) h (vm_id entry))) vms));
      try assumption.
    simpl. by rewrite Hvm.
Qed.

Lemma removeContext_errors (contextName : string)
  (this this' : DIDDocument) :
  receiver_after (removeContext contextName this) = Some this' ->
  errors this' = errors this \/
  exists msg, errors this' = [msg] /\ removal_message msg.
Proof.
  unfold removeContext. run.
  destruct (verificationMethod (doc this)) as [vms|] eqn:Hvm; simpl.
  2:{ intros [= <-]. right. eexists. split; [reflexivity|by left]. }
  match goal with |- context [findM ?p vms this] =>
    pose proof (findM_str_match_state vm_id
      (contextPattern (id (doc this))
         (generateContextHash (id (doc this)) contextName)) vms this) as Hfind;
    destruct (findM p vms this) as [found s1|e s1|] end; try done.
  subst s1. destruct found as [x|]; simpl.
  2:{ intros [= <-]. right. eexists. split; [reflexivity|by right]. }
  match goal with |- context [filterM ?p vms this] =>
    pose proof (filterM_str_match_state vm_id
      (contextPattern (id (doc this))
         (generateContextHash (id (doc this)) contextName)) vms this) as Hfilter;
    destruct (filterM p vms this) as [vms' s1|e s1|] end; try done.
  destruct Hfilter as [-> _].
  destruct (assertionMethod (doc this)) as [ams|]; [|by intros [= <-]; left].
  destruct (keyAgreement (doc this)) as [kas|]; [|by intros [= <-]; left].
  destruct (service (doc this)) as [svcs|]; [|by intros [= <-]; left].
  match goal with |- context [filterM ?p svcs ?s] =>
    pose proof (filterM_str_match_state se_id
      (contextPattern (id (doc this))
         (generateContextHash (id (doc this)) contextName)) svcs s) as Hfilter;
    destruct (filterM p svcs s) as [svcs' s1|e s1|] end; try done.
  destruct Hfilter as [-> _]. by intros [= <-]; left.
Qed.

Lemma addContext_errors (contextName : string) (keyring : Keyring)
  (endpoints : Endpoints) (this this' : DIDDocument) :
  receiver_after (addContext contextName keyring endpoints this) = Some this' ->
  errors this' = errors this \/
  exists msg, errors this' = [msg] /\ removal_message msg.
Proof.
  unfold addContext, mbind, M_bind, Js.bind, Js.get.
  pose proof (removeContext_errors contextName this) as Hremove.
  destruct (removeContext contextName this) as [removed s0|e s0|];
    [|intros [= <-]; by apply Hremove|discriminate].
  specialize (Hremove s0 eq_refl). cbv beta iota zeta.
  intros Hrun.
  assert (errors this' = errors s0) as ->; [|exact Hremove].
  revert Hrun.
  unfold addContextOptionalService, addContextService, addContextSignKey,
    addContextAsymKey.
  destruct (storage endpoints), (notification endpoints),
    (getKeys keyring); run; by intros [= <-].
Qed.

(** X9.  The recorded errors never pile up.  Every call leaves the errors
    as they were or replaces them by exactly one of the two messages of
    [removeContext]; so after any sequence of calls on a newly constructed
    manager, [getErrors()] holds at most one message. *)
Theorem errors_hold_one_message :
  (forall c this this',
     perform c this = Some this' ->
     errors this' = errors this \/
     exists msg, errors this' = [msg] /\ removal_message msg) /\
  (forall arg publicKeyHex this calls this',
     new arg publicKeyHex = inr this ->
     performAll calls this = Some this' ->
     length (errors this') <= 1).
Proof.
  assert (forall c this this',
     perform c this = Some this' ->
     errors this' = errors this \/
     exists msg, errors this' = [msg] /\ removal_message msg) as Hstep.
  { intros c this this' Hperform.
    destruct c; cbv beta iota delta [perform] in Hperform.
    - by apply addContext_errors in Hperform.
    - by apply removeContext_errors in Hperform.
    - injection Hperform as <-. by left.
    - injection Hperform as <-. by left.
    - injection Hperform as <-. by left.
    - injection Hperform as <-. by left.
    - revert Hperform. unfold verifyProof, verifySig. run.
      repeat case_match; simpl; intros [= <-]; by left.
    - revert Hperform. unfold verifySig. run.
      repeat case_match; simpl; intros [= <-]; by left.
    - revert Hperform. unfold locateServiceEndpoint. run.
      repeat case_match; simpl; intros [= <-]; by left.
    - injection Hperform as <-. by left.
    - injection Hperform as <-. by left.
    - injection Hperform as <-. by left. }
  split; [exact Hstep|].
  intros arg publicKeyHex this calls this' Hnew.
  assert (length (errors this) <= 1) as Hstart.
  { unfold new in Hnew. destruct arg as [d|did].
    - injection Hnew as <-. simpl. lia.
    - destruct (_ || _); [discriminate|]. injection Hnew as <-. simpl. lia. }
  clear Hnew. revert this Hstart.
  induction calls as [|c calls IH]; intros this Hstart; simpl.
  - by intros [= <-].
  - destruct (perform c this) as [s|] eqn:Hc; [|discriminate].
    apply IH. destruct (Hstep c this s Hc) as [->|(msg & -> & _)];
      [exact Hstart|simpl; lia].
Qed.

End Manager.
End DocumentManagerFacts.

(** ** The DID document manager on a registered context *)
Module DocumentManagerExamples.
Import Js EncryptionUtils DidDocument JsFacts DidDocumentFacts StandIns.
Import DocumentManagerFacts.

#[local] Existing Instance transparent.

(** X4 instantiated: the context [Test App] is registered a second time,
    with other keys, and signatures are checked against the new signing
    key. *)
Lemma verifyContextSignature_after_addContext_witness :
  exists this1,
    addContext "Test App" rotatedKeyring movedEndpoints registeredDocument
    = Ok tt this1 /\
    verifyContextSignature (doc freshDocument) "Test App" "signature" false
      this1
    = Ok (EncryptionUtils.verifySig (doc freshDocument) "signature"
            (signPublicKeyHex rotatedKeys)) this1.
Proof.
  eexists. split; [vm_compute; reflexivity|].
  refine (proj1 (verifyContextSignature_after_addContext "Test App"
                   rotatedKeyring movedEndpoints rotatedKeys
                   registeredDocument _ (doc freshDocument) "signature"
                   _ _ _ _)); vm_compute; reflexivity.
Defined.

(** X5 instantiated: after the second registration the document holds the
    two services and the three verification methods it held after the
    first, and the database endpoint is the new one. *)
Lemma addContext_replaces_witness :
  exists this1,
    addContext "Test App" rotatedKeyring movedEndpoints registeredDocument
    = Ok tt this1 /\
    length (default [] (service (doc this1))) = 2 /\
    length (default [] (verificationMethod (doc this1))) = 3 /\
    locateServiceEndpoint "Test App" DATABASE this1
    = Ok (Some (serviceEntry "did:vda:0xabc"
                  (generateContextHash "did:vda:0xabc" "Test App") DATABASE
                  (database movedEndpoints))) this1.
Proof.
  destruct (addContext_replaces "Test App" rotatedKeyring movedEndpoints
              rotatedKeys registeredDocument)
    as (this1 & Hadd & Hdoc & Hdatabase & _).
  1-3: vm_compute; reflexivity.
  1-3: eexists; vm_compute; reflexivity.
  1: reflexivity.
  exists this1. split; [exact Hadd|]. rewrite Hdoc.
  split; [reflexivity|]. split; [reflexivity|]. rewrite <- Hdoc.
  exact Hdatabase.
Defined.

(** X6 instantiated: the document has a database service of [Test App]
    and no key of it; after [addContext] the old endpoint is still the one
    found. *)
Lemma addContext_keeps_stale_service_witness :
  exists this1,
    addContext "Test App" sampleKeyring sampleEndpoints staleDocument
    = Ok tt this1 /\
    service (doc this1)
    = Some ([staleService]
            ++ contextServices "did:vda:0xabc"
                 (generateContextHash "did:vda:0xabc" "Test App")
                 sampleEndpoints)%list /\
    locateServiceEndpoint "Test App" DATABASE this1
    = Ok (Some staleService) this1.
Proof.
  apply (addContext_keeps_stale_service "Test App" sampleKeyring
           sampleEndpoints sampleKeys staleDocument [staleService] DATABASE
           staleService); vm_compute; reflexivity.
Defined.

(** X7 instantiated: the keyring is locked; the fresh document is left
    with the two services of the context and with its root key only. *)
Lemma addContext_keyring_rejects_witness :
  exists this1,
    addContext "Test App" lockedKeyring sampleEndpoints freshDocument
    = Throw (Error "Keyring is locked") this1 /\
    service (doc this1)
    = Some (contextServices "did:vda:0xabc"
              (generateContextHash "did:vda:0xabc" "Test App")
              sampleEndpoints) /\
    verificationMethod (doc this1) = verificationMethod (doc freshDocument) /\
    assertionMethod (doc this1) = assertionMethod (doc freshDocument) /\
    keyAgreement (doc this1) = None.
Proof.
  apply (addContext_keyring_rejects "Test App" lockedKeyring sampleEndpoints
           (Error "Keyring is locked") freshDocument
           (set_errors
              ["Unable to locate verification method for this context"]
              freshDocument) false); vm_compute; reflexivity.
Defined.

(** X8 instantiated on the document with [Test App] registered. *)
Lemma removeContext_forgets_witness :
  exists this1,
    removeContext "Test App" registeredDocument = Ok true this1 /\
    verifyContextSignature (doc freshDocument) "Test App" "signature" false
      this1 = Ok false this1 /\
    locateServiceEndpoint "Test App" DATABASE this1 = Ok None this1 /\
    removeContext "Test App" this1
    = Ok false (set_errors
        ["Unable to locate verification method for this context"] this1).
Proof.
  eexists. split; [vm_compute; reflexivity|].
  match goal with |- context [locateServiceEndpoint _ _ ?t] =>
    refine (let H := removeContext_forgets "Test App" registeredDocument t
                       _ _ _ in
            conj (proj1 H _ _) (conj (proj1 (proj2 H) _) (proj2 (proj2 H))))
  end; vm_compute; reflexivity.
Defined.

End DocumentManagerExamples.

(** ** The context: cached engines and the end of a session *)
Module ContextSessionFacts.
Import Js StorageLink StorageContext StorageContextFacts ContextSession.

Section Session.
Context {Messaging : Type}.
Context `{!Collaborators} `{!AccountSession} `{!MessagingInterface Messaging}.

(** X10.  A storage engine is obtained once per DID: after
    [getDatabaseEngine(did)] has returned an engine, a further call for the
    same DID returns that engine and leaves the context as it is, so it
    contacts neither the resolver nor the storage node. *)
Theorem getDatabaseEngine_cached (did : string) (createContext : option bool)
  (this this1 : Context) (engine : BaseStorageEngine) :
  getDatabaseEngine did createContext this = Ok engine this1 ->
  forall createContext',
    getDatabaseEngine did createContext' this1 = Ok engine this1.
Proof.
  intros Hrun createContext'. revert Hrun.
  unfold getDatabaseEngine.
  unfold mbind at 1, M_bind at 1, Js.bind at 1, Js.get at 1.
  destruct (get_property (databaseEngines this) did) as [cached| |] eqn:Hget.
  - intros [= <- <-].
    unfold mbind at 1, M_bind at 1, Js.bind at 1, Js.get at 1.
    by rewrite Hget.
  - discriminate.
  - unfold mbind at 1, M_bind at 1, Js.bind at 1.
    destruct (getContextConfig (Some did) createContext None this)
      as [contextConfig s0| |]; [|discriminate..].
    destruct (get_property DATABASE_ENGINES _) as [cls|name|];
      [|destruct (String.eqb name "constructor"); discriminate|discriminate].
    assert (forall (built : BaseStorageEngine) s,
              (modify (cache_engine did built);; mret built) s
              = Ok engine this1 ->
              get_property (databaseEngines this1) did = Own engine)
      as Hcache.
    { intros built s. run. intros [= <- <-]. unfold get_property. simpl.
      by rewrite lookup_insert_eq. }
    intros Hrun.
    assert (get_property (databaseEngines this1) did = Own engine) as Hown.
    { revert Hrun. destruct (account this) as [a|].
      - unfold mbind at 1, M_bind at 1, Js.bind at 1.
        unfold mbind at 1, M_bind at 1, Js.bind at 1.
        unfold Js.modify at 1. unfold Js.await.
        destruct (connectAccount _ a) as [e|connected]; [discriminate|].
        apply Hcache.
      - unfold mbind at 1, M_bind at 1, Js.bind at 1.
        unfold mret at 1, M_ret at 1, Js.ret at 1. apply Hcache. }
    unfold mbind at 1, M_bind at 1, Js.bind at 1, Js.get at 1.
    by rewrite Hown.
Qed.

(** X11.  When the storage node rejects the account, [getDatabaseEngine]
    fails with that rejection after the resolver and the node have been
    contacted, and caches nothing: the next call for the DID starts
    over. *)
Theorem getDatabaseEngine_connect_rejected (did name : string)
  (createContext : option bool) (contextConfig : SecureContextConfig)
  (a : Account) (e : exn) (this : Context) :
  let uri := endpointUri (databaseServer (services contextConfig)) in
  get_property (databaseEngines this) did = Undefined ->
  resolvedDid did this = Some name ->
  account this = Some a ->
  getDIDContextConfig name (contextName this) createContext
  = inr contextConfig ->
  type (databaseServer (services contextConfig)) = "VeridaDatabase" ->
  connectAccount (construct StorageEngineVerida (contextName this) uri) a
  = inl e ->
  exists failed,
    getDatabaseEngine did createContext this = Throw e failed /\
    events failed
    = ([ ConnectAccount uri (account_did a);
         ResolveConfig name (contextName this) createContext ]
       ++ events this)%list /\
    databaseEngines failed = databaseEngines this /\
    get_property (databaseEngines failed) did = Undefined.
Proof.
  intros uri Hmiss Hdid Haccount Hresolve Htype Hconnect. subst uri.
  unfold getDatabaseEngine.
  unfold mbind at 1, M_bind at 1, Js.bind at 1, Js.get at 1.
  rewrite Hmiss.
  unfold mbind at 1, M_bind at 1, Js.bind at 1.
  rewrite (getContextConfig_run did name createContext this Hdid), Hresolve.
  rewrite Htype. unfold get_property at 1, DATABASE_ENGINES.
  rewrite lookup_singleton_eq. rewrite Haccount. run.
  simpl in Hconnect. rewrite Hconnect.
  eexists. split; [reflexivity|]. repeat split. exact Hmiss.
Qed.

(** X12.  After [disconnect()] has returned [true] the context has no
    account: a second [disconnect()] returns [false], [openDatabase] fails
    with the no-user error and [getContextConfig()] without a DID fails too,
    all three leaving the context as it is.  The engine cache is kept: an
    engine cached before is still handed out. *)
Theorem disconnect_ends_session (this this1 : Context) :
  disconnect this = Ok true this1 ->
  account this1 = None /\
  disconnect this1 = Ok false this1 /\
  (forall databaseName config,
     openDatabase databaseName config this1
     = Throw (Error "Unable to open database. No authenticated user.") this1)
  /\
  (forall forceCreate customContextName,
     getContextConfig None forceCreate customContextName this1
     = Throw (Error "No DID specified and no authenticated user") this1) /\
  databaseEngines this1 = databaseEngines this /\
  (forall did engine createContext,
     databaseEngines this !! did = Some engine ->
     getDatabaseEngine did createContext this1 = Ok engine this1).
Proof.
  unfold disconnect. run.
  destruct (account this) as [a|] eqn:Haccount; [|discriminate].
  destruct (accountDisconnect a (contextName this)); [discriminate|].
  simpl. intros [= <-]. split; [reflexivity|]. split; [reflexivity|].
  split; [reflexivity|]. split; [reflexivity|]. split; [reflexivity|].
  intros did engine createContext Hcached.
  unfold getDatabaseEngine. run. unfold get_property. simpl.
  by rewrite Hcached.
Qed.

(** X13.  [getMessaging] caches the engine before it connects it.  When
    the configuration is resolved, the message server is of the registered
    type and the notification engine is obtained, but [connectAccount]
    throws, [getMessaging] fails with that exception, and the engine as the
    failed [connectAccount] left it stays in [this.messagingEngine]: every
    later [getMessaging] returns it without connecting it. *)
Theorem getMessaging_caches_before_connecting
  (messageConfig : MessagesConfig) (a : Account)
  (contextConfig : SecureContextConfig)
  (notificationServer : option MessagingEngine.Notification) (e : exn)
  (failed : Messaging) (this this0 : ContextEngines Messaging) :
  let name := contextName (context this) in
  let resolved :=
    set_context (record (ResolveConfig (account_did a) name (Some true))
                   (context this)) this in
  messagingEngine this = None ->
  account (context this) = Some a ->
  getDIDContextConfig (account_did a) name (Some true) = inr contextConfig ->
  type (messageServer (services contextConfig)) = "VeridaMessage" ->
  getNotification resolved = Ok notificationServer this0 ->
  messagingConnectAccount a
    (newMessaging MessagingEngineVerida name messageConfig notificationServer)
  = Throw e failed ->
  exists this1,
    getMessaging messageConfig this = Throw e this1 /\
    messagingEngine this1 = Some failed /\
    forall messageConfig', getMessaging messageConfig' this1 = Ok failed this1.
Proof.
  intros name resolved Hnone Haccount Hresolve Htype Hnotification Hconnect.
  subst name resolved.
  assert (resolvedDid (account_did a) (context this) = Some (account_did a))
    as Hdid.
  { unfold resolvedDid. rewrite Haccount. by destruct (truthy _). }
  unfold getMessaging.
  unfold mbind at 1, M_bind at 1, Js.bind at 1, Js.get at 1.
  rewrite Hnone, Haccount.
  unfold mbind at 1, M_bind at 1, Js.bind at 1. unfold on_context at 1.
  rewrite (getContextConfig_run _ _ (Some true) (context this) Hdid), Hresolve.
  rewrite Htype. unfold get_property at 1, MESSAGING_ENGINES.
  rewrite lookup_singleton_eq.
  unfold mbind at 1, M_bind at 1, Js.bind at 1. rewrite Hnotification.
  rewrite Hconnect. run.
  eexists. split; [reflexivity|]. split; [reflexivity|].
  intros messageConfig'. reflexivity.
Qed.

(** X14.  [getMessaging] for an account whose context has a message server
    of the registered type and no notification server: the resolver is
    asked twice, first with force-create for the messaging engine and then
    without it for the notification engine; the engine is built without a
    notification service, connected, cached and returned by every later
    call; no notification engine is cached. *)
Theorem getMessaging_without_notification_server
  (messageConfig : MessagesConfig) (a : Account)
  (contextConfig : SecureContextConfig) (connected : Messaging)
  (this : ContextEngines Messaging) :
  let name := contextName (context this) in
  messagingEngine this = None ->
  notificationEngine this = None ->
  account (context this) = Some a ->
  getDIDContextConfig (account_did a) name (Some true) = inr contextConfig ->
  getDIDContextConfig (account_did a) name (Some false) = inr contextConfig ->
  type (messageServer (services contextConfig)) = "VeridaMessage" ->
  notificationServer (services contextConfig) = None ->
  messagingConnectAccount a
    (newMessaging MessagingEngineVerida name messageConfig None)
  = Ok tt connected ->
  exists this1,
    getMessaging messageConfig this = Ok connected this1 /\
    events (context this1)
    = ([ ResolveConfig (account_did a) name (Some false);
         ResolveConfig (account_did a) name (Some true) ]
       ++ events (context this))%list /\
    notificationEngine this1 = None /\
    forall messageConfig',
      getMessaging messageConfig' this1 = Ok connected this1.
Proof.
  intros name Hnone Hnotif Haccount Hforce Hplain Htype Hserver Hconnect.
  subst name.
  assert (forall c, account c = Some a ->
            resolvedDid (account_did a) c = Some (account_did a)) as Hdid.
  { intros c Hc. unfold resolvedDid. rewrite Hc. by destruct (truthy _). }
  unfold getMessaging.
  unfold mbind at 1, M_bind at 1, Js.bind at 1, Js.get at 1.
  rewrite Hnone, Haccount.
  unfold mbind at 1, M_bind at 1, Js.bind at 1. unfold on_context at 1.
  rewrite (getContextConfig_run _ _ (Some true) (context this)
             (Hdid _ Haccount)), Hforce.
  rewrite Htype. unfold get_property at 1, MESSAGING_ENGINES.
  rewrite lookup_singleton_eq.
  unfold mbind at 1, M_bind at 1, Js.bind at 1.
  unfold getNotification at 1.
  unfold mbind at 1, M_bind at 1, Js.bind at 1, Js.get at 1.
  cbn [notificationEngine set_context context record account].
  rewrite Hnotif, Haccount.
  unfold mbind at 1, M_bind at 1, Js.bind at 1. unfold on_context at 1.
  cbn [context set_context].
  rewrite (getContextConfig_run _ _ (Some false)
             (record _ (context this)) (Hdid _ Haccount)).
  cbn [contextName record]. rewrite Hplain, Hserver.
  unfold mret at 1, M_ret at 1, Js.ret at 1.
  rewrite Hconnect. run.
  eexists. split; [reflexivity|]. split; [reflexivity|].
  split; [exact Hnotif|]. intros messageConfig'. reflexivity.
Qed.

End Session.
End ContextSessionFacts.

(** ** The context: databases of other accounts *)
Module ExternalDatabaseFacts.
Import Js StorageLink StorageContext StorageContextFacts ExternalDatabase.

Section External.
Context `{!Collaborators} `{!ExternalCollaborators}.

(** Resolving the configuration of a given DID under a context name of
    the caller's choice. *)
Lemma getContextConfig_named (did : string) (forceCreate : option bool)
  (customContextName : option string) (this : Context) :
  truthy did = true ->
  let name := if truthy_opt customContextName
              then default "" customContextName else contextName this in
  getContextConfig (Some did) forceCreate customContextName this
  = match getDIDContextConfig did name forceCreate with
    | inr contextConfig =>
        Ok contextConfig (record (ResolveConfig did name forceCreate) this)
    | inl e => Throw e (record (ResolveConfig did name forceCreate) this)
    end.
Proof.
  intros Hdid name. subst name. unfold getContextConfig. run. rewrite Hdid.
  simpl. by destruct (getDIDContextConfig _ _ _).
Qed.

(** A cache miss on a context without an account: the engine is built and
    cached as built, no account being connected to it. *)
Lemma getDatabaseEngine_unconnected (did : string)
  (createContext : option bool) (contextConfig : SecureContextConfig)
  (this : Context) :
  let name := contextName this in
  let engine :=
    construct StorageEngineVerida name
      (endpointUri (databaseServer (services contextConfig))) in
  account this = None ->
  truthy did = true ->
  get_property (databaseEngines this) did = Undefined ->
  getDIDContextConfig did name createContext = inr contextConfig ->
  type (databaseServer (services contextConfig)) = "VeridaDatabase" ->
  getDatabaseEngine did createContext this
  = Ok engine
      (cache_engine did engine
         (record (ResolveConfig did name createContext) this)).
Proof.
  intros name engine Haccount Hdid Hmiss Hresolve Htype. subst name engine.
  unfold getDatabaseEngine.
  unfold mbind at 1, M_bind at 1, Js.bind at 1, Js.get at 1.
  rewrite Hmiss.
  unfold mbind at 1, M_bind at 1, Js.bind at 1.
  rewrite (getContextConfig_named did createContext None this Hdid).
  cbn [truthy_opt]. rewrite Hresolve, Htype.
  unfold get_property at 1, DATABASE_ENGINES. rewrite lookup_singleton_eq.
  rewrite Haccount. reflexivity.
Qed.

(** X15.  [openExternalDatabase] asks for no authenticated user.  On a
    context without an account, for a DID whose engine is not cached and a
    [config] without [dsn] and [contextName], it resolves the configuration
    twice (once for the [dsn], without force-create, and once more for the
    engine), builds the engine without connecting an account, caches it and
    opens the database; nothing is saved in the database registry.
    [openDatabase] on the same context fails with the no-user error. *)
Theorem openExternalDatabase_without_account (databaseName did : string)
  (config : ExternalDatabaseConfig) (contextConfig : SecureContextConfig)
  (database : Database) (this : Context) :
  let name := contextName this in
  let uri := endpointUri (databaseServer (services contextConfig)) in
  let engine := construct StorageEngineVerida name uri in
  account this = None ->
  truthy did = true ->
  dsn config = None ->
  config_contextName config = None ->
  get_property (databaseEngines this) did = Undefined ->
  getDIDContextConfig did name (Some false) = inr contextConfig ->
  getDIDContextConfig did name None = inr contextConfig ->
  type (databaseServer (services contextConfig)) = "VeridaDatabase" ->
  engineOpenExternalDatabase engine databaseName
    (merged did (Some uri) config) = inr database ->
  exists this1,
    openExternalDatabase databaseName did config this = Ok database this1 /\
    events this1
    = ([ OpenDatabase uri databaseName; ResolveConfig did name None;
         ResolveConfig did name (Some false) ] ++ events this)%list /\
    databaseEngines this1 !! did = Some engine /\
    engine_account engine = None /\
    openDatabase databaseName (open_config config) this1
    = Throw (Error "Unable to open database. No authenticated user.") this1.
Proof.
  intros name uri engine Haccount Hdid Hdsn Hname Hmiss Hfalse Hnone Htype
    Hopen. subst name uri engine.
  unfold openExternalDatabase.
  unfold mbind at 1, M_bind at 1, Js.bind at 1, Js.get at 1.
  rewrite Hdsn, Hname. cbn [truthy_opt negb].
  unfold mbind at 1, M_bind at 1, Js.bind at 1.
  unfold mbind at 1, M_bind at 1, Js.bind at 1.
  rewrite (getContextConfig_named did (Some false) _ this Hdid).
  assert ((if truthy_opt (Some (contextName this))
           then default "" (Some (contextName this)) else contextName this)
          = contextName this) as -> by (by destruct (truthy_opt _)).
  rewrite Hfalse.
  unfold mret at 1, M_ret at 1, Js.ret at 1.
  cbn [merged config_contextName]. rewrite Hname. cbn [truthy_opt andb].
  unfold mbind at 1, M_bind at 1, Js.bind at 1.
  rewrite (getDatabaseEngine_unconnected did None contextConfig
             (record _ this) Haccount Hdid Hmiss Hnone Htype).
  run. simpl in Hopen. rewrite Hopen.
  eexists. split; [reflexivity|]. simpl. split; [reflexivity|].
  split; [by rewrite lookup_insert_eq|]. split; [reflexivity|].
  unfold openDatabase. run. by rewrite Haccount.
Qed.

End External.
End ExternalDatabaseFacts.

(** ** The context and its engines with a resolver *)
Module ContextSessionExamples.
Import Js StorageLink StorageContext ContextSession ExternalDatabase.
Import ContextSessionFacts ExternalDatabaseFacts StandIns.

(** X10 instantiated: the engine of the account's own DID. *)
Lemma getDatabaseEngine_cached_witness :
  exists engine this1,
    @getDatabaseEngine (resolvesTo "VeridaDatabase") "did:vda:0xabc" None
      sampleContext = Ok engine this1 /\
    @getDatabaseEngine (resolvesTo "VeridaDatabase") "did:vda:0xabc"
      (Some true) this1 = Ok engine this1.
Proof.
  eexists. eexists. split; [vm_compute; reflexivity|].
  refine (@getDatabaseEngine_cached (resolvesTo "VeridaDatabase")
            "did:vda:0xabc" None sampleContext _ _ _ (Some true)).
  vm_compute. reflexivity.
Defined.

(** X11 instantiated: the storage node answers [Unauthorized]. *)
Lemma getDatabaseEngine_connect_rejected_witness :
  exists failed,
    @getDatabaseEngine refusesConnection "did:vda:0xabc" None sampleContext
    = Throw (Error "Unauthorized") failed /\
    events failed
    = [ ConnectAccount "https://db.example/" "did:vda:0xabc";
        ResolveConfig "did:vda:0xabc" "Test App" None ] /\
    databaseEngines failed = databaseEngines sampleContext /\
    get_property (databaseEngines failed) "did:vda:0xabc" = Undefined.
Proof.
  refine (@getDatabaseEngine_connect_rejected refusesConnection
            "did:vda:0xabc" "did:vda:0xabc" None
            (configOfType "VeridaDatabase")
            {| account_did := "did:vda:0xabc" |} (Error "Unauthorized")
            sampleContext _ _ _ _ _ _); reflexivity.
Defined.

(** X12 instantiated on the sample context. *)
Lemma disconnect_ends_session_witness :
  exists this1,
    @disconnect signsOut sampleContext = Ok true this1 /\
    account this1 = None /\
    @disconnect signsOut this1 = Ok false this1 /\
    @openDatabase (resolvesTo "VeridaDatabase") "TestDb_1" sampleOpenConfig
      this1
    = Throw (Error "Unable to open database. No authenticated user.") this1.
Proof.
  eexists. split; [reflexivity|].
  match goal with |- account ?t = None /\ _ =>
    refine (let H := @disconnect_ends_session
                       (resolvesTo "VeridaDatabase") signsOut
                       sampleContext t _ in
            conj (proj1 H) (conj (proj1 (proj2 H))
                   (proj1 (proj2 (proj2 H)) _ _)))
  end.
  reflexivity.
Defined.

(** X13 instantiated: the account refuses its keyring, and the engine that
    stays cached has none. *)
Lemma getMessaging_caches_before_connecting_witness :
  exists failed this1,
    @getMessaging _ (resolvesTo "VeridaDatabase")
      (@MessagingConnection.messaging keyringRefused) defaultMessages
      sampleEngines
    = Throw (Error "User rejected the request") this1 /\
    messagingEngine this1 = Some failed /\
    MessagingConnection.keyring failed = None /\
    @getMessaging _ (resolvesTo "VeridaDatabase")
      (@MessagingConnection.messaging keyringRefused) defaultMessages this1
    = Ok failed this1.
Proof.
  destruct (@getMessaging_caches_before_connecting _
              (resolvesTo "VeridaDatabase")
              (@MessagingConnection.messaging keyringRefused)
              defaultMessages {| account_did := "did:vda:0xabc" |}
              (configOfType "VeridaDatabase") None
              (Error "User rejected the request")
              (MessagingConnection.set_did "did:vda:0xabc"
                 (MessagingConnection.new "Test App" defaultMessages None))
              sampleEngines
              (set_context
                 (record (ResolveConfig "did:vda:0xabc" "Test App"
                            (Some false))
                    (record (ResolveConfig "did:vda:0xabc" "Test App"
                               (Some true)) sampleContext)) sampleEngines))
    as (this1 & Hrun & Hcached & Hagain); try reflexivity.
  eexists. exists this1. split; [exact Hrun|]. split; [exact Hcached|].
  split; [reflexivity|apply Hagain].
Defined.

(** X14 instantiated: the account hands out its keyring. *)
Lemma getMessaging_without_notification_server_witness :
  exists connected this1,
    @getMessaging _ (resolvesTo "VeridaDatabase")
      (@MessagingConnection.messaging keyringGranted) defaultMessages
      sampleEngines = Ok connected this1 /\
    events (context this1)
    = [ ResolveConfig "did:vda:0xabc" "Test App" (Some false);
        ResolveConfig "did:vda:0xabc" "Test App" (Some true) ] /\
    notificationEngine this1 = None /\
    @getMessaging _ (resolvesTo "VeridaDatabase")
      (@MessagingConnection.messaging keyringGranted) defaultMessages this1
    = Ok connected this1.
Proof.
  destruct (@getMessaging_without_notification_server _
              (resolvesTo "VeridaDatabase")
              (@MessagingConnection.messaging keyringGranted)
              defaultMessages {| account_did := "did:vda:0xabc" |}
              (configOfType "VeridaDatabase")
              (MessagingConnection.set_inbox
                 {| MessagingConnection.inbox_keyring :=
                      Some {| Keyrings.seed := "did:vda:0xabc/Test App" |};
                    MessagingConnection.inbox_maxItems := 50 |}
                 (MessagingConnection.set_keyring
                    {| Keyrings.seed := "did:vda:0xabc/Test App" |}
                    (MessagingConnection.set_did "did:vda:0xabc"
                       (MessagingConnection.new "Test App" defaultMessages
                          None))))
              sampleEngines)
    as (this1 & Hrun & Hevents & Hnotification & Hagain); try reflexivity.
  eexists. exists this1. split; [exact Hrun|]. split; [exact Hevents|].
  split; [exact Hnotification|apply Hagain].
Defined.

(** X15 instantiated: a database of [did:vda:0xdef] is opened on a context
    nobody is signed in to. *)
Lemma openExternalDatabase_without_account_witness :
  exists database this1,
    @openExternalDatabase (resolvesTo "VeridaDatabase") opensExternal
      "TestDb_1" "did:vda:0xdef" externalConfig anonymousContext
    = Ok database this1 /\
    events this1
    = [ OpenDatabase "https://db.example/" "TestDb_1";
        ResolveConfig "did:vda:0xdef" "Test App" None;
        ResolveConfig "did:vda:0xdef" "Test App" (Some false) ] /\
    @openDatabase (resolvesTo "VeridaDatabase") "TestDb_1" sampleOpenConfig
      this1
    = Throw (Error "Unable to open database. No authenticated user.") this1.
Proof.
  destruct (@openExternalDatabase_without_account
              (resolvesTo "VeridaDatabase") opensExternal "TestDb_1"
              "did:vda:0xdef" externalConfig (configOfType "VeridaDatabase")
              {| database_name := "TestDb_1";
                 database_did := "did:vda:0xdef";
                 database_engine :=
                   construct StorageEngineVerida "Test App"
                     "https://db.example/" |}
              anonymousContext)
    as (this1 & Hrun & Hevents & _ & _ & Hown); try reflexivity.
  eexists. exists this1. split; [exact Hrun|]. split; [exact Hevents|].
  exact Hown.
Defined.

End ContextSessionExamples.

(** ** The messaging engine and the account *)
Module MessagingConnectionFacts.
Import Js Keyrings MessagingEngine MessagingConnection.

Section Connecting.
Context `{!Collaborators}.

(** The run of [connectAccount] when the keyring is handed out and the
    inbox initialises: the inbox is the one the engine had, or a new one
    holding the keyring. *)
Lemma connectAccount_run (account : StorageContext.Account)
  (k : Keyring) (this : Connection) :
  let opened :=
    default {| inbox_keyring := Some k; inbox_maxItems := maxItems this |}
      (inbox this) in
  accountKeyring account (contextName (engine this)) = inr k ->
  inboxInit opened = inr tt ->
  connectAccount account this
  = Ok tt (set_inbox opened
             (set_keyring k
                (set_did (StorageContext.account_did account) this))).
Proof.
  intros opened Hkeyring Hinit. subst opened.
  unfold connectAccount, init, getInbox. run. rewrite Hkeyring. simpl.
  destruct (inbox this) as [old|] eqn:Hinbox; simpl in *; rewrite Hinit;
    [|reflexivity].
  unfold set_inbox, set_keyring, set_did. simpl. by rewrite Hinbox.
Qed.

(** X16.  [connectAccount(account)], when the account hands out its
    keyring and the inbox initialises, sets the DID and the keyring of the
    engine and leaves it with an inbox that [getInbox()] returns from then
    on.  An inbox the engine already had is kept as it is, with the keyring
    it was built with; otherwise the inbox is built with the new keyring
    and the engine's [maxItems]. *)
Theorem connectAccount_keeps_inbox (account : StorageContext.Account)
  (k : Keyring) (this : Connection) :
  let opened :=
    default {| inbox_keyring := Some k; inbox_maxItems := maxItems this |}
      (inbox this) in
  accountKeyring account (contextName (engine this)) = inr k ->
  inboxInit opened = inr tt ->
  exists this1,
    connectAccount account this = Ok tt this1 /\
    did (engine this1) = Some (StorageContext.account_did account) /\
    keyring this1 = Some k /\
    inbox this1 = Some opened /\
    getInbox this1 = Ok opened this1.
Proof.
  intros opened Hkeyring Hinit.
  eexists. split; [exact (connectAccount_run account k this Hkeyring Hinit)|].
  repeat split.
Qed.

(** X17.  On a newly constructed engine [init()] throws, no account being
    connected.  [getInbox()] does not: it builds an inbox without a
    keyring, and that inbox stays the engine's inbox after
    [connectAccount] has set the keyring. *)
Theorem getInbox_before_connecting (contextName : string)
  (config : ContextSession.MessagesConfig)
  (notificationService : option Notification)
  (account : StorageContext.Account) (k : Keyring) :
  let this := new contextName config notificationService in
  let early := {| inbox_keyring := None; inbox_maxItems := maxItems this |} in
  accountKeyring account contextName = inr k ->
  inboxInit early = inr tt ->
  init this
  = Throw (Error "Unable to initialize messaging as no account is connected")
      this /\
  exists this0 this1,
    getInbox this = Ok early this0 /\
    connectAccount account this0 = Ok tt this1 /\
    keyring this1 = Some k /\
    getInbox this1 = Ok early this1.
Proof.
  intros this early Hkeyring Hinit. subst this early. simpl in Hinit.
  split; [reflexivity|].
  eexists. eexists. split; [unfold getInbox; run; reflexivity|].
  unfold connectAccount, init, getInbox. run. rewrite Hkeyring. simpl.
  rewrite Hinit. repeat split.
Qed.

End Connecting.

Section Composition.
Context `{!StorageContext.Collaborators} `{!Collaborators}.

#[local] Existing Instance messaging.

(** X18.  [Context.getMessaging] with [MessagingEngineVerida] as the
    engine, for an account whose context has a message server and a
    notification server of the registered types: the engine returned is
    cached, pings the notification engine of the context (which is cached
    too), carries the DID and the keyring of the account and an inbox built
    with that keyring, and its [maxItems] is the number the configuration
    gives, or 50 when the configuration gives none or gives zero. *)
Theorem getMessaging_connects_engine
  (messageConfig : ContextSession.MessagesConfig)
  (a : StorageContext.Account)
  (contextConfig : StorageLink.SecureContextConfig)
  (server : StorageLink.SecureContextEndpoint) (k : Keyring)
  (this : ContextSession.ContextEngines Connection) :
  let name := StorageContext.contextName (ContextSession.context this) in
  let notification :=
    {| notification_endpointUri := StorageLink.endpointUri server |} in
  let built := new name messageConfig (Some notification) in
  let opened :=
    {| inbox_keyring := Some k; inbox_maxItems := maxItems built |} in
  ContextSession.messagingEngine this = None ->
  ContextSession.notificationEngine this = None ->
  StorageContext.account (ContextSession.context this) = Some a ->
  StorageContext.getDIDContextConfig (StorageContext.account_did a) name
    (Some true) = inr contextConfig ->
  StorageContext.getDIDContextConfig (StorageContext.account_did a) name
    (Some false) = inr contextConfig ->
  StorageLink.type (StorageLink.messageServer
                      (StorageLink.services contextConfig))
  = "VeridaMessage" ->
  StorageLink.notificationServer (StorageLink.services contextConfig)
  = Some server ->
  StorageLink.type server = "VeridaNotification" ->
  accountKeyring a name = inr k ->
  inboxInit opened = inr tt ->
  exists connected this1,
    ContextSession.getMessaging messageConfig this = Ok connected this1 /\
    ContextSession.messagingEngine this1 = Some connected /\
    ContextSession.notificationEngine this1 = Some notification /\
    notificationService (engine connected) = Some notification /\
    did (engine connected) = Some (StorageContext.account_did a) /\
    keyring connected = Some k /\
    inbox connected = Some opened /\
    (ContextSession.messages_maxItems messageConfig = None ->
     maxItems connected = 50%Z) /\
    (ContextSession.messages_maxItems messageConfig = Some 0%Z ->
     maxItems connected = 50%Z) /\
    (forall n,
       ContextSession.messages_maxItems messageConfig = Some n ->
       n <> 0%Z -> maxItems connected = n).
Proof.
  intros name notification built opened Hnone Hnotif Haccount Hforce Hplain
    Htype Hserver Hkind Hkeyring Hinit.
  assert (forall c, StorageContext.account c = Some a ->
            StorageContext.resolvedDid (StorageContext.account_did a) c
            = Some (StorageContext.account_did a)) as Hdid.
  { intros c Hc. unfold StorageContext.resolvedDid. rewrite Hc.
    by destruct (truthy _). }
  pose proof (connectAccount_run a k built Hkeyring Hinit) as Hconnect.
  unfold ContextSession.getMessaging.
  unfold mbind at 1, M_bind at 1, Js.bind at 1, Js.get at 1.
  rewrite Hnone, Haccount.
  unfold mbind at 1, M_bind at 1, Js.bind at 1.
  unfold ContextSession.on_context at 1.
  rewrite (StorageContextFacts.getContextConfig_run _ _ (Some true)
             (ContextSession.context this) (Hdid _ Haccount)).
  fold name. rewrite Hforce.
  rewrite Htype.
  unfold get_property at 1, ContextSession.MESSAGING_ENGINES.
  rewrite lookup_singleton_eq.
  unfold mbind at 1, M_bind at 1, Js.bind at 1.
  unfold ContextSession.getNotification at 1.
  unfold mbind at 1, M_bind at 1, Js.bind at 1, Js.get at 1.
  cbn [ContextSession.notificationEngine ContextSession.set_context
       ContextSession.context StorageContext.record StorageContext.account].
  rewrite Hnotif, Haccount.
  unfold mbind at 1, M_bind at 1, Js.bind at 1.
  unfold ContextSession.on_context at 1.
  cbn [ContextSession.context ContextSession.set_context].
  rewrite (StorageContextFacts.getContextConfig_run _ _ (Some false)
             (StorageContext.record _ (ContextSession.context this))
             (Hdid _ Haccount)).
  cbn [StorageContext.contextName StorageContext.record]. fold name.
  rewrite Hplain, Hserver, Hkind.
  unfold get_property at 1, ContextSession.NOTIFICATION_ENGINES.
  rewrite lookup_singleton_eq.
  unfold mbind at 1, M_bind at 1, Js.bind at 1, Js.modify at 1.
  unfold mret at 1, M_ret at 1, Js.ret at 1.
  unfold mbind at 1, M_bind at 1, Js.bind at 1, Js.modify at 1.
  cbn [ContextSession.messagingConnectAccount ContextSession.newMessaging
       messaging].
  fold notification. fold built. rewrite Hconnect. run.
  eexists. eexists. split; [reflexivity|].
  do 6 (split; [reflexivity|]).
  subst built. unfold new. simpl.
  split; [by intros ->|]. split; [by intros ->|].
  intros n -> Hn. apply Z.eqb_neq in Hn. by rewrite Hn.
Qed.

End Composition.
End MessagingConnectionFacts.

(** ** The messaging engine with an account *)
Module MessagingConnectionExamples.
Import Js Keyrings MessagingEngine MessagingConnection.
Import MessagingConnectionFacts StandIns.

(** X16 instantiated on a newly constructed engine. *)
Lemma connectAccount_keeps_inbox_witness :
  exists this1,
    @connectAccount keyringGranted
      {| StorageContext.account_did := "did:vda:0xabc" |}
      (new "Test App" defaultMessages None) = Ok tt this1 /\
    did (engine this1) = Some "did:vda:0xabc" /\
    keyring this1 = Some {| seed := "did:vda:0xabc/Test App" |} /\
    inbox this1
    = Some {| inbox_keyring := Some {| seed := "did:vda:0xabc/Test App" |};
              inbox_maxItems := 50 |}.
Proof.
  destruct (@connectAccount_keeps_inbox keyringGranted
              {| StorageContext.account_did := "did:vda:0xabc" |}
              {| seed := "did:vda:0xabc/Test App" |}
              (new "Test App" defaultMessages None))
    as (this1 & Hrun & Hdid & Hkeyring & Hinbox & _); try reflexivity.
  exists this1. split; [exact Hrun|]. split; [exact Hdid|].
  split; [exact Hkeyring|exact Hinbox].
Defined.

(** X17 instantiated: the inbox obtained before the account is connected
    has no keyring, and is the inbox afterwards. *)
Lemma getInbox_before_connecting_witness :
  exists early this0 this1,
    getInbox (new "Test App" defaultMessages None) = Ok early this0 /\
    inbox_keyring early = None /\
    @connectAccount keyringGranted
      {| StorageContext.account_did := "did:vda:0xabc" |} this0
    = Ok tt this1 /\
    keyring this1 = Some {| seed := "did:vda:0xabc/Test App" |} /\
    getInbox this1 = Ok early this1.
Proof.
  destruct (@getInbox_before_connecting keyringGranted "Test App"
              defaultMessages None
              {| StorageContext.account_did := "did:vda:0xabc" |}
              {| seed := "did:vda:0xabc/Test App" |})
    as (_ & this0 & this1 & Hearly & Hconnect & Hkeyring & Hagain);
    try reflexivity.
  eexists. exists this0, this1. split; [exact Hearly|].
  split; [reflexivity|]. split; [exact Hconnect|].
  split; [exact Hkeyring|exact Hagain].
Defined.

(** X18 instantiated: the resolver reports a notification server. *)
Lemma getMessaging_connects_engine_witness :
  exists connected this1,
    @ContextSession.getMessaging _ resolvesNotifying
      (@messaging keyringGranted) defaultMessages sampleEngines
    = Ok connected this1 /\
    notificationService (engine connected)
    = Some {| notification_endpointUri := "https://notify.example/" |} /\
    did (engine connected) = Some "did:vda:0xabc" /\
    keyring connected = Some {| seed := "did:vda:0xabc/Test App" |} /\
    maxItems connected = 50%Z.
Proof.
  destruct (@getMessaging_connects_engine resolvesNotifying keyringGranted
              defaultMessages
              {| StorageContext.account_did := "did:vda:0xabc" |}
              notifyingConfig
              {| StorageLink.type := "VeridaNotification";
                 StorageLink.endpointUri := "https://notify.example/" |}
              {| seed := "did:vda:0xabc/Test App" |} sampleEngines)
    as (connected & this1 & Hrun & _ & _ & Hservice & Hdid & Hkeyring & _
        & Hnone & _); try reflexivity.
  exists connected, this1. split; [exact Hrun|]. split; [exact Hservice|].
  split; [exact Hdid|]. split; [exact Hkeyring|exact (Hnone eq_refl)].
Defined.

End MessagingConnectionExamples.

(** ** The automatic account: storage links *)
Module AutoAccountStorageFacts.
Import Js EncryptionUtils StorageLink Keyrings AutoAccountStorage.

Section Links.
Context {DIDClient : Type}.
Context `{!Collaborators DIDClient} `{!Primitives string}.

(** [ensureAuthenticated] never fails and leaves the client [ensured]. *)
Lemma ensureAuthenticated_run (this : AutoAccount DIDClient) :
  ensureAuthenticated this = Ok tt (set_didClient (ensured this) this).
Proof.
  unfold ensureAuthenticated, ensured. run.
  destruct (authenticated (didClient this)); simpl; [|reflexivity].
  by destruct this.
Qed.

(** X19.  [storageConfig(contextName, forceCreate)] returns what
    [StorageLink.getLink] reports, be it [undefined], whenever a link exists
    or [forceCreate] is not [true]: it asks for the link once, with the
    authenticated client and the DID of the wallet, and neither generates a
    configuration nor writes a link. *)
Theorem storageConfig_without_force (contextName : string)
  (forceCreate : option bool) (link : option SecureContextConfig)
  (this : AutoAccount DIDClient) :
  let did := wallet_did (wallet this) in
  getLink (ensured this) did contextName = inr link ->
  is_Some link \/ forceCreate <> Some true ->
  exists this1,
    storageConfig contextName forceCreate this = Ok link this1 /\
    events this1 = GetLink did contextName :: events this /\
    didClient this1 = ensured this.
Proof.
  intros did Hlink Hcase. subst did.
  unfold storageConfig.
  unfold mbind at 1, M_bind at 1, Js.bind at 1.
  rewrite ensureAuthenticated_run. run. rewrite Hlink. simpl.
  destruct link as [cfg|]; [by eexists|].
  destruct Hcase as [[? [=]]|Hforce].
  destruct forceCreate as [[]|]; try congruence; by eexists.
Qed.

(** X20.  [storageConfig(contextName, true)] for a context without a link
    generates a configuration from the default endpoints of the account and
    links it: [StorageLink.setLink] receives the generated configuration
    and the keyring of the context the configuration names
    ([storageConfig.id], not the [contextName] argument), whose seed is the
    wallet's signature of the consent message for the lower-cased DID.  The
    generated configuration is returned. *)
Theorem storageConfig_creates_link (contextName : string)
  (created : SecureContextConfig) (this : AutoAccount DIDClient) :
  let did := wallet_did (wallet this) in
  let endpoints := defaultEndpoints (accountConfig this) in
  let keyring :=
    {| seed :=
         signData (consentMessage (config_id created) (toLowerCase did))
           (KeyBytes (privateKeyBuffer (wallet this))) |} in
  getLink (ensured this) did contextName = inr None ->
  generate (wallet this) contextName endpoints = inr created ->
  authenticated (ensured this) = true ->
  setLink (ensured this) created keyring (privateKey (wallet this))
  = inr tt ->
  exists this1,
    storageConfig contextName (Some true) this = Ok (Some created) this1 /\
    events this1
    = ([ SetLink created keyring; Generate contextName endpoints;
         GetLink did contextName ] ++ events this)%list.
Proof.
  intros did endpoints keyring Hlink Hgenerate Hauth Hset.
  subst did endpoints keyring.
  unfold storageConfig.
  unfold mbind at 1, M_bind at 1, Js.bind at 1.
  rewrite ensureAuthenticated_run. run. rewrite Hlink. simpl.
  rewrite Hgenerate. simpl.
  unfold linkStorage.
  unfold mbind at 1, M_bind at 1, Js.bind at 1.
  rewrite ensureAuthenticated_run.
  unfold ensured at 1. simpl. rewrite Hauth.
  unfold keyring, sign, AutoAccountStorage.did. run. rewrite Hset.
  eexists. repeat split.
Qed.

End Links.
End AutoAccountStorageFacts.

(** ** The automatic account with a registry of links *)
Module AutoAccountStorageExamples.
Import Js EncryptionUtils StorageLink Keyrings AutoAccountStorage.
Import AutoAccountStorageFacts StandIns.

(** X19 instantiated: no link, and no request to create one. *)
Lemma storageConfig_without_force_witness :
  exists this1,
    @storageConfig _ linksTestApp textual "Another App" None
      sampleAutoAccount = Ok None this1 /\
    events this1 = [GetLink "did:vda:0xABC" "Another App"] /\
    didClient this1 = true.
Proof.
  refine (@storageConfig_without_force _ linksTestApp textual "Another App"
            None None sampleAutoAccount _ _); [reflexivity|by right].
Defined.

(** X20 instantiated: the link of [Another App] is created. *)
Lemma storageConfig_creates_link_witness :
  exists this1 created keyring,
    @storageConfig _ linksTestApp textual "Another App" (Some true)
      sampleAutoAccount = Ok (Some created) this1 /\
    events this1
    = [ SetLink created keyring;
        Generate "Another App"
          (defaultEndpoints (accountConfig sampleAutoAccount));
        GetLink "did:vda:0xABC" "Another App" ] /\
    keyring
    = {| seed :=
           @signData _ textual
             (consentMessage "Another App" "did:vda:0xabc")
             (KeyBytes (list_byte_of_string "key")) |}.
Proof.
  destruct (@storageConfig_creates_link _ linksTestApp textual "Another App"
              {| config_id := "Another App";
                 publicKeys := publicKeys (configOfType "VeridaDatabase");
                 services := defaultEndpoints
                               (accountConfig sampleAutoAccount) |}
              sampleAutoAccount)
    as (this1 & Hrun & Hevents); try reflexivity.
  exists this1. eexists. eexists. split; [exact Hrun|].
  split; [exact Hevents|reflexivity].
Defined.

End AutoAccountStorageExamples.

(** ** The Vault account: sessions and the context cache *)
Module VaultAccountFacts.
Import Js StorageLink Keyrings VaultAccount.

Lemma get_property_insert {V} (o : gmap string V) (k : string) (v : V) :
  get_property (<[k := v]> o) k = Own v.
Proof. unfold get_property. by rewrite lookup_insert_eq. Qed.

Lemma get_property_insert_ne {V} (o : gmap string V) (k k' : string) (v : V) :
  k <> k' -> get_property (<[k := v]> o) k' = get_property o k'.
Proof. intros Hne. unfold get_property. by rewrite lookup_insert_ne. Qed.

(** X21.  After [addContext(contextName, contextConfig, keyring)], for a
    name other than [__proto__], [keyring(contextName)] returns that keyring
    and [storageConfig(contextName)] that configuration, whatever
    [forceCreate] is and without a dialog; the entries of the other
    contexts and the stored sessions are as before. *)
Theorem addContext_then_keyring `{!Browser} (contextName : string)
  (contextConfig : SecureContextConfig) (k : Keyring) (this : VaultAccount) :
  contextName <> "__proto__" ->
  exists this1,
    addContext contextName contextConfig k this = Ok tt this1 /\
    keyring contextName this1 = Ok k this1 /\
    (forall forceCreate,
       storageConfig contextName forceCreate this1
       = Ok (Some contextConfig) this1) /\
    (forall other,
       other <> contextName ->
       get_property (contextCache this1) other
       = get_property (contextCache this) other) /\
    sessions this1 = sessions this.
Proof.
  intros Hname. apply String.eqb_neq in Hname.
  unfold addContext. rewrite Hname. eexists. split; [reflexivity|].
  split; [|split; [|split]].
  - unfold keyring. run. by rewrite get_property_insert.
  - intros forceCreate. unfold storageConfig. run.
    by rewrite get_property_insert.
  - intros other Hother. simpl. by apply get_property_insert_ne.
  - reflexivity.
Qed.


(** X23.  [disconnect()] removes the stored sessions and nothing else,
    whatever its argument: afterwards, on a page without a token,
    [hasSession] is [false] and [loadFromSession] finds nothing for every
    context, while the keyring and the configuration of a cached context
    and the DID of the account are still handed out. *)
Theorem disconnect_keeps_cache `{!Browser} (contextName : string)
  (entry : CacheEntry) (argument : option string) (this : VaultAccount) :
  getAuthTokenFromQueryParams = NoToken ->
  contextCache this !! contextName = Some entry ->
  exists this1,
    disconnect argument this = Ok tt this1 /\
    (forall name, hasSession name this1 = Ok false this1) /\
    (forall name, loadFromSession name this1 = Ok None this1) /\
    keyring contextName this1 = Ok (entry_keyring entry) this1 /\
    (forall forceCreate,
       storageConfig contextName forceCreate this1
       = Ok (Some (entry_contextConfig entry)) this1) /\
    did this1 = Ok (accountDid this) this1.
Proof.
  intros Htoken Hentry. eexists. split; [reflexivity|].
  unfold hasSession, loadFromSession, token_for, keyring, storageConfig.
  rewrite Htoken. run. unfold get_property. rewrite Hentry.
  repeat split.
Qed.

(** X24.  [storageConfig] for a context that is neither cached nor stored,
    on a page without a token: without [forceCreate] it returns [undefined]
    and opens no dialog; with [forceCreate] it opens the Vault dialog, and
    returns [undefined] when the user declines, or the configuration of the
    Vault's response for that context, setting the DID and storing the
    session exactly when the response asks for it. *)
Theorem storageConfig_asks_the_vault `{!Browser} (contextName : string)
  (this : VaultAccount) :
  getAuthTokenFromQueryParams = NoToken ->
  contextName <> "__proto__" ->
  get_property (contextCache this) contextName = Undefined ->
  sessions this = None ->
  storageConfig contextName false this = Ok None this /\
  match VaultModalLogin contextName with
  | Declined => storageConfig contextName true this = Ok None this
  | Granted response saveSession =>
      session_context response = contextName ->
      exists this1,
        storageConfig contextName true this
        = Ok (Some (session_contextConfig response)) this1 /\
        accountDid this1 = Some (session_did response) /\
        sessions this1
        = (if saveSession then Some {[ contextName := response ]} else None)
  end.
Proof.
  intros Htoken Hname Hmiss Hnone. apply String.eqb_neq in Hname.
  unfold storageConfig, connectContext, loadFromSession, token_for.
  rewrite Htoken. run. rewrite Hmiss, Hnone. split; [reflexivity|].
  destruct (VaultModalLogin contextName) as [response saveSession|].
  2:{ simpl. by rewrite Hmiss. }
  intros Hcontext. unfold store_session, setDid, addContext.
  rewrite Hcontext, Hname. run.
  destruct saveSession; simpl; rewrite get_property_insert;
    eexists; repeat split; simpl; rewrite ?Hnone; simpl;
    by rewrite ?insert_empty.
Qed.

End VaultAccountFacts.

(** ** The Vault account in a browser *)
Module VaultAccountExamples.
Import Js StorageLink Keyrings VaultAccount VaultAccountFacts StandIns.

(** X21 instantiated on a new account. *)
Lemma addContext_then_keyring_witness :
  exists this1,
    addContext "Test App" (configOfType "VeridaDatabase")
      {| seed := "0x1b2c3d" |} newVaultAccount = Ok tt this1 /\
    keyring "Test App" this1 = Ok {| seed := "0x1b2c3d" |} this1 /\
    @storageConfig decliningPage "Test App" false this1
    = Ok (Some (configOfType "VeridaDatabase")) this1.
Proof.
  destruct (@addContext_then_keyring decliningPage "Test App"
              (configOfType "VeridaDatabase") {| seed := "0x1b2c3d" |}
              newVaultAccount)
    as (this1 & Hadd & Hkeyring & Hconfig & _); [discriminate|].
  exists this1. split; [exact Hadd|]. split; [exact Hkeyring|apply Hconfig].
Defined.


(** X23 instantiated: the session of the token is removed, the keyring
    stays. *)
Lemma disconnect_keeps_cache_witness :
  exists this0 this1,
    @loadFromSession landingPage "Test App" newVaultAccount
    = Ok (Some (configOfType "VeridaDatabase")) this0 /\
    disconnect None this0 = Ok tt this1 /\
    @hasSession decliningPage "Test App" this1 = Ok false this1 /\
    keyring "Test App" this1 = Ok {| seed := "0x1b2c3d" |} this1.
Proof.
  eexists. eexists. split; [vm_compute; reflexivity|].
  match goal with |- disconnect None ?t0 = Ok tt ?t1 /\ _ =>
    destruct (@disconnect_keeps_cache decliningPage "Test App"
                {| entry_keyring := {| seed := "0x1b2c3d" |};
                   entry_contextConfig := configOfType "VeridaDatabase" |}
                None t0)
      as (this1 & Hrun & Hhas & _ & Hkeyring & _)
  end; try reflexivity.
  injection Hrun as <-.
  split; [reflexivity|]. split; [apply Hhas|exact Hkeyring].
Defined.

(** X24 instantiated: the user grants, or declines. *)
Lemma storageConfig_asks_the_vault_witness :
  @storageConfig laterPage "Test App" false newVaultAccount
  = Ok None newVaultAccount /\
  @storageConfig decliningPage "Test App" true newVaultAccount
  = Ok None newVaultAccount /\
  exists this1,
    @storageConfig laterPage "Test App" true newVaultAccount
    = Ok (Some (configOfType "VeridaDatabase")) this1 /\
    sessions this1 = Some {[ "Test App" := sampleSession ]}.
Proof.
  destruct (@storageConfig_asks_the_vault laterPage "Test App"
              newVaultAccount) as [Hplain Hgranted];
    try reflexivity; try discriminate.
  destruct (@storageConfig_asks_the_vault decliningPage "Test App"
              newVaultAccount) as [_ Hdeclined];
    try reflexivity; try discriminate.
  split; [exact Hplain|]. split; [exact Hdeclined|].
  destruct (Hgranted eq_refl) as (this1 & Hrun & _ & Hsessions).
  exists this1. split; [exact Hrun|exact Hsessions].
Defined.

End VaultAccountExamples.

(** ** Credentials: expiry *)
Module CredentialsFacts.
Import Js Credentials.

Section Expiry.
Context `{!Collaborators}.

(** X25.  [verifyCredential] for a credential the library decodes: without
    an expiry date the decoded credential is returned and nothing is
    recorded; with one, the credential is returned when the expiry is not
    before the given time, and otherwise the result is [false] and
    [Credential has expired] is appended to the errors, which are never
    cleared, so that a second verification leaves the message twice. *)
Theorem verifyCredential_expiry (vcJwt environment : string)
  (vc : VerifiedCredential) (this : Credentials) :
  verifyCredentialJwt vcJwt environment = inr (Some vc) ->
  (truthy_opt (expirationDate vc) = false ->
   forall currentDateTime,
     verifyCredential vcJwt environment currentDateTime this
     = Ok (Decoded (Some vc)) this) /\
  (forall expires now n,
     expirationDate vc = Some expires -> truthy expires = true ->
     truthy now = true ->
     diff expires now = Some n ->
     ((0 <= n)%Z ->
      verifyCredential vcJwt environment (Some now) this
      = Ok (Decoded (Some vc)) this) /\
     ((n < 0)%Z ->
      exists this1 this2,
        verifyCredential vcJwt environment (Some now) this
        = Ok Refused this1 /\
        verifyCredential vcJwt environment (Some now) this1
        = Ok Refused this2 /\
        getErrors this2
        = Ok (errors this
              ++ ["Credential has expired"; "Credential has expired"])%list
             this2)).
Proof.
  intros Hjwt.
  assert (forall currentDateTime s,
    verifyCredential vcJwt environment currentDateTime s
    = (if truthy_opt (expirationDate vc) then
         match diff (default "" (expirationDate vc))
                 (if truthy_opt currentDateTime
                  then default "" currentDateTime else clock) with
         | Some n =>
             if (n <? 0)%Z
             then Ok Refused (push_error "Credential has expired" s)
             else Ok (Decoded (Some vc)) s
         | None => Ok (Decoded (Some vc)) s
         end
       else Ok (Decoded (Some vc)) s)) as Hrun.
  { intros currentDateTime s. unfold verifyCredential.
    unfold mbind at 1, M_bind at 1, Js.bind at 1, Js.await.
    rewrite Hjwt. unfold mret at 1, M_ret at 1, Js.ret at 1.
    destruct (truthy_opt (expirationDate vc)); [|reflexivity].
    destruct (diff _ _) as [n|]; [|reflexivity].
    by destruct (n <? 0)%Z. }
  split.
  - intros Hnone currentDateTime. by rewrite Hrun, Hnone.
  - intros expires now n Hexp Htruthy Hnow Hdiff.
    assert (forall s,
      verifyCredential vcJwt environment (Some now) s
      = if (n <? 0)%Z
        then Ok Refused (push_error "Credential has expired" s)
        else Ok (Decoded (Some vc)) s) as Hnow'.
    { intros s. rewrite Hrun, Hexp. simpl. by rewrite Htruthy, Hnow, Hdiff. }
    split.
    + intros Hn. apply Z.ltb_ge in Hn. by rewrite Hnow', Hn.
    + intros Hn. apply Z.ltb_lt in Hn.
      eexists. eexists. rewrite !Hnow', Hn.
      split; [reflexivity|]. split; [reflexivity|].
      unfold getErrors. run. by rewrite <- app_assoc.
Qed.

End Expiry.
End CredentialsFacts.

(** ** Credentials with ISO dates *)
Module CredentialsExamples.
Import Js Credentials CredentialsFacts StandIns.

(** X25 instantiated: a credential that expires with the year 2022,
    verified in June 2022 and in January 2023. *)
Lemma verifyCredential_expiry_witness :
  @verifyCredential isoDates "eyJhbGciOiJFUzI1NksifQ" "testnet"
    (Some "2022-06-01T00:00:00.000Z") {| errors := [] |}
  = Ok (Decoded (Some sampleCredential)) {| errors := [] |} /\
  exists this1 this2,
    @verifyCredential isoDates "eyJhbGciOiJFUzI1NksifQ" "testnet"
      (Some "2023-01-01T00:00:00.000Z") {| errors := [] |}
    = Ok Refused this1 /\
    @verifyCredential isoDates "eyJhbGciOiJFUzI1NksifQ" "testnet"
      (Some "2023-01-01T00:00:00.000Z") this1 = Ok Refused this2 /\
    getErrors this2
    = Ok ["Credential has expired"; "Credential has expired"] this2.
Proof.
  pose proof (@verifyCredential_expiry isoDates "eyJhbGciOiJFUzI1NksifQ"
                "testnet" sampleCredential {| errors := [] |} eq_refl)
    as [_ Hexpiry].
  split.
  - refine (proj1 (Hexpiry "2022-12-31T23:59:59.000Z"
                     "2022-06-01T00:00:00.000Z" 1%Z _ _ _ _) _);
      first [reflexivity|lia].
  - refine (proj2 (Hexpiry "2022-12-31T23:59:59.000Z"
                     "2023-01-01T00:00:00.000Z" (-1)%Z _ _ _ _) _);
      first [reflexivity|lia].
Defined.

End CredentialsExamples.
